(** * libfprint print records: [libfprint/fp-print.c]

    A shallow embedding of the print record of libfprint (the [FpPrint]
    object), of its binary container ("FP3"), of the bozorth3 matching loop,
    of the equality test and of the minutiae encoder, followed by the
    properties of the code that the specification states.

    The C file rests on GLib (GObject properties, [GVariant], [GDate],
    [GError], [g_assert]) and on NBIS (bozorth3, lfs).  What the code needs
    of GLib is modelled in the first part; the NBIS primitives, the
    [GVariant] wire format and the host byte order are parameters of the
    embedding, so every statement holds whatever they are. *)

From Stdlib Require Import ZArith String Ascii Bool Lia Permutation.
From Stdlib Require Import Strings.Byte List.
Import ListNotations.
Set Warnings "-register-all".
Open Scope Z_scope.

(** ** Fixed-width integers *)

Definition G_MININT32 : Z := -2147483648.
Definition G_MAXINT32 : Z := 2147483647.
Definition G_MAXINT : Z := 2147483647.

(** Conversion of an integer to [guint32], [gint32] ([gint]) and [guint8]:
    the value modulo the width, read unsigned or in two's complement. *)
Definition to_guint32 (z : Z) : Z := z mod 4294967296.
Definition to_gint32 (z : Z) : Z := (z + 2147483648) mod 4294967296 - 2147483648.
Definition to_guint8 (z : Z) : Z := z mod 256.

(** [G_BYTE_ORDER]: a constant of the build. *)
Inductive ByteOrder : Type := G_LITTLE_ENDIAN | G_BIG_ENDIAN.

(** [GUINT32_SWAP_LE_BE]: the four bytes of a [guint32] in reverse order. *)
Definition GUINT32_SWAP_LE_BE (val : Z) : Z :=
  Z.lor (Z.lor (Z.shiftl (Z.land val 255) 24)
               (Z.shiftl (Z.land val 65280) 8))
        (Z.lor (Z.shiftr (Z.land val 16711680) 8)
               (Z.shiftr (Z.land val 4278190080) 24)).

(** [GINT32_TO_LE]: the identity on a little-endian host, the byte swap on a
    big-endian one. *)
Definition GINT32_TO_LE (host : ByteOrder) (val : Z) : Z :=
  match host with
  | G_LITTLE_ENDIAN => val
  | G_BIG_ENDIAN => to_gint32 (GUINT32_SWAP_LE_BE (to_guint32 val))
  end.

(** ** Outcomes of a call

    A function of the file returns normally, returns with a [GError] set
    ([FALSE] or [NULL] and [*error]), or has no result to speak of: a
    failed [g_assert] aborts the process, and when the code needs the
    result of a GLib or C operation that is outside its documented contract
    (a [NULL] where a value is required, a child of a value that has none,
    a read past an array) nothing is defined from there on.

    The embedding follows the fields of the records; it has no heap, so
    what a [free] function releases is not part of it. *)

Inductive GErrorCode : Type :=
| G_IO_ERROR_INVALID_DATA
| FP_DEVICE_ERROR_GENERAL
| FP_DEVICE_ERROR_NOT_SUPPORTED.

Record GError : Type := mkGError {
  error_code : GErrorCode;
  error_message : string
}.

Inductive abort_cause : Type :=
| AssertionFailed   (* g_assert *)
| OutOfContract.    (* a GLib or C operation outside its contract *)

Inductive outcome (A : Type) : Type :=
| Returned (a : A)
| Failed (e : GError)
| Aborted (c : abort_cause).

Arguments Returned {A} a.
Arguments Failed {A} e.
Arguments Aborted {A} c.

Definition bind {A B : Type} (m : outcome A) (k : A -> outcome B) : outcome B :=
  match m with
  | Returned a => k a
  | Failed e => Failed e
  | Aborted c => Aborted c
  end.

Declare Scope outcome_scope.
Delimit Scope outcome_scope with outcome.
Notation "x <- m ;; k" := (bind m (fun x => k))
  (at level 61, m at next level, right associativity) : outcome_scope.
Notation "' pat <- m ;; k" := (bind m (fun x => match x with pat => k end))
  (at level 61, pat pattern, m at next level, right associativity) : outcome_scope.
Open Scope outcome_scope.

(** Dereference of a pointer that may be [NULL]. *)
Definition deref {A : Type} (p : option A) : outcome A :=
  match p with
  | Some a => Returned a
  | None => Aborted OutOfContract
  end.

(** [g_assert (cond)]. *)
Definition g_assert (cond : bool) : outcome unit :=
  if cond then Returned tt else Aborted AssertionFailed.

(** The errors of the file, under the names the specification gives them.
    [fpi_print_add_from_image] and [fp_print_deserialize] both use
    [G_IO_ERROR_INVALID_DATA]; the message tells them apart. *)
Definition InvalidData_no_print : GError :=
  mkGError G_IO_ERROR_INVALID_DATA "Cannot add print data from image!".
Definition InvalidData : GError :=
  mkGError G_IO_ERROR_INVALID_DATA "No minutiae found in image or not yet detected!".
Definition InvalidFormat : GError :=
  mkGError G_IO_ERROR_INVALID_DATA "Data could not be parsed".
Definition NotSupported : GError :=
  mkGError FP_DEVICE_ERROR_NOT_SUPPORTED
           "It is only possible to match NBIS type print data".
Definition General : GError :=
  mkGError FP_DEVICE_ERROR_GENERAL "New print contains more than one print!".

(** ** Strings

    A [gchar *] that is not [NULL] is a NUL-terminated UTF-8 string, as
    GLib's string functions and the format ["s"] of [GVariant] require; it
    is a [string] here, and [option string] when it may be [NULL]. *)

(** [g_strcmp0]: [strcmp] that accepts [NULL], which sorts before any
    string. *)
Definition g_strcmp0 (str1 str2 : option string) : Z :=
  match str1, str2 with
  | None, None => 0
  | None, Some _ => -1
  | Some _, None => 1
  | Some s1, Some s2 =>
      match String.compare s1 s2 with
      | Eq => 0
      | Lt => -1
      | Gt => 1
      end
  end.

(** ** Dates

    A [GDate] keeps a day as a Julian day number, as day/month/year, or as
    both, and converts on demand; the two forms name the same day, so a
    valid date is identified here with its Julian day number.  A date that
    has neither form (as [g_date_new] returns it) is invalid. *)

Inductive GDate : Type :=
| GDateInvalid
| GDateJulian (julian_days : Z).

Definition g_date_valid (d : GDate) : bool :=
  match d with
  | GDateInvalid => false
  | GDateJulian _ => true
  end.

(** [g_date_get_julian]: [G_DATE_BAD_JULIAN] (0) for an invalid date. *)
Definition g_date_get_julian (d : GDate) : Z :=
  match d with
  | GDateInvalid => 0
  | GDateJulian j => j
  end.

(** [g_date_valid_julian (guint32 julian_date)]: any day but 0. *)
Definition g_date_valid_julian (julian_date : Z) : bool := 0 <? julian_date.

(** [g_date_new_julian (guint32 julian_day)]: [NULL] when the day is not a
    valid Julian day. *)
Definition g_date_new_julian (julian_day : Z) : option GDate :=
  if g_date_valid_julian julian_day then Some (GDateJulian julian_day) else None.

(** ** GVariant values

    The part of the [GVariant] universe that the container uses: booleans,
    bytes, 32-bit integers, strings, and the containers maybe, array, tuple,
    dictionary entry and variant.  A maybe and an array carry the type of
    their element, as the empty ones have a type too. *)

Inductive GVariantType : Type :=
| G_VARIANT_TYPE_BOOLEAN                    (* b *)
| G_VARIANT_TYPE_BYTE                       (* y *)
| G_VARIANT_TYPE_INT32                      (* i *)
| G_VARIANT_TYPE_STRING                     (* s *)
| G_VARIANT_TYPE_VARIANT                    (* v *)
| GVT_maybe (element : GVariantType)        (* m. *)
| GVT_array (element : GVariantType)        (* a. *)
| GVT_tuple (items : list GVariantType)     (* (...) *)
| GVT_dict_entry (key value : GVariantType). (* {..} *)

Inductive GVariant : Type :=
| GV_boolean (b : bool)
| GV_byte (y : Z)
| GV_int32 (i : Z)
| GV_string (s : string)
| GV_variant (child : GVariant)
| GV_maybe (element : GVariantType) (child : option GVariant)
| GV_array (element : GVariantType) (children : list GVariant)
| GV_tuple (children : list GVariant)
| GV_dict_entry (key value : GVariant).

Fixpoint g_variant_type_equal (t1 t2 : GVariantType) : bool :=
  match t1, t2 with
  | G_VARIANT_TYPE_BOOLEAN, G_VARIANT_TYPE_BOOLEAN => true
  | G_VARIANT_TYPE_BYTE, G_VARIANT_TYPE_BYTE => true
  | G_VARIANT_TYPE_INT32, G_VARIANT_TYPE_INT32 => true
  | G_VARIANT_TYPE_STRING, G_VARIANT_TYPE_STRING => true
  | G_VARIANT_TYPE_VARIANT, G_VARIANT_TYPE_VARIANT => true
  | GVT_maybe e1, GVT_maybe e2 => g_variant_type_equal e1 e2
  | GVT_array e1, GVT_array e2 => g_variant_type_equal e1 e2
  | GVT_tuple l1, GVT_tuple l2 =>
      (fix items (l1 l2 : list GVariantType) : bool :=
         match l1, l2 with
         | [], [] => true
         | a :: l1', b :: l2' => g_variant_type_equal a b && items l1' l2'
         | _, _ => false
         end) l1 l2
  | GVT_dict_entry k1 v1, GVT_dict_entry k2 v2 =>
      g_variant_type_equal k1 k2 && g_variant_type_equal v1 v2
  | _, _ => false
  end.

(** [g_variant_equal]: same type and same contents. *)
Fixpoint g_variant_equal (one two : GVariant) : bool :=
  match one, two with
  | GV_boolean a, GV_boolean b => Bool.eqb a b
  | GV_byte a, GV_byte b => a =? b
  | GV_int32 a, GV_int32 b => a =? b
  | GV_string a, GV_string b => String.eqb a b
  | GV_variant a, GV_variant b => g_variant_equal a b
  | GV_maybe t1 None, GV_maybe t2 None => g_variant_type_equal t1 t2
  | GV_maybe t1 (Some a), GV_maybe t2 (Some b) =>
      g_variant_type_equal t1 t2 && g_variant_equal a b
  | GV_array t1 l1, GV_array t2 l2 =>
      g_variant_type_equal t1 t2 &&
      (fix children (l1 l2 : list GVariant) : bool :=
         match l1, l2 with
         | [], [] => true
         | a :: l1', b :: l2' => g_variant_equal a b && children l1' l2'
         | _, _ => false
         end) l1 l2
  | GV_tuple l1, GV_tuple l2 =>
      (fix children (l1 l2 : list GVariant) : bool :=
         match l1, l2 with
         | [], [] => true
         | a :: l1', b :: l2' => g_variant_equal a b && children l1' l2'
         | _, _ => false
         end) l1 l2
  | GV_dict_entry k1 v1, GV_dict_entry k2 v2 =>
      g_variant_equal k1 k2 && g_variant_equal v1 v2
  | _, _ => false
  end.

(** [g_variant_get_type]. *)
Fixpoint g_variant_get_type (value : GVariant) : GVariantType :=
  match value with
  | GV_boolean _ => G_VARIANT_TYPE_BOOLEAN
  | GV_byte _ => G_VARIANT_TYPE_BYTE
  | GV_int32 _ => G_VARIANT_TYPE_INT32
  | GV_string _ => G_VARIANT_TYPE_STRING
  | GV_variant _ => G_VARIANT_TYPE_VARIANT
  | GV_maybe e _ => GVT_maybe e
  | GV_array e _ => GVT_array e
  | GV_tuple l => GVT_tuple (map g_variant_get_type l)
  | GV_dict_entry k v => GVT_dict_entry (g_variant_get_type k) (g_variant_get_type v)
  end.

(** [g_variant_byteswap]: every multi-byte number of the value has its bytes
    reversed; strings, booleans and bytes are left as they are. *)
Fixpoint g_variant_byteswap (value : GVariant) : GVariant :=
  match value with
  | GV_int32 i => GV_int32 (to_gint32 (GUINT32_SWAP_LE_BE (to_guint32 i)))
  | GV_variant c => GV_variant (g_variant_byteswap c)
  | GV_maybe t c => GV_maybe t (option_map g_variant_byteswap c)
  | GV_array t l => GV_array t (map g_variant_byteswap l)
  | GV_tuple l => GV_tuple (map g_variant_byteswap l)
  | GV_dict_entry k v => GV_dict_entry (g_variant_byteswap k) (g_variant_byteswap v)
  | GV_boolean _ | GV_byte _ | GV_string _ => value
  end.

(** [g_variant_get_normal_form]: a value of the embedding is the value GLib
    reads, which is in normal form already. *)
Definition g_variant_get_normal_form (value : GVariant) : GVariant := value.

(** The value of a byte of a C string, 0 to 255. *)
Definition byte_value (c : ascii) : Z := Z.of_N (N_of_ascii c).

(** The bytes of [str] from the start of a character on ([pending] empty)
    or inside one, where [pending] gives the range of each byte the
    character still needs.  The first byte of a character fixes how many
    bytes follow and, for [E0], [ED], [F0] and [F4], narrows the second so
    that no character has a longer form than it needs, none is a surrogate
    (U+D800 to U+DFFF) and none lies above U+10FFFF.  A C string holds no
    zero byte before its end. *)
Fixpoint utf8_validate_from (pending : list (Z * Z)) (str : string) : bool :=
  match str with
  | EmptyString => match pending with [] => true | _ :: _ => false end
  | String c str' =>
      let b := byte_value c in
      match pending with
      | (lo, hi) :: pending' =>
          (lo <=? b) && (b <=? hi) && utf8_validate_from pending' str'
      | [] =>
          if (1 <=? b) && (b <=? 127) then utf8_validate_from [] str'
          else if (194 <=? b) && (b <=? 223)
          then utf8_validate_from [(128, 191)] str'
          else if b =? 224 then utf8_validate_from [(160, 191); (128, 191)] str'
          else if b =? 237 then utf8_validate_from [(128, 159); (128, 191)] str'
          else if (225 <=? b) && (b <=? 239)
          then utf8_validate_from [(128, 191); (128, 191)] str'
          else if b =? 240
          then utf8_validate_from [(144, 191); (128, 191); (128, 191)] str'
          else if (241 <=? b) && (b <=? 243)
          then utf8_validate_from [(128, 191); (128, 191); (128, 191)] str'
          else if b =? 244
          then utf8_validate_from [(128, 143); (128, 191); (128, 191)] str'
          else false
      end
  end.

(** [g_utf8_validate (str, -1, NULL)]: whether the string is the UTF-8
    encoding of a sequence of Unicode characters. *)
Definition g_utf8_validate (str : string) : bool := utf8_validate_from [] str.

(** The string that the formats ["s"] and ["ms"] of [g_variant_builder_add]
    store for a string that is not [NULL]: [g_variant_new_string] returns
    [NULL] for one that is not valid UTF-8, and the formats then store the
    text below in its place. *)
Definition g_variant_string_stored (s : string) : string :=
  if g_utf8_validate s then s else "[Invalid UTF-8]".

(** The format ["s"] of [g_variant_builder_add], which makes the child with
    [g_variant_new_string]: the string must not be [NULL]. *)
Definition g_variant_new_string (s : option string) : outcome GVariant :=
  s <- deref s;; Returned (GV_string (g_variant_string_stored s)).

(** The format ["ms"] of [g_variant_builder_add]: [NULL] gives Nothing,
    a string the child that the format ["s"] gives. *)
Definition g_variant_new_maybe_string (s : option string) : GVariant :=
  GV_maybe G_VARIANT_TYPE_STRING
           (option_map (fun s => GV_string (g_variant_string_stored s)) s).

(** The children of a container, as [g_variant_n_children] counts them and
    [g_variant_get_child_value] returns them; a value that is no container
    has none to ask for. *)
Definition g_variant_children (value : GVariant) : outcome (list GVariant) :=
  match value with
  | GV_variant c => Returned [c]
  | GV_maybe _ None => Returned []
  | GV_maybe _ (Some c) => Returned [c]
  | GV_array _ l => Returned l
  | GV_tuple l => Returned l
  | GV_dict_entry k v => Returned [k; v]
  | GV_boolean _ | GV_byte _ | GV_int32 _ | GV_string _ => Aborted OutOfContract
  end.

Definition g_variant_n_children (value : GVariant) : outcome nat :=
  l <- g_variant_children value;; Returned (length l).

Definition g_variant_get_child_value (value : GVariant) (index_ : nat)
  : outcome GVariant :=
  l <- g_variant_children value;; deref (nth_error l index_).

Fixpoint traverse {A B : Type} (f : A -> outcome B) (l : list A) : outcome (list B) :=
  match l with
  | [] => Returned []
  | a :: l' => b <- f a;; bs <- traverse f l';; Returned (b :: bs)
  end.

(** [g_variant_get_fixed_array (value, &n_elements, sizeof (gint32))]: the
    elements of an array of 4-byte elements; [n_elements] is the length of
    the list. *)
Definition g_variant_get_fixed_array (value : GVariant) : outcome (list Z) :=
  match value with
  | GV_array G_VARIANT_TYPE_INT32 l =>
      traverse (fun e => match e with
                         | GV_int32 i => Returned i
                         | _ => Aborted OutOfContract
                         end) l
  | _ => Aborted OutOfContract
  end.

(** [g_variant_new_fixed_array (G_VARIANT_TYPE_INT32, col, n, 4)]. *)
Definition g_variant_new_fixed_array (col : list Z) : GVariant :=
  GV_array G_VARIANT_TYPE_INT32 (map GV_int32 col).

(** ** Fixed-capacity arrays and the bozorth3 template

    An array is a list of its cells; a cell is read and written by
    index. *)

(** Modelled from the spec: [MAX_BOZORTH_MINUTIAE] is defined in NBIS's
    bozorth.h, which is not among the sources; the spec gives the capacity
    200, and so does the comment at line 620 of fp-print.c. *)
Definition MAX_BOZORTH_MINUTIAE : nat := 200.

(** Modelled from the spec: [struct xyt_struct] is declared in bozorth.h
    too.  The spec describes it as three parallel fixed-capacity sequences
    of signed 32-bit integers (x, y, theta) plus a count; the code names
    the fields [nrows], [xcol], [ycol], [thetacol] and asserts that a cell
    has 4 bytes (line 840). *)
Record xyt_struct : Type := mk_xyt {
  nrows : Z;
  xcol : list Z;
  ycol : list Z;
  thetacol : list Z
}.

Definition array_get (a : list Z) (i : nat) : Z := nth i a 0.

(** [a[i] = v]; the code never writes outside the array, and the model of a
    write outside leaves the list as it is. *)
Fixpoint array_set (a : list Z) (i : nat) (v : Z) : list Z :=
  match a, i with
  | [], _ => []
  | _ :: t, O => v :: t
  | h :: t, S i' => h :: array_set t i' v
  end.

(** [memcpy (dest, src, sizeof (src[0]) * n)] where [n] is the length of
    [src]: the first [n] cells of [dest] are overwritten. *)
Definition memcpy (dest src : list Z) : list Z :=
  src ++ skipn (length src) dest.

(** [g_new0 (struct xyt_struct, 1)]: all cells zero. *)
Definition g_new0_xyt_struct : xyt_struct :=
  mk_xyt 0 (repeat 0 MAX_BOZORTH_MINUTIAE) (repeat 0 MAX_BOZORTH_MINUTIAE)
         (repeat 0 MAX_BOZORTH_MINUTIAE).

(** The cells of an array of capacity 200, all of them. *)
Definition cells (a : list Z) : list Z :=
  map (array_get a) (seq 0 MAX_BOZORTH_MINUTIAE).

(** The memory of a [struct xyt_struct]: 601 ints without padding.  Two ints
    have the same four bytes exactly when they are equal, so the memory is
    compared int by int. *)
Definition xyt_struct_memory (s : xyt_struct) : list Z :=
  nrows s :: cells (xcol s) ++ cells (ycol s) ++ cells (thetacol s).

(** [memcmp (a, b, sizeof (struct xyt_struct))]: 0 when the two memories are
    the same, else the sign of the first difference (read here on the ints,
    the code only tests the result against 0). *)
Fixpoint memcmp (a b : list Z) : Z :=
  match a, b with
  | x :: a', y :: b' =>
      if x =? y then memcmp a' b' else if x <? y then -1 else 1
  | _, _ => 0
  end.

(** ** The print record *)

(** Modelled from the spec: [FpPrintType] is declared in fpi-print.h, which
    is not among the sources.  The spec gives its three tags (Undefined, Raw,
    TemplateSet); [FP_PRINT_UNDEFINED] is the value of a zero-filled object,
    as [fpi_print_set_type] relies on, and the other two follow in the order
    of declaration. *)
Inductive FpPrintType : Type :=
| FP_PRINT_UNDEFINED
| FP_PRINT_RAW
| FP_PRINT_NBIS.

Definition FpPrintType_value (t : FpPrintType) : Z :=
  match t with
  | FP_PRINT_UNDEFINED => 0
  | FP_PRINT_RAW => 1
  | FP_PRINT_NBIS => 2
  end.

Definition FpPrintType_eqb (a b : FpPrintType) : bool :=
  FpPrintType_value a =? FpPrintType_value b.

(** Modelled from the spec: [FpiMatchResult] is declared in fpi-print.h,
    which is not among the sources; the spec names its three results
    (MatchSuccess, MatchFail, MatchError). *)
Inductive FpiMatchResult : Type :=
| FPI_MATCH_ERROR
| FPI_MATCH_FAIL
| FPI_MATCH_SUCCESS.

(** What [fpi_print_bz3_match] hands back: the result, [*error], and the
    scores it wrote with [fp_dbg], in the order of the calls. *)
Record bz3_match_return : Type := mk_bz3_match_return {
  match_result : FpiMatchResult;
  match_error : option GError;
  match_scores : list Z
}.

(** Modelled from the spec: [struct minutiae_struct] is declared in NBIS's
    bozorth.h, which is not among the sources; [minutiae_to_xyt] uses its
    four ints [col[0]] to [col[3]]: x, y, theta and the quantized
    reliability of a point. *)
Record minutiae_struct : Type := mk_minutiae_struct {
  col0 : Z;
  col1 : Z;
  col2 : Z;
  col3 : Z
}.

(** The container's type, ["(issbymsmsia{sv}v)"]. *)
Definition FP_PRINT_VARIANT_TYPE : GVariantType :=
  GVT_tuple [G_VARIANT_TYPE_INT32; G_VARIANT_TYPE_STRING; G_VARIANT_TYPE_STRING;
             G_VARIANT_TYPE_BOOLEAN; G_VARIANT_TYPE_BYTE;
             GVT_maybe G_VARIANT_TYPE_STRING; GVT_maybe G_VARIANT_TYPE_STRING;
             G_VARIANT_TYPE_INT32;
             GVT_array (GVT_dict_entry G_VARIANT_TYPE_STRING G_VARIANT_TYPE_VARIANT);
             G_VARIANT_TYPE_VARIANT].

(** ["(aiaiai)"], the type of one template of the payload. *)
Definition XYT_VARIANT_TYPE : GVariantType :=
  GVT_tuple [GVT_array G_VARIANT_TYPE_INT32; GVT_array G_VARIANT_TYPE_INT32;
             GVT_array G_VARIANT_TYPE_INT32].

(** The three magic bytes, ['F'], ['P'], ['3']. *)
Definition FP3_MAGIC : list byte := [x46; x50; x33].

Definition bytes_eqb (a b : list byte) : bool :=
  if list_eq_dec Byte.byte_eq_dec a b then true else false.

(** What [g_variant_get (value, "(issbymsmsi@a{sv}v)", ...)] stores through
    its pointers. *)
Record fp3_fields : Type := mk_fp3_fields {
  f_type : Z;
  f_driver : string;
  f_device_id : string;
  f_device_stored : bool;
  f_finger_int8 : Z;
  f_username : option string;
  f_description : option string;
  f_julian_date : Z;
  f_print_data : GVariant
}.

Definition g_variant_get_maybe_string (m : option GVariant) : outcome (option string) :=
  match m with
  | None => Returned None
  | Some (GV_string s) => Returned (Some s)
  | Some _ => Aborted OutOfContract
  end.

(** A value of another shape than the format string is outside the contract
    of [g_variant_get]. *)
Definition g_variant_get_fp3 (value : GVariant) : outcome fp3_fields :=
  match value with
  | GV_tuple [GV_int32 type; GV_string driver; GV_string device_id;
              GV_boolean device_stored; GV_byte finger_int8;
              GV_maybe _ username; GV_maybe _ description;
              GV_int32 julian_date; GV_array _ _; GV_variant print_data] =>
      username <- g_variant_get_maybe_string username;;
      description <- g_variant_get_maybe_string description;;
      Returned (mk_fp3_fields type driver device_id device_stored finger_int8
                              username description julian_date print_data)
  | _ => Aborted OutOfContract
  end.

Section Embedding.

Set Implicit Arguments.

(** The minutia points of NBIS ([struct fp_minutia] of lfs.h): the code hands
    them to NBIS and reads their reliability, nothing else. *)
Variable fp_minutia : Type.

(** Modelled from the spec: [FpImage] is declared in fpi-image.h, which is
    not among the sources.  The spec gives an image its width and height
    and a list of detected minutiae that may be absent; the file reads
    [image->width], [image->height] and [fp_image_get_minutiae (image)]. *)
Record FpImage : Type := mk_FpImage {
  width : Z;
  height : Z;
  minutiae : option (list fp_minutia)
}.

Definition fp_image_get_minutiae (image : FpImage) : option (list fp_minutia) :=
  minutiae image.

(** [struct _FpPrint].  A [gchar *], a [GDate *], a [GVariant *] and a
    [GPtrArray *] may be [NULL]. *)
Record FpPrint : Type := mk_FpPrint {
  type : FpPrintType;
  driver : option string;
  device_id : option string;
  device_stored : bool;
  image : option FpImage;
  finger : Z;
  username : option string;
  description : option string;
  enroll_date : option GDate;
  data : option GVariant;
  prints : option (list xyt_struct)
}.

Definition set_type (p : FpPrint) (v : FpPrintType) : FpPrint :=
  mk_FpPrint v (driver p) (device_id p) (device_stored p) (image p) (finger p)
             (username p) (description p) (enroll_date p) (data p) (prints p).
Definition set_driver (p : FpPrint) (v : option string) : FpPrint :=
  mk_FpPrint (type p) v (device_id p) (device_stored p) (image p) (finger p)
             (username p) (description p) (enroll_date p) (data p) (prints p).
Definition set_device_id (p : FpPrint) (v : option string) : FpPrint :=
  mk_FpPrint (type p) (driver p) v (device_stored p) (image p) (finger p)
             (username p) (description p) (enroll_date p) (data p) (prints p).
Definition set_device_stored (p : FpPrint) (v : bool) : FpPrint :=
  mk_FpPrint (type p) (driver p) (device_id p) v (image p) (finger p)
             (username p) (description p) (enroll_date p) (data p) (prints p).
Definition set_image (p : FpPrint) (v : option FpImage) : FpPrint :=
  mk_FpPrint (type p) (driver p) (device_id p) (device_stored p) v (finger p)
             (username p) (description p) (enroll_date p) (data p) (prints p).
Definition set_finger (p : FpPrint) (v : Z) : FpPrint :=
  mk_FpPrint (type p) (driver p) (device_id p) (device_stored p) (image p) v
             (username p) (description p) (enroll_date p) (data p) (prints p).
Definition set_username (p : FpPrint) (v : option string) : FpPrint :=
  mk_FpPrint (type p) (driver p) (device_id p) (device_stored p) (image p) (finger p)
             v (description p) (enroll_date p) (data p) (prints p).
Definition set_description (p : FpPrint) (v : option string) : FpPrint :=
  mk_FpPrint (type p) (driver p) (device_id p) (device_stored p) (image p) (finger p)
             (username p) v (enroll_date p) (data p) (prints p).
Definition set_enroll_date (p : FpPrint) (v : option GDate) : FpPrint :=
  mk_FpPrint (type p) (driver p) (device_id p) (device_stored p) (image p) (finger p)
             (username p) (description p) v (data p) (prints p).
Definition set_data (p : FpPrint) (v : option GVariant) : FpPrint :=
  mk_FpPrint (type p) (driver p) (device_id p) (device_stored p) (image p) (finger p)
             (username p) (description p) (enroll_date p) v (prints p).
Definition set_prints (p : FpPrint) (v : option (list xyt_struct)) : FpPrint :=
  mk_FpPrint (type p) (driver p) (device_id p) (device_stored p) (image p) (finger p)
             (username p) (description p) (enroll_date p) (data p) v.

(** [fp_print_init] is empty: the object is as GObject allocates it, filled
    with zeros. *)
Definition fp_print_init : FpPrint :=
  mk_FpPrint FP_PRINT_UNDEFINED None None false None 0 None None None None None.

(** [fpi_print_set_type]: only an undefined type may be set; an NBIS print
    gets its (empty) array of templates. *)
Definition fpi_print_set_type (print : FpPrint) (type_ : FpPrintType) : FpPrint :=
  if negb (FpPrintType_eqb (type print) FP_PRINT_UNDEFINED) then print
  else
    let print := set_type print type_ in
    if FpPrintType_eqb (type print) FP_PRINT_NBIS
    then set_prints print (Some [])
    else print.

(** A property and the value to store in it: the [prop_id] and the [GValue]
    of [fp_print_set_property].  [PROP_IMAGE] is read-only and has no
    entry. *)
Inductive Property : Type :=
| PROP_DRIVER (value : option string)
| PROP_DEVICE_ID (value : option string)
| PROP_DEVICE_STORED (value : bool)
| PROP_FINGER (value : Z)
| PROP_USERNAME (value : option string)
| PROP_DESCRIPTION (value : option string)
| PROP_ENROLL_DATE (value : option GDate)
| PROP_FPI_TYPE (value : FpPrintType)
| PROP_FPI_DATA (value : option GVariant).

(** [g_clear_pointer (&p, destroy)] on the field [description], a
    [gchar *]: [NULL] is stored in the field and the old pointer, when there
    was one, is handed to [destroy].  [g_free] releases the string;
    [g_variant_unref] takes a [GVariant], and a string handed to it is
    outside its contract (it would count down a reference count that the
    block of the string does not have). *)
Inductive destroy_notify : Type := destroy_g_free | destroy_g_variant_unref.

Definition g_clear_pointer_description (self : FpPrint) (destroy : destroy_notify)
  : outcome FpPrint :=
  match destroy with
  | destroy_g_free => Returned (set_description self None)
  | destroy_g_variant_unref =>
      match description self with
      | Some _ => Aborted OutOfContract
      | None => Returned (set_description self None)
      end
  end.

(** [fp_print_set_property].  Under [PROP_FPI_DATA] the pointer cleared
    (line 209) is [description], not [data], and with [g_variant_unref]:
    the call is harmless on a print without description and outside GLib's
    contract on one that has a description; the old raw data is not
    released. *)
Definition fp_print_set_property (self : FpPrint) (prop : Property)
  : outcome FpPrint :=
  match prop with
  | PROP_FPI_TYPE value => Returned (fpi_print_set_type self value)
  | PROP_DRIVER value => Returned (set_driver self value)
  | PROP_DEVICE_ID value => Returned (set_device_id self value)
  | PROP_DEVICE_STORED value => Returned (set_device_stored self value)
  | PROP_FINGER value => Returned (set_finger self value)
  | PROP_USERNAME value =>
      let self := set_username self None in
      Returned (set_username self value)
  | PROP_DESCRIPTION value =>
      self <- g_clear_pointer_description self destroy_g_free;;
      Returned (set_description self value)
  | PROP_ENROLL_DATE value =>
      let self := set_enroll_date self None in
      Returned (set_enroll_date self value)
  | PROP_FPI_DATA value =>
      self <- g_clear_pointer_description self destroy_g_variant_unref;;
      Returned (set_data self value)
  end.

(** [fp_print_constructed]. *)
Definition fp_print_constructed (self : FpPrint) : outcome unit :=
  _ <- g_assert (match driver self with Some _ => true | None => false end);;
  g_assert (match device_id self with Some _ => true | None => false end).

(** The values of the [FpFinger] enumeration, as the enum class
    [FP_TYPE_FINGER] knows them (fp-print.h and the generated enum types are
    not among the sources). *)
Variable FP_TYPE_FINGER : Z -> bool.

(** GObject validates a value against the property's [GParamSpec] before it
    calls [set_property]: an enum value that the enum class does not have is
    refused with a warning and the property keeps its value. *)
Definition object_set_property (self : FpPrint) (prop : Property)
  : outcome FpPrint :=
  match prop with
  | PROP_FINGER value =>
      if FP_TYPE_FINGER value then fp_print_set_property self prop
      else Returned self
  | _ => fp_print_set_property self prop
  end.

(** [g_object_set]: the properties in the order of the call. *)
Fixpoint g_object_set (self : FpPrint) (props : list Property) : outcome FpPrint :=
  match props with
  | [] => Returned self
  | prop :: props' =>
      self <- object_set_property self prop;;
      g_object_set self props'
  end.

Definition construct_only (prop : Property) : bool :=
  match prop with
  | PROP_DRIVER _ | PROP_DEVICE_ID _ | PROP_DEVICE_STORED _ => true
  | _ => false
  end.

(** [g_object_new (FP_TYPE_PRINT, ...)]: the construct-only properties are
    set, [constructed] runs, then the other properties are set. *)
Definition g_object_new (props : list Property) : outcome FpPrint :=
  self <- g_object_set fp_print_init (filter construct_only props);;
  _ <- fp_print_constructed self;;
  g_object_set self (filter (fun p => negb (construct_only p)) props).

(** *** Accessors that change the record *)

Definition fp_print_set_finger (print : FpPrint) (finger_ : Z) : FpPrint :=
  set_finger print finger_.

Definition fp_print_set_username (print : FpPrint) (username_ : option string) : FpPrint :=
  let print := set_username print None in
  set_username print username_.

Definition fp_print_set_description (print : FpPrint) (description_ : option string) : FpPrint :=
  let print := set_description print None in
  set_description print description_.

Definition fp_print_set_enroll_date (print : FpPrint) (enroll_date_ : option GDate) : FpPrint :=
  let print := set_enroll_date print None in
  match enroll_date_ with
  | Some d => set_enroll_date print (Some d)
  | None => print
  end.

Definition fpi_print_set_device_stored (print : FpPrint) (device_stored_ : bool) : FpPrint :=
  set_device_stored print device_stored_.

(** [fpi_print_add_print]. *)
Definition fpi_print_add_print (print add : FpPrint) : outcome FpPrint :=
  if negb (FpPrintType_eqb (type print) FP_PRINT_NBIS) then Returned print
  else if negb (FpPrintType_eqb (type add) FP_PRINT_NBIS) then Returned print
  else
    add_prints <- deref (prints add);;
    _ <- g_assert (Nat.eqb (length add_prints) 1);;
    first <- deref (nth_error add_prints 0);;
    print_prints <- deref (prints print);;
    Returned (set_prints print (Some (print_prints ++ [first]))).

(** *** The minutiae encoder *)

(** NBIS: [lfs2nist_minutia_XYT (&x, &y, &t, minutia, bwidth, bheight)], as
    the three ints it writes; [sround (minutia->reliability * 100.0)]; the
    comparison [sort_x_y] of bozorth3; and the C library's [qsort], whose
    order of elements that compare equal is not fixed. *)
Variable lfs2nist_minutia_XYT : fp_minutia -> Z -> Z -> Z * Z * Z.
Variable sround_reliability_100 : fp_minutia -> Z.
Variable sort_x_y : minutiae_struct -> minutiae_struct -> Z.
Variable qsort :
  (minutiae_struct -> minutiae_struct -> Z) -> list minutiae_struct -> list minutiae_struct.

(** Modelled from the spec: [struct fp_minutiae] is declared in NBIS's
    lfs.h, which is not among the sources; the file fills its fields
    [alloc], [num] and [list] (lines 689-691), the list of points and its
    length. *)
Record fp_minutiae : Type := mk_fp_minutiae {
  alloc : Z;
  num : Z;
  list_ : list fp_minutia
}.

(** Lines 631-632: [if (c[i].col[2] > 180) c[i].col[2] -= 360;]. *)
Definition normalize_theta (t : Z) : Z :=
  if 180 <? t then t - 360 else t.

(** The body of the first loop of [minutiae_to_xyt]: the row [c[i]] of one
    minutia. *)
Definition minutia_row (bwidth bheight : Z) (minutia : fp_minutia) : minutiae_struct :=
  let '(x, y, t) := lfs2nist_minutia_XYT minutia bwidth bheight in
  mk_minutiae_struct x y (normalize_theta t) (sround_reliability_100 minutia).

(** The second loop of [minutiae_to_xyt], from index [i] on. *)
Fixpoint store_rows (c : list minutiae_struct) (i : nat) (xyt : xyt_struct) : xyt_struct :=
  match c with
  | [] => xyt
  | ci :: c' =>
      store_rows c' (S i)
        (mk_xyt (nrows xyt)
                (array_set (xcol xyt) i (col0 ci))
                (array_set (ycol xyt) i (col1 ci))
                (array_set (thetacol xyt) i (col2 ci)))
  end.

(** [minutiae_to_xyt].  With a negative [num] the call of [qsort] gets a
    count of [(size_t) nmin], and with fewer points than [num] the first
    loop reads past the list: both are outside what C defines. *)
Definition minutiae_to_xyt (minutiae_ : fp_minutiae) (bwidth bheight : Z)
                           (xyt : xyt_struct) : outcome xyt_struct :=
  let nmin := Z.min (num minutiae_) (Z.of_nat MAX_BOZORTH_MINUTIAE) in
  if (nmin <? 0) || (Z.of_nat (length (list_ minutiae_)) <? nmin)
  then Aborted OutOfContract
  else
    let c := map (minutia_row bwidth bheight)
                 (firstn (Z.to_nat nmin) (list_ minutiae_)) in
    let c := qsort sort_x_y c in
    let xyt := store_rows c 0 xyt in
    Returned (mk_xyt nmin (xcol xyt) (ycol xyt) (thetacol xyt)).

(** [fpi_print_add_from_image].  [minutiae->len] is a [guint] and
    [_minutiae.num] an [int]. *)
Definition fpi_print_add_from_image (print : FpPrint) (image_ : option FpImage)
  : outcome FpPrint :=
  match image_ with
  | None => Failed InvalidData_no_print
  | Some img =>
      if negb (FpPrintType_eqb (type print) FP_PRINT_NBIS)
      then Failed InvalidData_no_print
      else
        match fp_image_get_minutiae img with
        | None => Failed InvalidData
        | Some ms =>
            if Nat.eqb (length ms) 0 then Failed InvalidData
            else
              let len := to_gint32 (Z.of_nat (length ms)) in
              let _minutiae := mk_fp_minutiae len len ms in
              xyt <- minutiae_to_xyt _minutiae (width img) (height img)
                                     g_new0_xyt_struct;;
              print_prints <- deref (prints print);;
              let print := set_prints print (Some (print_prints ++ [xyt])) in
              let print := set_image print None in
              Returned (set_image print (Some img))
        end
  end.

(** *** The matcher *)

(** bozorth3: [bozorth_probe_init (pstruct)] and
    [bozorth_to_gallery (probe_len, pstruct, gstruct)], the score. *)
Variable bozorth_probe_init : xyt_struct -> Z.
Variable bozorth_to_gallery : Z -> xyt_struct -> xyt_struct -> Z.

(** The loop of [fpi_print_bz3_match] over the templates that are left,
    [scores] being what [fp_dbg] has written so far. *)
Fixpoint bz3_match_loop (probe_len : Z) (pstruct : xyt_struct) (bz3_threshold : Z)
                        (gallery : list xyt_struct) (scores : list Z)
  : bz3_match_return :=
  match gallery with
  | [] => mk_bz3_match_return FPI_MATCH_FAIL None scores
  | gstruct :: gallery' =>
      let score := bozorth_to_gallery probe_len pstruct gstruct in
      let scores := scores ++ [score] in
      if bz3_threshold <=? score
      then mk_bz3_match_return FPI_MATCH_SUCCESS None scores
      else bz3_match_loop probe_len pstruct bz3_threshold gallery' scores
  end.

(** [fpi_print_bz3_match]. *)
Definition fpi_print_bz3_match (template print : FpPrint) (bz3_threshold : Z)
  : outcome bz3_match_return :=
  if negb (FpPrintType_eqb (type template) FP_PRINT_NBIS)
     || negb (FpPrintType_eqb (type print) FP_PRINT_NBIS)
  then Returned (mk_bz3_match_return FPI_MATCH_ERROR (Some NotSupported) [])
  else
    print_prints <- deref (prints print);;
    if negb (Nat.eqb (length print_prints) 1)
    then Returned (mk_bz3_match_return FPI_MATCH_ERROR (Some General) [])
    else
      pstruct <- deref (nth_error print_prints 0);;
      let probe_len := bozorth_probe_init pstruct in
      template_prints <- deref (prints template);;
      Returned (bz3_match_loop probe_len pstruct bz3_threshold template_prints []).

(** *** Compatibility and equality *)

(** Modelled from the spec: [FpDevice] is declared in fp-device.h, which is
    not among the sources; the spec gives a device its driver name and its
    device identifier, which the file reads with [fp_device_get_driver] and
    [fp_device_get_device_id]. *)
Record FpDevice : Type := mk_FpDevice {
  fp_device_get_driver : option string;
  fp_device_get_device_id : option string
}.

(** [fp_print_new], for a device that is there (a [NULL] is refused by
    [g_return_val_if_fail]). *)
Definition fp_print_new (device : FpDevice) : outcome FpPrint :=
  g_object_new [PROP_DRIVER (fp_device_get_driver device);
                PROP_DEVICE_ID (fp_device_get_device_id device)].

(** [fp_print_compatible]. *)
Definition fp_print_compatible (self : FpPrint) (device : FpDevice) : bool :=
  if negb (g_strcmp0 (driver self) (fp_device_get_driver device) =? 0) then false
  else if negb (g_strcmp0 (device_id self) (fp_device_get_device_id device) =? 0)
  then false
  else true.

(** The loop of [fp_print_equal] over two arrays of the same length. *)
Fixpoint equal_loop (a b : list xyt_struct) : bool :=
  match a, b with
  | xa :: a', xb :: b' =>
      if negb (memcmp (xyt_struct_memory xa) (xyt_struct_memory xb) =? 0)
      then false
      else equal_loop a' b'
  | _, _ => true
  end.

(** [fp_print_equal].  [g_return_val_if_fail] returns [FALSE] for a print of
    undefined type; [g_variant_equal] does the same for a [NULL]. *)
Definition fp_print_equal (self other : FpPrint) : outcome bool :=
  if FpPrintType_eqb (type self) FP_PRINT_UNDEFINED then Returned false
  else if FpPrintType_eqb (type other) FP_PRINT_UNDEFINED then Returned false
  else if negb (FpPrintType_eqb (type self) (type other)) then Returned false
  else if negb (g_strcmp0 (driver self) (driver other) =? 0) then Returned false
  else if negb (g_strcmp0 (device_id self) (device_id other) =? 0) then Returned false
  else
    match type self with
    | FP_PRINT_RAW =>
        match data self, data other with
        | Some one, Some two => Returned (g_variant_equal one two)
        | _, _ => Returned false
        end
    | FP_PRINT_NBIS =>
        self_prints <- deref (prints self);;
        other_prints <- deref (prints other);;
        if negb (Nat.eqb (length self_prints) (length other_prints))
        then Returned false
        else Returned (equal_loop self_prints other_prints)
    | FP_PRINT_UNDEFINED => Aborted AssertionFailed
    end.

(** *** The binary container *)

(** The build's byte order, and GLib's serialiser on this host:
    [g_variant_store] (with [g_variant_get_size]) gives the bytes of a
    value, [g_variant_new_from_data (type, data, size, FALSE, ...)] reads a
    value of the given type from untrusted bytes ([NULL] on failure). *)
Variable G_BYTE_ORDER : ByteOrder.
Variable g_variant_store : GVariant -> list byte.
Variable g_variant_new_from_data : GVariantType -> list byte -> option GVariant.

(** One template of the payload (lines 894-924): the first [nrows] cells of
    each column.  [g_new (gint32, nrows)] needs a count that is not
    negative, and a column has 200 cells. *)
Definition serialize_column (xyt_nrows : Z) (column : list Z) : GVariant :=
  g_variant_new_fixed_array
    (map (fun j => GINT32_TO_LE G_BYTE_ORDER (array_get column j))
         (seq 0 (Z.to_nat xyt_nrows))).

Definition serialize_xyt (xyt : xyt_struct) : outcome GVariant :=
  if (nrows xyt <? 0) || (Z.of_nat MAX_BOZORTH_MINUTIAE <? nrows xyt)
  then Aborted OutOfContract
  else Returned (GV_tuple [serialize_column (nrows xyt) (xcol xyt);
                           serialize_column (nrows xyt) (ycol xyt);
                           serialize_column (nrows xyt) (thetacol xyt)]).

(** Lines 876-879: the Julian day of a valid date, [G_MININT32] otherwise.
    [g_date_get_julian] returns a [guint32], which the format ["i"] reads
    as a [gint32]. *)
Definition serialize_enroll_date (d : option GDate) : Z :=
  match d with
  | Some d =>
      if g_date_valid d then to_gint32 (g_date_get_julian d) else G_MININT32
  | None => G_MININT32
  end.

(** Lines 867-935 of [fp_print_serialize]: the value that
    [g_variant_builder_end (&builder)] returns. *)
Definition fp_print_build_variant (print : FpPrint) : outcome GVariant :=
  driver_ <- g_variant_new_string (driver print);;
  device_id_ <- g_variant_new_string (device_id print);;
  payload <-
    (if FpPrintType_eqb (type print) FP_PRINT_NBIS
     then
       print_prints <- deref (prints print);;
       nested <- traverse serialize_xyt print_prints;;
       Returned (GV_tuple [GV_array XYT_VARIANT_TYPE nested])
     else
       data_ <- deref (data print);;
       Returned (GV_variant data_));;
  Returned
    (GV_tuple [GV_int32 (FpPrintType_value (type print));
               driver_;
               device_id_;
               GV_boolean (device_stored print);
               GV_byte (to_guint8 (finger print));
               g_variant_new_maybe_string (username print);
               g_variant_new_maybe_string (description print);
               GV_int32 (serialize_enroll_date (enroll_date print));
               GV_array (GVT_dict_entry G_VARIANT_TYPE_STRING G_VARIANT_TYPE_VARIANT) [];
               GV_variant payload]).

(** The value whose bytes are written (lines 937-943). *)
Definition host_to_file (result : GVariant) : GVariant :=
  match G_BYTE_ORDER with
  | G_BIG_ENDIAN => g_variant_byteswap result
  | G_LITTLE_ENDIAN => result
  end.

(** [fp_print_serialize]: [Returned] stands for [TRUE], with [*data] and
    [*length] the bytes and their number; the two out pointers are there,
    as the assertions at the start ask.  The function has no [return FALSE]
    and never writes [*error]. *)
Definition fp_print_serialize (print : FpPrint) : outcome (list byte) :=
  result <- fp_print_build_variant print;;
  let result := host_to_file result in
  Returned (FP3_MAGIC ++ g_variant_store result).

(** Lines 993-1019 of [fp_print_deserialize]: the value that [g_variant_get]
    takes apart. *)
Definition fp_print_load_variant (data_ : list byte) : outcome GVariant :=
  _ <- g_assert (3 <? Z.of_nat (length data_));;
  if negb (bytes_eqb (firstn 3 data_) FP3_MAGIC) then Failed InvalidFormat
  else
    let aligned_data := skipn 3 data_ in
    match g_variant_new_from_data FP_PRINT_VARIANT_TYPE aligned_data with
    | None => Failed InvalidFormat
    | Some raw_value =>
        Returned (match G_BYTE_ORDER with
                  | G_BIG_ENDIAN => g_variant_byteswap raw_value
                  | G_LITTLE_ENDIAN => g_variant_get_normal_form raw_value
                  end)
    end.

(** The loop of lines 1048-1082 over the templates that are left. *)
Fixpoint deserialize_prints (children : list GVariant) (result : FpPrint)
  : outcome FpPrint :=
  match children with
  | [] => Returned result
  | xyt_data :: children' =>
      let xyt := g_new0_xyt_struct in
      child <- g_variant_get_child_value xyt_data 0;;
      xcol_ <- g_variant_get_fixed_array child;;
      child <- g_variant_get_child_value xyt_data 1;;
      ycol_ <- g_variant_get_fixed_array child;;
      child <- g_variant_get_child_value xyt_data 2;;
      thetacol_ <- g_variant_get_fixed_array child;;
      let xlen := length xcol_ in
      let ylen := length ycol_ in
      let thetalen := length thetacol_ in
      if negb (Nat.eqb xlen ylen) || negb (Nat.eqb xlen thetalen)
      then Failed InvalidFormat
      else if Nat.ltb MAX_BOZORTH_MINUTIAE xlen
      then Failed InvalidFormat
      else
        let xyt := mk_xyt (Z.of_nat xlen)
                          (memcpy (xcol xyt) xcol_)
                          (memcpy (ycol xyt) ycol_)
                          (memcpy (thetacol xyt) thetacol_) in
        result_prints <- deref (prints result);;
        deserialize_prints children'
          (set_prints result (Some (result_prints ++ [xyt])))
  end.

(** Lines 1037-1100: the print of the payload, by its type. *)
Definition deserialize_payload (f : fp3_fields) : outcome FpPrint :=
  if f_type f =? FpPrintType_value FP_PRINT_NBIS then
    prints_ <- g_variant_get_child_value (f_print_data f) 0;;
    result <- g_object_new [PROP_DRIVER (Some (f_driver f));
                            PROP_DEVICE_ID (Some (f_device_id f));
                            PROP_DEVICE_STORED (f_device_stored f)];;
    let result := fpi_print_set_type result FP_PRINT_NBIS in
    children <- g_variant_children prints_;;
    deserialize_prints children result
  else if f_type f =? FpPrintType_value FP_PRINT_RAW then
    fp_data <- g_variant_get_child_value (f_print_data f) 0;;
    g_object_new [PROP_FPI_TYPE FP_PRINT_RAW;
                  PROP_DRIVER (Some (f_driver f));
                  PROP_DEVICE_ID (Some (f_device_id f));
                  PROP_DEVICE_STORED (f_device_stored f);
                  PROP_FPI_DATA (Some fp_data)]
  else Failed InvalidFormat.

(** [fp_print_deserialize]: [Returned] is the new print, [Failed] the
    [NULL] with [*error] set.  [julian_date] is a [gint], the parameter of
    [g_date_new_julian] a [guint32]. *)
Definition fp_print_deserialize (data_ : list byte) : outcome FpPrint :=
  value <- fp_print_load_variant data_;;
  f <- g_variant_get_fp3 value;;
  let finger_ := f_finger_int8 f in
  result <- deserialize_payload f;;
  let date := g_date_new_julian (to_guint32 (f_julian_date f)) in
  g_object_set result [PROP_FINGER finger_;
                       PROP_USERNAME (f_username f);
                       PROP_DESCRIPTION (f_description f);
                       PROP_ENROLL_DATE date].

End Embedding.

Unset Implicit Arguments.

(** ** Reading the record *)

(** The [prop_id] of a property that the class installs (the enumeration of
    lines 69-88 without its bounds [PROP_0] and [N_PROPS]). *)
Module PropId.

Inductive t : Type :=
| PROP_DRIVER
| PROP_DEVICE_ID
| PROP_DEVICE_STORED
| PROP_IMAGE
| PROP_FINGER
| PROP_USERNAME
| PROP_DESCRIPTION
| PROP_ENROLL_DATE
| PROP_FPI_TYPE
| PROP_FPI_DATA.

End PropId.

Section Accessors.

Set Implicit Arguments.

Variable fp_minutia : Type.

(** The public accessors: the field of a print that is there (a [NULL] is
    refused by [g_return_val_if_fail]). *)
Definition fp_print_get_driver (print : FpPrint fp_minutia) : option string :=
  driver print.

Definition fp_print_get_device_id (print : FpPrint fp_minutia) : option string :=
  device_id print.

Definition fp_print_get_device_stored (print : FpPrint fp_minutia) : bool :=
  device_stored print.

Definition fp_print_get_image (print : FpPrint fp_minutia) : option (FpImage fp_minutia) :=
  image print.

Definition fp_print_get_finger (print : FpPrint fp_minutia) : Z :=
  finger print.

Definition fp_print_get_username (print : FpPrint fp_minutia) : option string :=
  username print.

Definition fp_print_get_description (print : FpPrint fp_minutia) : option string :=
  description print.

Definition fp_print_get_enroll_date (print : FpPrint fp_minutia) : option GDate :=
  enroll_date print.

(** What a [GValue] of the class holds: a string, a boolean, an object, an
    enum value, a boxed [GDate] or a [GVariant]. *)
Inductive GValue : Type :=
| G_VALUE_string (v_string : option string)
| G_VALUE_boolean (v_boolean : bool)
| G_VALUE_object (v_object : option (FpImage fp_minutia))
| G_VALUE_enum (v_enum : Z)
| G_VALUE_boxed (v_boxed : option GDate)
| G_VALUE_variant (v_variant : option GVariant).

(** [fp_print_get_property]: what the function stores in [value].  GObject
    calls it with the id of an installed property, so the [default] branch
    is not taken. *)
Definition fp_print_get_property (self : FpPrint fp_minutia) (prop_id : PropId.t) : GValue :=
  match prop_id with
  | PropId.PROP_DRIVER => G_VALUE_string (driver self)
  | PropId.PROP_DEVICE_ID => G_VALUE_string (device_id self)
  | PropId.PROP_DEVICE_STORED => G_VALUE_boolean (device_stored self)
  | PropId.PROP_IMAGE => G_VALUE_object (image self)
  | PropId.PROP_FINGER => G_VALUE_enum (finger self)
  | PropId.PROP_USERNAME => G_VALUE_string (username self)
  | PropId.PROP_DESCRIPTION => G_VALUE_string (description self)
  | PropId.PROP_ENROLL_DATE => G_VALUE_boxed (enroll_date self)
  | PropId.PROP_FPI_TYPE => G_VALUE_enum (FpPrintType_value (type self))
  | PropId.PROP_FPI_DATA => G_VALUE_variant (data self)
  end.

(** The [prop_id] and the [GValue] that [fp_print_set_property] is called
    with, for a property and the value to store in it. *)
Definition property_id (prop : Property) : PropId.t :=
  match prop with
  | PROP_DRIVER _ => PropId.PROP_DRIVER
  | PROP_DEVICE_ID _ => PropId.PROP_DEVICE_ID
  | PROP_DEVICE_STORED _ => PropId.PROP_DEVICE_STORED
  | PROP_FINGER _ => PropId.PROP_FINGER
  | PROP_USERNAME _ => PropId.PROP_USERNAME
  | PROP_DESCRIPTION _ => PropId.PROP_DESCRIPTION
  | PROP_ENROLL_DATE _ => PropId.PROP_ENROLL_DATE
  | PROP_FPI_TYPE _ => PropId.PROP_FPI_TYPE
  | PROP_FPI_DATA _ => PropId.PROP_FPI_DATA
  end.

Definition property_value (prop : Property) : GValue :=
  match prop with
  | PROP_DRIVER value => G_VALUE_string value
  | PROP_DEVICE_ID value => G_VALUE_string value
  | PROP_DEVICE_STORED value => G_VALUE_boolean value
  | PROP_FINGER value => G_VALUE_enum value
  | PROP_USERNAME value => G_VALUE_string value
  | PROP_DESCRIPTION value => G_VALUE_string value
  | PROP_ENROLL_DATE value => G_VALUE_boxed value
  | PROP_FPI_TYPE value => G_VALUE_enum (FpPrintType_value value)
  | PROP_FPI_DATA value => G_VALUE_variant value
  end.

End Accessors.

Unset Implicit Arguments.


(** ** Vocabulary of the statements *)

(** Two templates with the same storage: the same [nrows] and the same cell
    at each of the 200 indices of each column, whatever [nrows] is. *)
Definition same_storage (a b : xyt_struct) : Prop :=
  nrows a = nrows b /\
  forall j, (j < MAX_BOZORTH_MINUTIAE)%nat ->
    array_get (xcol a) j = array_get (xcol b) j /\
    array_get (ycol a) j = array_get (ycol b) j /\
    array_get (thetacol a) j = array_get (thetacol b) j.

(** Two records that differ in their metadata at most (finger, username,
    description, enroll date) and in the image kept for inspection. *)
Definition same_print_data {fp_minutia : Type} (p q : FpPrint fp_minutia) : Prop :=
  type p = type q /\ driver p = driver q /\ device_id p = device_id q /\
  data p = data q /\ prints p = prints q.

(** The rows of a template that count: the first [nrows] cells of the three
    columns, side by side. *)
Definition xyt_rows (xyt : xyt_struct) : list (Z * Z * Z) :=
  map (fun i => (array_get (xcol xyt) i, array_get (ycol xyt) i,
                 array_get (thetacol xyt) i))
      (seq 0 (Z.to_nat (nrows xyt))).

(** The three columns of a row [c[i]] that go into the template. *)
Definition row_triple (r : minutiae_struct) : Z * Z * Z := (col0 r, col1 r, col2 r).

(** What the encoder makes of one minutia: the position NBIS gives and the
    normalised angle. *)
Definition encoded_point {fp_minutia : Type}
    (lfs2nist_minutia_XYT : fp_minutia -> Z -> Z -> Z * Z * Z)
    (bwidth bheight : Z) (m : fp_minutia) : Z * Z * Z :=
  let '(x, y, t) := lfs2nist_minutia_XYT m bwidth bheight in
  (x, y, normalize_theta t).

(** The angle NBIS gives for a minutia. *)
Definition transformed_angle {fp_minutia : Type}
    (lfs2nist_minutia_XYT : fp_minutia -> Z -> Z -> Z * Z * Z)
    (bwidth bheight : Z) (m : fp_minutia) : Z :=
  snd (lfs2nist_minutia_XYT m bwidth bheight).

(** One template of the payload of an NBIS print, from its three columns,
    and the payload of an NBIS print, template by template: what the
    decoder reads when the bytes hold them. *)
Definition xyt_variant (columns : list Z * list Z * list Z) : GVariant :=
  let '(xs, ys, ts) := columns in
  GV_tuple [g_variant_new_fixed_array xs; g_variant_new_fixed_array ys;
            g_variant_new_fixed_array ts].

Definition nbis_payload (templates : list (list Z * list Z * list Z)) : GVariant :=
  GV_tuple [GV_array XYT_VARIANT_TYPE (map xyt_variant templates)].

(** A template that the decoder must refuse: columns of different lengths,
    or more than 200 rows. *)
Definition bad_template (columns : list Z * list Z * list Z) : bool :=
  let '(xs, ys, ts) := columns in
  negb (Nat.eqb (length xs) (length ys))
  || negb (Nat.eqb (length xs) (length ts))
  || Nat.ltb MAX_BOZORTH_MINUTIAE (length xs).

(** A template as the functions of the file build one: a count within the
    capacity, three columns of 200 cells, and zeros past the count. *)
Definition xyt_valid (xyt : xyt_struct) : bool :=
  (0 <=? nrows xyt) && (nrows xyt <=? Z.of_nat MAX_BOZORTH_MINUTIAE)
  && Nat.eqb (length (xcol xyt)) MAX_BOZORTH_MINUTIAE
  && Nat.eqb (length (ycol xyt)) MAX_BOZORTH_MINUTIAE
  && Nat.eqb (length (thetacol xyt)) MAX_BOZORTH_MINUTIAE
  && forallb (fun j => (array_get (xcol xyt) j =? 0)
                       && (array_get (ycol xyt) j =? 0)
                       && (array_get (thetacol xyt) j =? 0))
             (seq (Z.to_nat (nrows xyt))
                  (MAX_BOZORTH_MINUTIAE - Z.to_nat (nrows xyt))).

Definition is_some {A : Type} (o : option A) : bool :=
  match o with
  | Some _ => true
  | None => false
  end.

(** A count that [fp_print_serialize] can use: not negative, and within the
    200 cells of a column. *)
Definition nrows_in_capacity (xyt : xyt_struct) : bool :=
  (0 <=? nrows xyt) && (nrows xyt <=? Z.of_nat MAX_BOZORTH_MINUTIAE).

(** What [fp_print_serialize] dereferences: the two strings, and the array
    of templates (each with a count within the capacity) of an NBIS print
    or the raw data of any other. *)
Definition serializable {fp_minutia : Type} (print : FpPrint fp_minutia) : bool :=
  is_some (driver print) && is_some (device_id print)
  && match type print with
     | FP_PRINT_NBIS =>
         match prints print with
         | Some l => forallb nrows_in_capacity l
         | None => false
         end
     | _ => is_some (data print)
     end.

(** A validly constructed record: its type is set, driver and device id are
    there, a raw print has its data and an NBIS print its templates, each a
    valid one; the finger is a value of the enumeration. *)
Definition valid_print {fp_minutia : Type} (FP_TYPE_FINGER : Z -> bool)
    (print : FpPrint fp_minutia) : bool :=
  is_some (driver print) && is_some (device_id print)
  && FP_TYPE_FINGER (finger print)
  && (0 <=? finger print) && (finger print <? 256)
  && match type print with
     | FP_PRINT_UNDEFINED => false
     | FP_PRINT_RAW => is_some (data print)
     | FP_PRINT_NBIS =>
         match prints print with
         | Some l => forallb xyt_valid l
         | None => false
         end
     end.

(** The template that [fp_print_deserialize] builds from three columns of
    the same length: a zero-filled one with the columns copied in. *)
Definition decoded_template (columns : list Z * list Z * list Z) : xyt_struct :=
  let '(xs, ys, ts) := columns in
  mk_xyt (Z.of_nat (length xs))
         (memcpy (xcol g_new0_xyt_struct) xs)
         (memcpy (ycol g_new0_xyt_struct) ys)
         (memcpy (thetacol g_new0_xyt_struct) ts).

(** The columns of a template that the encoder writes on a little-endian
    host. *)
Definition written_columns (xyt : xyt_struct) : list Z * list Z * list Z :=
  (map (array_get (xcol xyt)) (seq 0 (Z.to_nat (nrows xyt))),
   map (array_get (ycol xyt)) (seq 0 (Z.to_nat (nrows xyt))),
   map (array_get (thetacol xyt)) (seq 0 (Z.to_nat (nrows xyt)))).

(** A number that a [gint32] holds. *)
Definition is_gint32 (z : Z) : bool := (G_MININT32 <=? z) && (z <=? G_MAXINT32).

(** A value as GLib holds one: every 32-bit integer in it is one. *)
Fixpoint g_variant_int32_in_range (value : GVariant) : bool :=
  match value with
  | GV_int32 i => is_gint32 i
  | GV_variant c => g_variant_int32_in_range c
  | GV_maybe _ None => true
  | GV_maybe _ (Some c) => g_variant_int32_in_range c
  | GV_array _ l => forallb g_variant_int32_in_range l
  | GV_tuple l => forallb g_variant_int32_in_range l
  | GV_dict_entry k v => g_variant_int32_in_range k && g_variant_int32_in_range v
  | GV_boolean _ | GV_byte _ | GV_string _ => true
  end.

(** A value as GLib builds or loads one: the child of a maybe and the
    children of an array have the type of the element. *)
Fixpoint g_variant_well_formed (value : GVariant) : bool :=
  match value with
  | GV_variant c => g_variant_well_formed c
  | GV_maybe _ None => true
  | GV_maybe e (Some c) =>
      g_variant_type_equal (g_variant_get_type c) e && g_variant_well_formed c
  | GV_array e l =>
      forallb (fun c => g_variant_type_equal (g_variant_get_type c) e
                        && g_variant_well_formed c) l
  | GV_tuple l => forallb g_variant_well_formed l
  | GV_dict_entry k v => g_variant_well_formed k && g_variant_well_formed v
  | GV_boolean _ | GV_byte _ | GV_int32 _ | GV_string _ => true
  end.

(** A value of a given type as GLib holds one: [g_variant_is_of_type] is
    true of it, and it is well formed. *)
Definition g_variant_well_typed (value : GVariant) (type_ : GVariantType) : bool :=
  g_variant_type_equal (g_variant_get_type value) type_ && g_variant_well_formed value.

(** ["(a(aiaiai))"], the type of the payload that the encoder writes for an
    NBIS print (line 888). *)
Definition NBIS_VARIANT_TYPE : GVariantType :=
  GVT_tuple [GVT_array XYT_VARIANT_TYPE].

(** A template and a print whose cells and raw data are what C holds:
    [gint32] numbers. *)
Definition xyt_cells_gint32 (xyt : xyt_struct) : bool :=
  forallb is_gint32 (xcol xyt) && forallb is_gint32 (ycol xyt)
  && forallb is_gint32 (thetacol xyt).

Definition print_gint32 {fp_minutia : Type} (print : FpPrint fp_minutia) : bool :=
  match data print with
  | Some value => g_variant_int32_in_range value
  | None => true
  end
  && match prints print with
     | Some l => forallb xyt_cells_gint32 l
     | None => true
     end.

(** A print whose driver, device id, username and description, where they
    are set, are valid UTF-8: the strings that the container stores. *)
Definition maybe_utf8 (s : option string) : bool :=
  match s with
  | Some s => g_utf8_validate s
  | None => true
  end.

Definition print_utf8 {fp_minutia : Type} (print : FpPrint fp_minutia) : bool :=
  maybe_utf8 (driver print) && maybe_utf8 (device_id print)
  && maybe_utf8 (username print) && maybe_utf8 (description print).

(** A template and a print with the four bytes of every cell reversed. *)
Definition byteswapped_template (xyt : xyt_struct) : xyt_struct :=
  mk_xyt (nrows xyt)
         (map (GINT32_TO_LE G_BIG_ENDIAN) (xcol xyt))
         (map (GINT32_TO_LE G_BIG_ENDIAN) (ycol xyt))
         (map (GINT32_TO_LE G_BIG_ENDIAN) (thetacol xyt)).

Definition byteswapped_print {fp_minutia : Type} (print : FpPrint fp_minutia)
  : FpPrint fp_minutia :=
  set_prints print (option_map (map byteswapped_template) (prints print)).

(** Two templates with the same rows that count: the same [nrows] and the
    same cells below it. *)
Definition same_rows (a b : xyt_struct) : Prop :=
  nrows a = nrows b /\ xyt_rows a = xyt_rows b.

(** What [fp_print_serialize] reads of a print: two prints that agree on it
    differ at most in the image, in the finger beyond its low byte, in an
    enroll date that is not valid, in the cells past the count of a
    template, and in the payload of the other type. *)
Definition same_serialized_fields {fp_minutia : Type} (p q : FpPrint fp_minutia) : Prop :=
  type p = type q /\ driver p = driver q /\ device_id p = device_id q /\
  device_stored p = device_stored q /\
  to_guint8 (finger p) = to_guint8 (finger q) /\
  username p = username q /\ description p = description q /\
  serialize_enroll_date (enroll_date p) = serialize_enroll_date (enroll_date q) /\
  match type p with
  | FP_PRINT_NBIS =>
      match prints p, prints q with
      | Some lp, Some lq => Forall2 same_rows lp lq
      | None, None => True
      | _, _ => False
      end
  | _ => data p = data q
  end.

(** The templates of a print, when it has the array, are all valid. *)
Definition templates_valid {fp_minutia : Type} (print : FpPrint fp_minutia) : bool :=
  match prints print with
  | Some l => forallb xyt_valid l
  | None => true
  end.

(** An outcome that is a result, the error [InvalidFormat], or a step
    outside GLib's contract: no failed assertion and no other error. *)
Definition no_other_failure {A : Type} (o : outcome A) : Prop :=
  match o with
  | Returned _ => True
  | Failed e => e = InvalidFormat
  | Aborted c => c = OutOfContract
  end.

(** ** An instance of the parameters

    A small serialiser for the values above, to run the code on concrete
    records.  It writes type strings as GLib spells them and the body of a
    value in the order of its type; it is self-delimiting, and simpler than
    GLib's wire format (no alignment, no framing offsets).  No statement
    below depends on it: it only instantiates the parameters. *)

Module TagCodec.

Definition byte_of_Z (z : Z) : byte :=
  match Byte.of_N (Z.to_N (z mod 256)) with
  | Some b => b
  | None => x00
  end.

Definition Z_of_byte (b : byte) : Z := Z.of_N (Byte.to_N b).

Definition put_u32 (z : Z) : list byte :=
  [byte_of_Z z; byte_of_Z (z / 256); byte_of_Z (z / 65536); byte_of_Z (z / 16777216)].

Definition get_u32 (bs : list byte) : option (Z * list byte) :=
  match bs with
  | b0 :: b1 :: b2 :: b3 :: rest =>
      Some (Z_of_byte b0 + 256 * Z_of_byte b1 + 65536 * Z_of_byte b2
            + 16777216 * Z_of_byte b3, rest)
  | _ => None
  end.

Fixpoint put_type (t : GVariantType) : list byte :=
  match t with
  | G_VARIANT_TYPE_BOOLEAN => [x62]
  | G_VARIANT_TYPE_BYTE => [x79]
  | G_VARIANT_TYPE_INT32 => [x69]
  | G_VARIANT_TYPE_STRING => [x73]
  | G_VARIANT_TYPE_VARIANT => [x76]
  | GVT_maybe e => x6d :: put_type e
  | GVT_array e => x61 :: put_type e
  | GVT_tuple items => x28 :: concat (map put_type items) ++ [x29]
  | GVT_dict_entry k v => x7b :: put_type k ++ put_type v ++ [x7d]
  end.

Fixpoint get_type (fuel : nat) (bs : list byte) : option (GVariantType * list byte) :=
  match fuel, bs with
  | S fuel', x62 :: rest => Some (G_VARIANT_TYPE_BOOLEAN, rest)
  | S fuel', x79 :: rest => Some (G_VARIANT_TYPE_BYTE, rest)
  | S fuel', x69 :: rest => Some (G_VARIANT_TYPE_INT32, rest)
  | S fuel', x73 :: rest => Some (G_VARIANT_TYPE_STRING, rest)
  | S fuel', x76 :: rest => Some (G_VARIANT_TYPE_VARIANT, rest)
  | S fuel', x6d :: rest =>
      match get_type fuel' rest with
      | Some (e, rest) => Some (GVT_maybe e, rest)
      | None => None
      end
  | S fuel', x61 :: rest =>
      match get_type fuel' rest with
      | Some (e, rest) => Some (GVT_array e, rest)
      | None => None
      end
  | S fuel', x28 :: rest =>
      (fix items (n : nat) (acc : list GVariantType) (bs : list byte) :=
         match n, bs with
         | _, x29 :: rest => Some (GVT_tuple (rev acc), rest)
         | S n', _ =>
             match get_type fuel' bs with
             | Some (e, rest) => items n' (e :: acc) rest
             | None => None
             end
         | O, _ => None
         end) (length rest) [] rest
  | S fuel', x7b :: rest =>
      match get_type fuel' rest with
      | Some (k, rest) =>
          match get_type fuel' rest with
          | Some (v, x7d :: rest) => Some (GVT_dict_entry k v, rest)
          | _ => None
          end
      | None => None
      end
  | _, _ => None
  end.

Fixpoint put (value : GVariant) : list byte :=
  match value with
  | GV_boolean b => [if b then x01 else x00]
  | GV_byte y => [byte_of_Z y]
  | GV_int32 i => put_u32 (to_guint32 i)
  | GV_string s => list_byte_of_string s ++ [x00]
  | GV_variant c => put_type (g_variant_get_type c) ++ [x00] ++ put c
  | GV_maybe _ None => [x00]
  | GV_maybe _ (Some c) => x01 :: put c
  | GV_array _ l => put_u32 (Z.of_nat (length l)) ++ concat (map put l)
  | GV_tuple l => concat (map put l)
  | GV_dict_entry k v => put k ++ put v
  end.

Fixpoint get_string (bs : list byte) (acc : list byte) : option (string * list byte) :=
  match bs with
  | [] => None
  | x00 :: rest => Some (string_of_list_byte (rev acc), rest)
  | b :: rest => get_string rest (b :: acc)
  end.

Fixpoint get (fuel : nat) (t : GVariantType) (bs : list byte)
  : option (GVariant * list byte) :=
  match fuel with
  | O => None
  | S fuel' =>
      match t, bs with
      | G_VARIANT_TYPE_BOOLEAN, x00 :: rest => Some (GV_boolean false, rest)
      | G_VARIANT_TYPE_BOOLEAN, x01 :: rest => Some (GV_boolean true, rest)
      | G_VARIANT_TYPE_BYTE, b :: rest => Some (GV_byte (Z_of_byte b), rest)
      | G_VARIANT_TYPE_INT32, _ =>
          match get_u32 bs with
          | Some (u, rest) => Some (GV_int32 (to_gint32 u), rest)
          | None => None
          end
      | G_VARIANT_TYPE_STRING, _ =>
          match get_string bs [] with
          | Some (s, rest) => Some (GV_string s, rest)
          | None => None
          end
      | G_VARIANT_TYPE_VARIANT, _ =>
          match get_type (length bs) bs with
          | Some (ct, x00 :: rest) =>
              match get fuel' ct rest with
              | Some (c, rest) => Some (GV_variant c, rest)
              | None => None
              end
          | _ => None
          end
      | GVT_maybe e, x00 :: rest => Some (GV_maybe e None, rest)
      | GVT_maybe e, x01 :: rest =>
          match get fuel' e rest with
          | Some (c, rest) => Some (GV_maybe e (Some c), rest)
          | None => None
          end
      | GVT_array e, _ =>
          match get_u32 bs with
          | Some (n, rest) =>
              (fix elements (n : nat) (acc : list GVariant) (bs : list byte) :=
                 match n with
                 | O => Some (GV_array e (rev acc), bs)
                 | S n' =>
                     match get fuel' e bs with
                     | Some (c, rest) => elements n' (c :: acc) rest
                     | None => None
                     end
                 end) (Z.to_nat n) [] rest
          | None => None
          end
      | GVT_tuple items, _ =>
          (fix members (items : list GVariantType) (acc : list GVariant)
                       (bs : list byte) :=
             match items with
             | [] => Some (GV_tuple (rev acc), bs)
             | e :: items' =>
                 match get fuel' e bs with
                 | Some (c, rest) => members items' (c :: acc) rest
                 | None => None
                 end
             end) items [] bs
      | GVT_dict_entry kt vt, _ =>
          match get fuel' kt bs with
          | Some (k, rest) =>
              match get fuel' vt rest with
              | Some (v, rest) => Some (GV_dict_entry k v, rest)
              | None => None
              end
          | None => None
          end
      | _, _ => None
      end
  end.

Definition store (value : GVariant) : list byte := put value.

Definition load (t : GVariantType) (bs : list byte) : option GVariant :=
  match get (64 + length bs) t bs with
  | Some (value, []) => Some value
  | _ => None
  end.

(** The same bytes read on a host of the other byte order: every number
    comes out with its bytes reversed. *)
Definition load_foreign (t : GVariantType) (bs : list byte) : option GVariant :=
  option_map g_variant_byteswap (load t bs).

End TagCodec.

(** Sample NBIS primitives and sample records, for the same purpose. *)

Module Sample.

(** A minutia as its position and its angle in degrees; the transform flips
    the vertical axis and keeps the angle. *)
Definition minutia : Type := (Z * Z * Z)%type.

Definition lfs2nist (m : minutia) (bwidth bheight : Z) : Z * Z * Z :=
  let '(x, y, t) := m in (x, bheight - y, t).

Definition reliability (m : minutia) : Z := 50.

Definition sort_x_y (a b : minutiae_struct) : Z :=
  if col0 a <? col0 b then -1
  else if col0 b <? col0 a then 1
  else if col1 a <? col1 b then -1
  else if col1 b <? col1 a then 1
  else 0.

Fixpoint insert (compar : minutiae_struct -> minutiae_struct -> Z)
                (x : minutiae_struct) (l : list minutiae_struct) : list minutiae_struct :=
  match l with
  | [] => [x]
  | y :: l' => if compar x y <=? 0 then x :: l else y :: insert compar x l'
  end.

Definition qsort (compar : minutiae_struct -> minutiae_struct -> Z)
                 (l : list minutiae_struct) : list minutiae_struct :=
  fold_right (insert compar) [] l.

(** [FP_FINGER_UNKNOWN] (0) to [FP_FINGER_RIGHT_LITTLE] (10). *)
Definition finger_valid (v : Z) : bool := (0 <=? v) && (v <=? 10).

(** A score that counts the cells of the x column on which the probe and
    the template agree, among the rows of the probe. *)
Definition probe_init (pstruct : xyt_struct) : Z := nrows pstruct.

Definition to_gallery (probe_len : Z) (pstruct gstruct : xyt_struct) : Z :=
  Z.of_nat (length (filter (fun j => array_get (xcol pstruct) j =? array_get (xcol gstruct) j)
                           (seq 0 (Z.to_nat probe_len)))).

(** A template with the given rows. *)
Definition template (xs ys ts : list Z) : xyt_struct :=
  decoded_template (xs, ys, ts).

(** A raw print without enroll date, and an NBIS print of two templates
    with one. *)
Definition raw_print : FpPrint minutia :=
  mk_FpPrint FP_PRINT_RAW (Some "synaptics"%string) (Some "0"%string) true None 1
             (Some "alice"%string) None None
             (Some (GV_tuple [GV_int32 7; GV_string "tpl"%string])) None.

Definition nbis_print : FpPrint minutia :=
  mk_FpPrint FP_PRINT_NBIS (Some "uru4000"%string) (Some "0"%string) false None 7
             None (Some "index"%string) (Some (GDateJulian 738000)) None
             (Some [template [1; 2] [3; 4] [5; -6]; template [9] [8] [180]]).

(** A print whose type was never set, with raw data stored in it. *)
Definition undefined_print : FpPrint minutia :=
  mk_FpPrint FP_PRINT_UNDEFINED (Some "synaptics"%string) (Some "0"%string) false
             None 0 None None None (Some (GV_int32 7)) None.

(** An NBIS print as [fpi_print_set_type] leaves it, and an image with 201
    minutiae, the point number [i] at [(i, 0)] with the angle [i]. *)
Definition empty_nbis_print : FpPrint minutia :=
  mk_FpPrint FP_PRINT_NBIS (Some "uru4000"%string) (Some "0"%string) false None 0
             None None None None (Some []).

Definition minutiae_201 : list minutia :=
  map (fun i => (Z.of_nat i, 0, Z.of_nat i)) (seq 0 201).

Definition image_201 : FpImage minutia := mk_FpImage 256 360 (Some minutiae_201).

(** A probe with one template and a gallery of three, of which the second
    alone agrees with the probe on its three rows. *)
Definition probe_print : FpPrint minutia :=
  mk_FpPrint FP_PRINT_NBIS (Some "uru4000"%string) (Some "0"%string) false None 0
             None None None None (Some [template [1; 2; 3] [0; 0; 0] [0; 0; 0]]).

Definition gallery_print : FpPrint minutia :=
  mk_FpPrint FP_PRINT_NBIS (Some "uru4000"%string) (Some "0"%string) false None 0
             None None None None
             (Some [template [9; 9; 9] [0; 0; 0] [0; 0; 0];
                    template [1; 2; 3] [4; 4; 4] [0; 0; 0];
                    template [1; 9; 9] [0; 0; 0] [0; 0; 0]]).

(** [nbis_print] with another value in a cell past the count of its second
    template. *)
Definition nbis_print_padding : FpPrint minutia :=
  mk_FpPrint FP_PRINT_NBIS (Some "uru4000"%string) (Some "0"%string) false None 7
             None (Some "index"%string) (Some (GDateJulian 738000)) None
             (Some [template [1; 2] [3; 4] [5; -6];
                    mk_xyt 1 (memcpy (repeat 0 MAX_BOZORTH_MINUTIAE) [9; 77])
                           (memcpy (repeat 0 MAX_BOZORTH_MINUTIAE) [8])
                           (memcpy (repeat 0 MAX_BOZORTH_MINUTIAE) [180])]).

(** The container of an NBIS print whose only template has columns of
    different lengths, and its bytes. *)
Definition mismatched_templates : list (list Z * list Z * list Z) :=
  [([1; 2], [3], [4; 5])].

Definition mismatched_variant : GVariant :=
  GV_tuple [GV_int32 2; GV_string "uru4000"; GV_string "0"; GV_boolean false;
            GV_byte 7; GV_maybe G_VARIANT_TYPE_STRING None;
            GV_maybe G_VARIANT_TYPE_STRING None; GV_int32 738000;
            GV_array (GVT_dict_entry G_VARIANT_TYPE_STRING G_VARIANT_TYPE_VARIANT) [];
            GV_variant (nbis_payload mismatched_templates)].

Definition mismatched_bytes : list byte :=
  Eval vm_compute in FP3_MAGIC ++ TagCodec.store mismatched_variant.

(** The bytes of [raw_print] and of [nbis_print] on a little-endian host. *)
Definition bytes_of (o : outcome (list byte)) : list byte :=
  match o with
  | Returned bytes => bytes
  | _ => []
  end.

Definition raw_print_bytes : list byte :=
  Eval vm_compute in
    bytes_of (fp_print_serialize G_LITTLE_ENDIAN TagCodec.store raw_print).

Definition nbis_print_bytes : list byte :=
  Eval vm_compute in
    bytes_of (fp_print_serialize G_LITTLE_ENDIAN TagCodec.store nbis_print).

(** The values that the encoder builds for the sample prints, on a host of
    either byte order. *)
Definition value_of (o : outcome GVariant) : GVariant :=
  match o with
  | Returned value => value
  | _ => GV_tuple []
  end.

Definition raw_print_value : GVariant :=
  Eval vm_compute in value_of (fp_print_build_variant G_LITTLE_ENDIAN raw_print).

Definition nbis_print_value : GVariant :=
  Eval vm_compute in value_of (fp_print_build_variant G_LITTLE_ENDIAN nbis_print).

Definition nbis_print_value_big_endian : GVariant :=
  Eval vm_compute in value_of (fp_print_build_variant G_BIG_ENDIAN nbis_print).

Definition gallery_print_value : GVariant :=
  Eval vm_compute in value_of (fp_print_build_variant G_LITTLE_ENDIAN gallery_print).

Definition undefined_print_value : GVariant :=
  Eval vm_compute in value_of (fp_print_build_variant G_LITTLE_ENDIAN undefined_print).

(** A container marked as an NBIS print whose payload is a number, and its
    bytes. *)
Definition number_payload_variant : GVariant :=
  GV_tuple [GV_int32 2; GV_string "uru4000"; GV_string "0"; GV_boolean false;
            GV_byte 7; GV_maybe G_VARIANT_TYPE_STRING None;
            GV_maybe G_VARIANT_TYPE_STRING None; GV_int32 738000;
            GV_array (GVT_dict_entry G_VARIANT_TYPE_STRING G_VARIANT_TYPE_VARIANT) [];
            GV_variant (GV_int32 7)].

Definition number_payload_bytes : list byte :=
  Eval vm_compute in FP3_MAGIC ++ TagCodec.store number_payload_variant.

(** The sample raw print with the username "Jos" followed by the byte 233,
    an e with acute accent in ISO 8859-1, which is not valid UTF-8. *)
Definition latin1_username : string :=
  String "J" (String "o" (String "s" (String "233" EmptyString))).

Definition latin1_print : FpPrint minutia :=
  mk_FpPrint FP_PRINT_RAW (Some "synaptics"%string) (Some "0"%string) true None 1
             (Some latin1_username) None (Some (GDateJulian 738000))
             (Some (GV_tuple [GV_int32 7; GV_string "tpl"%string])) None.

Definition latin1_print_value : GVariant :=
  Eval vm_compute in value_of (fp_print_build_variant G_LITTLE_ENDIAN latin1_print).

(** A device of the driver of the sample NBIS prints. *)
Definition device : FpDevice := mk_FpDevice (Some "uru4000"%string) (Some "0"%string).

End Sample.

(** * Properties *)

(** ** Small facts on the GLib layer *)

Lemma FpPrintType_eqb_eq (a b : FpPrintType) :
  FpPrintType_eqb a b = true <-> a = b.
Proof.
  unfold FpPrintType_eqb; destruct a, b; simpl; split; intro H;
    solve [reflexivity | discriminate H].
Qed.

Lemma FpPrintType_eqb_refl (a : FpPrintType) : FpPrintType_eqb a a = true.
Proof. apply FpPrintType_eqb_eq; reflexivity. Qed.

Lemma string_compare_refl (s : string) : String.compare s s = Eq.
Proof.
  pose proof (String.compare_antisym s s) as H.
  destruct (String.compare s s); simpl in H; congruence.
Qed.

Lemma g_strcmp0_eq (a b : option string) : g_strcmp0 a b = 0 <-> a = b.
Proof.
  destruct a as [a|], b as [b|]; simpl; try (split; intro H; discriminate H).
  - destruct (String.compare a b) eqn:E.
    + apply String.compare_eq_iff in E. subst. split; reflexivity.
    + split; intro H; [discriminate H|].
      injection H as ->. rewrite string_compare_refl in E. discriminate E.
    + split; intro H; [discriminate H|].
      injection H as ->. rewrite string_compare_refl in E. discriminate E.
  - split; reflexivity.
Qed.

Lemma Returned_inj {A : Type} (a b : A) : Returned a = Returned b -> a = b.
Proof. intro H. injection H as H. exact H. Qed.

Lemma bind_Returned {A B : Type} (m : outcome A) (k : A -> outcome B) (b : B) :
  bind m k = Returned b -> exists a, m = Returned a /\ k a = Returned b.
Proof.
  destruct m as [a| |]; simpl; intro H; try discriminate H.
  exists a; split; [reflexivity | exact H].
Qed.

(** A sequence of calls returned: so did its first call, and the rest on
    what it returned. *)
Tactic Notation "bind_inv" hyp(H) "as" ident(x) ident(Hx) :=
  apply bind_Returned in H; destruct H as (x & Hx & H).

(** [g_utf8_validate] on short strings: ASCII, a two-byte and a four-byte
    character are accepted; a byte of ISO 8859-1 alone, a character cut
    short, an overlong form, a surrogate and a character above U+10FFFF
    are refused.  The text stored for a refused string is itself valid. *)
Lemma g_utf8_validate_examples :
  g_utf8_validate "alice" = true /\
  g_utf8_validate (String "195" (String "169" EmptyString)) = true /\
  g_utf8_validate (String "240" (String "159" (String "152" (String "128" EmptyString))))
  = true /\
  g_utf8_validate (String "233" EmptyString) = false /\
  g_utf8_validate (String "195" EmptyString) = false /\
  g_utf8_validate (String "192" (String "128" EmptyString)) = false /\
  g_utf8_validate (String "237" (String "160" (String "128" EmptyString))) = false /\
  g_utf8_validate (String "244" (String "144" (String "128" (String "128" EmptyString))))
  = false /\
  g_utf8_validate "[Invalid UTF-8]" = true.
Proof. repeat split; vm_compute; reflexivity. Qed.

(** ** Properties of the property setter *)

(** C10: storing a value in the private property ["fp-data"] of a print
    hands the description of the print to [g_variant_unref] (line 209).  On
    a print that has a description the call is outside GLib's contract, so
    the description is not reset and nothing is known of the other fields.
    On a print without description the value is stored in [data], the
    description stays unset, and the type, the driver, the device id, the
    device-stored flag, the image, the finger, the username, the enroll
    date and the templates are what they were.  The same holds when the
    property is set through [g_object_set]. *)
Theorem set_fp_data_unrefs_description :
  forall (fp_minutia : Type) (FP_TYPE_FINGER : Z -> bool)
         (self : FpPrint fp_minutia) (value : option GVariant),
    g_object_set FP_TYPE_FINGER self [PROP_FPI_DATA value]
    = fp_print_set_property self (PROP_FPI_DATA value) /\
    (description self <> None ->
     fp_print_set_property self (PROP_FPI_DATA value) = Aborted OutOfContract) /\
    (description self = None ->
     exists self' : FpPrint fp_minutia,
       fp_print_set_property self (PROP_FPI_DATA value) = Returned self' /\
       description self' = None /\
       data self' = value /\
       type self' = type self /\
       driver self' = driver self /\
       device_id self' = device_id self /\
       device_stored self' = device_stored self /\
       image self' = image self /\
       finger self' = finger self /\
       username self' = username self /\
       enroll_date self' = enroll_date self /\
       prints self' = prints self).
Proof.
  intros fp_minutia FP_TYPE_FINGER self value.
  cbn [g_object_set object_set_property fp_print_set_property].
  unfold g_clear_pointer_description.
  destruct (description self) as [d|] eqn:Hd.
  - cbn [bind]. repeat split.
    intro H. discriminate H.
  - cbn [bind]. split; [reflexivity|]. split; [intro H; contradiction H; reflexivity|].
    intros _. eexists. split; [reflexivity|].
    cbn. repeat split.
Qed.

(** ** Properties of the matcher *)

Section Matcher.

Variable fp_minutia : Type.
Variable bozorth_probe_init : xyt_struct -> Z.
Variable bozorth_to_gallery : Z -> xyt_struct -> xyt_struct -> Z.

Lemma bz3_match_loop_error (probe_len : Z) (pstruct : xyt_struct) (threshold : Z)
      (gallery : list xyt_struct) (scores : list Z) :
  match_error (bz3_match_loop bozorth_to_gallery probe_len pstruct threshold gallery scores) = None /\
  match_result (bz3_match_loop bozorth_to_gallery probe_len pstruct threshold gallery scores) <> FPI_MATCH_ERROR.
Proof.
  revert scores. induction gallery as [|g gallery IH]; intro scores; simpl.
  - split; [reflexivity | discriminate].
  - destruct (threshold <=? _); [split; [reflexivity | discriminate] | apply IH].
Qed.

Lemma bz3_match_loop_fail (probe_len : Z) (pstruct : xyt_struct) (threshold : Z)
      (gallery : list xyt_struct) (scores : list Z) :
  let score := bozorth_to_gallery probe_len pstruct in
  (forall g, In g gallery -> score g < threshold) ->
  bz3_match_loop bozorth_to_gallery probe_len pstruct threshold gallery scores
  = mk_bz3_match_return FPI_MATCH_FAIL None (scores ++ map score gallery).
Proof.
  intro score. revert scores.
  induction gallery as [|g gallery IH]; intros scores Hall; simpl.
  - rewrite app_nil_r. reflexivity.
  - assert (Hg : score g < threshold) by (apply Hall; left; reflexivity).
    subst score. simpl in Hg.
    destruct (Z.leb_spec threshold (bozorth_to_gallery probe_len pstruct g)) as [Hle|_];
      [lia|].
    rewrite IH.
    + rewrite <- app_assoc. reflexivity.
    + intros g' Hin. apply Hall. right. exact Hin.
Qed.

Lemma bz3_match_loop_success (probe_len : Z) (pstruct : xyt_struct) (threshold : Z)
      (before : list xyt_struct) (g : xyt_struct) (after : list xyt_struct)
      (scores : list Z) :
  let score := bozorth_to_gallery probe_len pstruct in
  (forall b, In b before -> score b < threshold) ->
  threshold <= score g ->
  bz3_match_loop bozorth_to_gallery probe_len pstruct threshold (before ++ g :: after) scores
  = mk_bz3_match_return FPI_MATCH_SUCCESS None (scores ++ map score (before ++ [g])).
Proof.
  intro score. revert scores.
  induction before as [|b before IH]; intros scores Hall Hg; simpl.
  - subst score. simpl in Hg.
    destruct (Z.leb_spec threshold (bozorth_to_gallery probe_len pstruct g)) as [_|Hlt];
      [reflexivity | lia].
  - assert (Hb : score b < threshold) by (apply Hall; left; reflexivity).
    subst score. simpl in Hb.
    destruct (Z.leb_spec threshold (bozorth_to_gallery probe_len pstruct b)) as [Hle|_];
      [lia|].
    rewrite IH.
    + rewrite <- app_assoc. reflexivity.
    + intros b' Hin. apply Hall. right. exact Hin.
    + exact Hg.
Qed.

(** The gallery splits at its first template that reaches the threshold,
    when it has one. *)
Lemma first_qualifying (score : xyt_struct -> Z) (threshold : Z)
      (gallery : list xyt_struct) :
  (forall g, In g gallery -> score g < threshold) \/
  exists before g after,
    gallery = before ++ g :: after /\
    (forall b, In b before -> score b < threshold) /\
    threshold <= score g.
Proof.
  induction gallery as [|g gallery IH].
  - left. intros g [].
  - destruct (Z_lt_le_dec (score g) threshold) as [Hlt|Hle].
    + destruct IH as [Hall | (before & g' & after & -> & Hbefore & Hg')].
      * left. intros g' [<-|Hin]; [exact Hlt | apply Hall; exact Hin].
      * right. exists (g :: before), g', after. repeat split.
        -- intros b [<-|Hin]; [exact Hlt | apply Hbefore; exact Hin].
        -- exact Hg'.
    + right. exists [], g, gallery. repeat split.
      * intros b [].
      * exact Hle.
Qed.

End Matcher.

(** C5: for a template print and a probe print that are both NBIS prints,
    the probe holding exactly one template, [fpi_print_bz3_match] returns
    without error; the result is [FPI_MATCH_SUCCESS] exactly when some
    template of the gallery scores at least the threshold and
    [FPI_MATCH_FAIL] exactly when none does.  On success the scores
    computed are those of the templates up to the first one that reaches
    the threshold, in storage order, and of no template after it; on
    failure every template was scored. *)
Theorem bz3_match_first_qualifying :
  forall (fp_minutia : Type)
         (bozorth_probe_init : xyt_struct -> Z)
         (bozorth_to_gallery : Z -> xyt_struct -> xyt_struct -> Z)
         (template print : FpPrint fp_minutia) (bz3_threshold : Z)
         (gallery : list xyt_struct) (probe : xyt_struct),
    type template = FP_PRINT_NBIS ->
    type print = FP_PRINT_NBIS ->
    prints template = Some gallery ->
    prints print = Some [probe] ->
    let score := bozorth_to_gallery (bozorth_probe_init probe) probe in
    exists r,
      fpi_print_bz3_match bozorth_probe_init bozorth_to_gallery
                          template print bz3_threshold = Returned r /\
      match_error r = None /\
      (match_result r = FPI_MATCH_SUCCESS <->
       exists g, In g gallery /\ bz3_threshold <= score g) /\
      (match_result r = FPI_MATCH_FAIL <->
       forall g, In g gallery -> score g < bz3_threshold) /\
      (match_result r = FPI_MATCH_SUCCESS ->
       exists before g after,
         gallery = before ++ g :: after /\
         (forall b, In b before -> score b < bz3_threshold) /\
         bz3_threshold <= score g /\
         match_scores r = map score (before ++ [g])) /\
      (match_result r = FPI_MATCH_FAIL -> match_scores r = map score gallery).
Proof.
  intros fp_minutia probe_init to_gallery template print threshold gallery probe
         Ht Hp Hgallery Hprobe score.
  unfold fpi_print_bz3_match.
  rewrite Ht, Hp, Hgallery, Hprobe. simpl.
  fold score.
  destruct (first_qualifying score threshold gallery)
    as [Hnone | (before & g & after & -> & Hbefore & Hg)].
  - pose proof (bz3_match_loop_fail to_gallery (probe_init probe) probe threshold
                                    gallery [] Hnone) as Hloop.
    simpl in Hloop. fold score in Hloop.
    eexists; split; [rewrite Hloop; reflexivity|]. simpl.
    repeat split; try discriminate; try reflexivity.
    + intros (g & Hin & Hge). specialize (Hnone g Hin). lia.
    + intros _. exact Hnone.
  - pose proof (bz3_match_loop_success to_gallery (probe_init probe) probe threshold
                                       before g after [] Hbefore Hg) as Hloop.
    simpl in Hloop. fold score in Hloop.
    eexists; split; [rewrite Hloop; reflexivity|]. simpl.
    repeat split; try discriminate; try reflexivity.
    + intros _. exists g. split; [|exact Hg].
      apply in_or_app. right. left. reflexivity.
    + intros Hall.
      assert (Hin : In g (before ++ g :: after))
        by (apply in_or_app; right; left; reflexivity).
      specialize (Hall g Hin). lia.
    + intros _. exists before, g, after. repeat split; assumption.
Qed.

(** C6: [fpi_print_bz3_match] returns [FPI_MATCH_ERROR] with the error
    [NotSupported] whenever the type of either print is not NBIS; with both
    NBIS, it returns [FPI_MATCH_ERROR] with the error [General] whenever the
    probe print does not hold exactly one template (none, or several); and
    whenever it returns [FPI_MATCH_ERROR] one of the two is the case.  The
    test of the types comes first, so a probe of another type is answered
    with [NotSupported] whatever it holds. *)
Theorem bz3_match_errors :
  forall (fp_minutia : Type)
         (bozorth_probe_init : xyt_struct -> Z)
         (bozorth_to_gallery : Z -> xyt_struct -> xyt_struct -> Z)
         (template print : FpPrint fp_minutia) (bz3_threshold : Z),
    let result := fpi_print_bz3_match bozorth_probe_init bozorth_to_gallery
                                      template print bz3_threshold in
    (type template <> FP_PRINT_NBIS \/ type print <> FP_PRINT_NBIS ->
     result = Returned (mk_bz3_match_return FPI_MATCH_ERROR (Some NotSupported) [])) /\
    (type template = FP_PRINT_NBIS /\ type print = FP_PRINT_NBIS ->
     forall probes, prints print = Some probes -> length probes <> 1%nat ->
     result = Returned (mk_bz3_match_return FPI_MATCH_ERROR (Some General) [])) /\
    (forall r, result = Returned r -> match_result r = FPI_MATCH_ERROR ->
     (type template <> FP_PRINT_NBIS \/ type print <> FP_PRINT_NBIS) \/
     (exists probes, prints print = Some probes /\ length probes <> 1%nat)).
Proof.
  intros fp_minutia probe_init to_gallery template print threshold result.
  subst result. unfold fpi_print_bz3_match. repeat split.
  - intros [Ht | Hp].
    + destruct (FpPrintType_eqb (type template) FP_PRINT_NBIS) eqn:E;
        [apply FpPrintType_eqb_eq in E; contradiction | reflexivity].
    + destruct (FpPrintType_eqb (type print) FP_PRINT_NBIS) eqn:E;
        [apply FpPrintType_eqb_eq in E; contradiction |].
      rewrite orb_true_r. reflexivity.
  - intros [Ht Hp] probes Hprobes Hlen.
    rewrite Ht, Hp, Hprobes. simpl.
    destruct (Nat.eqb_spec (length probes) 1) as [E|_]; [contradiction | reflexivity].
  - intros r Hr Herr.
    destruct (FpPrintType_eqb (type template) FP_PRINT_NBIS) eqn:Et.
    2:{ left. left. intro H. rewrite H in Et. discriminate Et. }
    destruct (FpPrintType_eqb (type print) FP_PRINT_NBIS) eqn:Ep.
    2:{ left. right. intro H. rewrite H in Ep. discriminate Ep. }
    simpl in Hr. right.
    destruct (prints print) as [probes|]; simpl in Hr; [|discriminate Hr].
    exists probes. split; [reflexivity|].
    destruct (Nat.eqb_spec (length probes) 1) as [E|N]; [|exact N].
    exfalso.
    destruct probes as [|probe [|]]; try discriminate E. simpl in Hr.
    destruct (prints template) as [gallery|]; simpl in Hr; [|discriminate Hr].
    injection Hr as <-.
    apply (proj2 (bz3_match_loop_error to_gallery (probe_init probe) probe threshold
                                       gallery [])).
    exact Herr.
Qed.

(** ** Properties of the equality test *)

Lemma memcmp_refl (a : list Z) : memcmp a a = 0.
Proof.
  induction a as [|x a IH]; simpl; [reflexivity|].
  rewrite Z.eqb_refl. exact IH.
Qed.

Lemma memcmp_eq (a b : list Z) :
  length a = length b -> (memcmp a b = 0 <-> a = b).
Proof.
  revert b. induction a as [|x a IH]; intros [|y b] Hlen; simpl in *;
    try discriminate Hlen.
  - split; reflexivity.
  - injection Hlen as Hlen. destruct (Z.eqb_spec x y) as [->|N].
    + rewrite (IH b Hlen). split; [intros ->; reflexivity | intro H; injection H; auto].
    + split.
      * destruct (x <? y); discriminate.
      * intro H. injection H as H _. contradiction.
Qed.

Lemma app_eq_same_length {A : Type} (a a' b b' : list A) :
  length a = length a' -> a ++ b = a' ++ b' -> a = a' /\ b = b'.
Proof.
  revert a'. induction a as [|x a IH]; intros [|x' a'] Hlen H; simpl in *;
    try discriminate Hlen.
  - split; [reflexivity | exact H].
  - injection Hlen as Hlen. injection H as -> H.
    destruct (IH a' Hlen H) as [-> ->]. split; reflexivity.
Qed.

Lemma cells_length (a : list Z) : length (cells a) = MAX_BOZORTH_MINUTIAE.
Proof. unfold cells. rewrite length_map, length_seq. reflexivity. Qed.

Lemma cells_eq (a b : list Z) :
  cells a = cells b <->
  forall j, (j < MAX_BOZORTH_MINUTIAE)%nat -> array_get a j = array_get b j.
Proof.
  unfold cells. split.
  - intros H j Hj.
    assert (Hn : nth j (map (array_get a) (seq 0 MAX_BOZORTH_MINUTIAE)) 0
                 = nth j (map (array_get b) (seq 0 MAX_BOZORTH_MINUTIAE)) 0)
      by (rewrite H; reflexivity).
    rewrite (nth_indep _ 0 (array_get a 0)) in Hn
      by (rewrite length_map, length_seq; exact Hj).
    rewrite (nth_indep _ 0 (array_get b 0)) in Hn
      by (rewrite length_map, length_seq; exact Hj).
    rewrite !map_nth, !seq_nth in Hn by exact Hj. exact Hn.
  - intro H. apply map_ext_in. intros j Hj. apply in_seq in Hj. apply H. lia.
Qed.

Lemma xyt_struct_memory_length (a : xyt_struct) :
  length (xyt_struct_memory a) = S (3 * MAX_BOZORTH_MINUTIAE).
Proof.
  unfold xyt_struct_memory.
  change (S (length (cells (xcol a) ++ cells (ycol a) ++ cells (thetacol a)))
          = S (3 * MAX_BOZORTH_MINUTIAE)).
  rewrite !length_app, !cells_length. reflexivity.
Qed.

Lemma xyt_struct_memory_eq (a b : xyt_struct) :
  xyt_struct_memory a = xyt_struct_memory b <-> same_storage a b.
Proof.
  unfold xyt_struct_memory, same_storage. split.
  - intro H.
    assert (Hn : nrows a = nrows b) by exact (f_equal (hd 0) H).
    apply (f_equal (@tl Z)) in H. cbn [tl] in H.
    apply app_eq_same_length in H; [|rewrite !cells_length; reflexivity].
    destruct H as [Hx H].
    apply app_eq_same_length in H; [|rewrite !cells_length; reflexivity].
    destruct H as [Hy Ht].
    split; [exact Hn|]. intros j Hj.
    rewrite cells_eq in Hx, Hy, Ht. auto.
  - intros [Hn H]. rewrite Hn. f_equal.
    assert (Hx : cells (xcol a) = cells (xcol b)) by (apply cells_eq; intros j Hj; apply H; exact Hj).
    assert (Hy : cells (ycol a) = cells (ycol b)) by (apply cells_eq; intros j Hj; apply H; exact Hj).
    assert (Ht : cells (thetacol a) = cells (thetacol b)) by (apply cells_eq; intros j Hj; apply H; exact Hj).
    rewrite Hx, Hy, Ht. reflexivity.
Qed.

Lemma xyt_memcmp_eq (a b : xyt_struct) :
  memcmp (xyt_struct_memory a) (xyt_struct_memory b) = 0 <-> same_storage a b.
Proof.
  rewrite memcmp_eq by (rewrite !xyt_struct_memory_length; reflexivity).
  apply xyt_struct_memory_eq.
Qed.

Lemma equal_loop_true (la lb : list xyt_struct) :
  length la = length lb ->
  (equal_loop la lb = true <-> Forall2 same_storage la lb).
Proof.
  revert lb. induction la as [|a la IH]; intros [|b lb] Hlen;
    try discriminate Hlen.
  - split; [constructor | reflexivity].
  - injection Hlen as Hlen. cbn [equal_loop].
    destruct (memcmp (xyt_struct_memory a) (xyt_struct_memory b) =? 0) eqn:E;
      cbn [negb].
    + apply Z.eqb_eq in E. apply xyt_memcmp_eq in E.
      rewrite (IH lb Hlen). split.
      * intro H. constructor; assumption.
      * intro H. inversion H; subst. assumption.
    + apply Z.eqb_neq in E. split; [discriminate|].
      intro H. inversion H; subst. exfalso. apply E. apply xyt_memcmp_eq. assumption.
Qed.

Lemma same_print_data_equal {fp_minutia : Type} (self self' other other' : FpPrint fp_minutia) :
  same_print_data self self' -> same_print_data other other' ->
  fp_print_equal self' other' = fp_print_equal self other.
Proof.
  intros (Ht & Hd & Hi & Hv & Hp) (Ht' & Hd' & Hi' & Hv' & Hp').
  unfold fp_print_equal.
  rewrite <- Ht, <- Hd, <- Hi, <- Hv, <- Hp, <- Ht', <- Hd', <- Hi', <- Hv', <- Hp'.
  reflexivity.
Qed.

Lemma fp_print_equal_nbis_unfold {fp_minutia : Type} (self other : FpPrint fp_minutia)
      (la lb : list xyt_struct) :
  type self = FP_PRINT_NBIS -> type other = FP_PRINT_NBIS ->
  prints self = Some la -> prints other = Some lb ->
  fp_print_equal self other =
  Returned (if negb (g_strcmp0 (driver self) (driver other) =? 0) then false
            else if negb (g_strcmp0 (device_id self) (device_id other) =? 0) then false
            else if negb (Nat.eqb (length la) (length lb)) then false
            else equal_loop la lb).
Proof.
  intros Hs Ho Hla Hlb. unfold fp_print_equal. rewrite Hs, Ho, Hla, Hlb.
  change (FpPrintType_eqb FP_PRINT_NBIS FP_PRINT_UNDEFINED) with false.
  change (FpPrintType_eqb FP_PRINT_NBIS FP_PRINT_NBIS) with true.
  cbn [negb bind deref].
  destruct (negb (g_strcmp0 (driver self) (driver other) =? 0)); [reflexivity|].
  destruct (negb (g_strcmp0 (device_id self) (device_id other) =? 0)); [reflexivity|].
  destruct (negb (Nat.eqb (length la) (length lb))); reflexivity.
Qed.

(** C7: for two NBIS prints, [fp_print_equal] returns, and it returns
    [TRUE] exactly when the drivers are the same, the device ids are the
    same, the two arrays of templates have the same length and, position by
    position, the two templates have the same storage: the same count and
    the same cell at each of the 200 indices of the x, y and theta columns,
    the cells past the count included.  The finger, the username, the
    description and the enroll date do not count: two pairs of records that
    differ in them only get the same answer. *)
Theorem fp_print_equal_nbis :
  forall (fp_minutia : Type) (self other : FpPrint fp_minutia)
         (self_prints other_prints : list xyt_struct),
    type self = FP_PRINT_NBIS ->
    type other = FP_PRINT_NBIS ->
    prints self = Some self_prints ->
    prints other = Some other_prints ->
    (fp_print_equal self other = Returned true \/
     fp_print_equal self other = Returned false) /\
    (fp_print_equal self other = Returned true <->
     driver self = driver other /\
     device_id self = device_id other /\
     Forall2 same_storage self_prints other_prints) /\
    (forall self' other' : FpPrint fp_minutia,
       same_print_data self self' -> same_print_data other other' ->
       fp_print_equal self' other' = fp_print_equal self other).
Proof.
  intros fp_minutia self other la lb Hs Ho Hla Hlb.
  rewrite (fp_print_equal_nbis_unfold self other la lb Hs Ho Hla Hlb).
  split; [|split].
  - match goal with |- Returned ?b = _ \/ _ => destruct b end; auto.
  - destruct (Z.eqb_spec (g_strcmp0 (driver self) (driver other)) 0) as [Ed|Nd];
      cbn [negb].
    2:{ split; [discriminate|]. intros (Hd & _). exfalso. apply Nd.
        apply g_strcmp0_eq. exact Hd. }
    destruct (Z.eqb_spec (g_strcmp0 (device_id self) (device_id other)) 0) as [Ei|Ni];
      cbn [negb].
    2:{ split; [discriminate|]. intros (_ & Hi & _). exfalso. apply Ni.
        apply g_strcmp0_eq. exact Hi. }
    apply g_strcmp0_eq in Ed, Ei.
    destruct (Nat.eqb_spec (length la) (length lb)) as [El|Nl]; cbn [negb].
    + split.
      * intro H. injection H as H. apply equal_loop_true in H; auto.
      * intros (_ & _ & H). f_equal. apply equal_loop_true; auto.
    + split; [discriminate|]. intros (_ & _ & H). exfalso. apply Nl.
      eapply Forall2_length. exact H.
  - intros self' other' H1 H2.
    rewrite (same_print_data_equal self self' other other' H1 H2).
    apply fp_print_equal_nbis_unfold; assumption.
Qed.

(** ** Properties of the encoder of the container *)

Section Serialize.

Variable fp_minutia : Type.
Variable G_BYTE_ORDER : ByteOrder.
Variable g_variant_store : GVariant -> list byte.

Lemma serialize_xyt_spec (xyt : xyt_struct) :
  serialize_xyt G_BYTE_ORDER xyt =
  if nrows_in_capacity xyt
  then Returned (GV_tuple [serialize_column G_BYTE_ORDER (nrows xyt) (xcol xyt);
                           serialize_column G_BYTE_ORDER (nrows xyt) (ycol xyt);
                           serialize_column G_BYTE_ORDER (nrows xyt) (thetacol xyt)])
  else Aborted OutOfContract.
Proof.
  unfold serialize_xyt, nrows_in_capacity.
  destruct (Z.ltb_spec (nrows xyt) 0), (Z.ltb_spec (Z.of_nat MAX_BOZORTH_MINUTIAE) (nrows xyt)),
    (Z.leb_spec 0 (nrows xyt)), (Z.leb_spec (nrows xyt) (Z.of_nat MAX_BOZORTH_MINUTIAE));
    simpl; try reflexivity; lia.
Qed.

Lemma traverse_serialize_xyt (l : list xyt_struct) :
  (forallb nrows_in_capacity l = true /\
   exists nested, traverse (serialize_xyt G_BYTE_ORDER) l = Returned nested) \/
  (forallb nrows_in_capacity l = false /\
   traverse (serialize_xyt G_BYTE_ORDER) l = Aborted OutOfContract).
Proof.
  induction l as [|xyt l IH]; cbn [traverse forallb].
  - left. split; [reflexivity | eexists; reflexivity].
  - rewrite serialize_xyt_spec. destruct (nrows_in_capacity xyt); cbn [bind andb].
    + destruct IH as [(-> & nested & ->) | (-> & ->)]; cbn [bind].
      * left. split; [reflexivity | eexists; reflexivity].
      * right. split; reflexivity.
    + right. split; reflexivity.
Qed.



End Serialize.


(** ** Properties of the decoder of the container *)

Lemma traverse_int32 (l : list Z) :
  traverse (fun e => match e with
                     | GV_int32 i => Returned i
                     | _ => Aborted OutOfContract
                     end) (map GV_int32 l) = Returned l.
Proof.
  induction l as [|x l IH]; cbn [map traverse bind]; [reflexivity|].
  rewrite IH. reflexivity.
Qed.

Lemma g_variant_get_fixed_array_new (l : list Z) :
  g_variant_get_fixed_array (g_variant_new_fixed_array l) = Returned l.
Proof. unfold g_variant_get_fixed_array, g_variant_new_fixed_array. apply traverse_int32. Qed.

Section Deserialize.

Variable fp_minutia : Type.
Variable FP_TYPE_FINGER : Z -> bool.
Variable G_BYTE_ORDER : ByteOrder.
Variable g_variant_new_from_data : GVariantType -> list byte -> option GVariant.

(** One turn of the loop on a template of the well-typed payload. *)
Lemma deserialize_prints_cons (columns : list Z * list Z * list Z)
      (children : list GVariant) (result : FpPrint fp_minutia) :
  deserialize_prints (xyt_variant columns :: children) result =
  if bad_template columns then Failed InvalidFormat
  else
    result_prints <- deref (prints result);;
    deserialize_prints children
      (set_prints result (Some (result_prints ++ [decoded_template columns]))).
Proof.
  destruct columns as [[xs ys] ts].
  cbn [deserialize_prints xyt_variant g_variant_get_child_value g_variant_children
       bind deref nth_error].
  rewrite !g_variant_get_fixed_array_new. cbn [bind].
  unfold bad_template, decoded_template.
  destruct (negb (Nat.eqb (length xs) (length ys)) || negb (Nat.eqb (length xs) (length ts)));
    cbn [orb]; [reflexivity|].
  destruct (Nat.ltb MAX_BOZORTH_MINUTIAE (length xs)); reflexivity.
Qed.

Lemma deserialize_prints_bad (templates : list (list Z * list Z * list Z)) :
  forall (result : FpPrint fp_minutia) (result_prints : list xyt_struct),
    prints result = Some result_prints ->
    existsb bad_template templates = true ->
    deserialize_prints (map xyt_variant templates) result = Failed InvalidFormat.
Proof.
  induction templates as [|columns templates IH]; intros result arr Hp Hbad;
    cbn [existsb map] in *; [discriminate Hbad|].
  rewrite deserialize_prints_cons.
  destruct (bad_template columns); [reflexivity|].
  rewrite Hp. cbn [deref bind].
  eapply IH; [reflexivity | exact Hbad].
Qed.

Lemma deserialize_prints_good (templates : list (list Z * list Z * list Z)) :
  forall (result : FpPrint fp_minutia) (result_prints : list xyt_struct),
    prints result = Some result_prints ->
    existsb bad_template templates = false ->
    deserialize_prints (map xyt_variant templates) result =
    Returned (set_prints result
                (Some (result_prints ++ map decoded_template templates))).
Proof.
  induction templates as [|columns templates IH]; intros result arr Hp Hgood;
    cbn [existsb map] in *.
  - rewrite app_nil_r. destruct result; simpl in *. subst. reflexivity.
  - rewrite deserialize_prints_cons.
    apply orb_false_iff in Hgood. destruct Hgood as [-> Hgood].
    rewrite Hp. cbn [deref bind].
    erewrite IH; [|reflexivity | exact Hgood].
    destruct result; cbn. rewrite <- app_assoc. reflexivity.
Qed.

(** The print that the NBIS branch starts from. *)
Lemma g_object_new_nbis (driver_ device_id_ : string) (device_stored_ : bool) :
  g_object_new fp_minutia FP_TYPE_FINGER
               [PROP_DRIVER (Some driver_); PROP_DEVICE_ID (Some device_id_);
                PROP_DEVICE_STORED device_stored_] =
  Returned (mk_FpPrint FP_PRINT_UNDEFINED (Some driver_) (Some device_id_) device_stored_
                       None 0 None None None None None).
Proof. reflexivity. Qed.

(** The print of the raw branch: the raw data is stored in a new object,
    which has no description yet. *)
Lemma g_object_new_raw (driver_ device_id_ : string) (device_stored_ : bool)
      (fp_data : GVariant) :
  g_object_new fp_minutia FP_TYPE_FINGER
               [PROP_FPI_TYPE FP_PRINT_RAW; PROP_DRIVER (Some driver_);
                PROP_DEVICE_ID (Some device_id_); PROP_DEVICE_STORED device_stored_;
                PROP_FPI_DATA (Some fp_data)] =
  Returned (mk_FpPrint FP_PRINT_RAW (Some driver_) (Some device_id_) device_stored_
                       None 0 None None None (Some fp_data) None).
Proof. reflexivity. Qed.

Lemma deserialize_payload_nbis (f : fp3_fields)
      (templates : list (list Z * list Z * list Z)) :
  f_type f = FpPrintType_value FP_PRINT_NBIS ->
  f_print_data f = nbis_payload templates ->
  deserialize_payload fp_minutia FP_TYPE_FINGER f =
  if existsb bad_template templates then Failed InvalidFormat
  else Returned (mk_FpPrint FP_PRINT_NBIS (Some (f_driver f)) (Some (f_device_id f))
                            (f_device_stored f) None 0 None None None None
                            (Some (map decoded_template templates))).
Proof.
  intros Ht Hp. unfold deserialize_payload. rewrite Ht, Hp.
  rewrite Z.eqb_refl.
  unfold nbis_payload.
  cbn [g_variant_get_child_value g_variant_children bind deref nth_error].
  rewrite g_object_new_nbis. cbn [bind].
  set (start := fpi_print_set_type _ FP_PRINT_NBIS).
  assert (Hstart : prints start = Some []) by reflexivity.
  destruct (existsb bad_template templates) eqn:E.
  - exact (deserialize_prints_bad templates start [] Hstart E).
  - rewrite (deserialize_prints_good templates start [] Hstart E). reflexivity.
Qed.

(** Where the enroll date of a decoded print comes from. *)
Lemma g_object_set_metadata (result : FpPrint fp_minutia) (finger_ : Z)
      (username_ description_ : option string) (date : option GDate) :
  exists p : FpPrint fp_minutia,
    g_object_set FP_TYPE_FINGER result
                 [PROP_FINGER finger_; PROP_USERNAME username_;
                  PROP_DESCRIPTION description_; PROP_ENROLL_DATE date]
    = Returned p /\
    enroll_date p = date /\ username p = username_ /\ description p = description_ /\
    finger p = (if FP_TYPE_FINGER finger_ then finger_ else finger result) /\
    type p = type result /\ driver p = driver result /\ device_id p = device_id result /\
    device_stored p = device_stored result /\ image p = image result /\
    data p = data result /\ prints p = prints result.
Proof.
  cbn [g_object_set object_set_property fp_print_set_property
       g_clear_pointer_description bind].
  destruct (FP_TYPE_FINGER finger_); cbn [bind];
    (eexists; split; [reflexivity | cbn; repeat split]).
Qed.

Lemma fp_print_deserialize_enroll_date (data_ : list byte) (value : GVariant)
      (f : fp3_fields) (p : FpPrint fp_minutia) :
  fp_print_load_variant G_BYTE_ORDER g_variant_new_from_data data_ = Returned value ->
  g_variant_get_fp3 value = Returned f ->
  fp_print_deserialize fp_minutia FP_TYPE_FINGER G_BYTE_ORDER g_variant_new_from_data data_
  = Returned p ->
  enroll_date p = g_date_new_julian (to_guint32 (f_julian_date f)).
Proof.
  intros Hload Hget Hdes. unfold fp_print_deserialize in Hdes.
  rewrite Hload in Hdes. cbn [bind] in Hdes. rewrite Hget in Hdes. cbn [bind] in Hdes.
  bind_inv Hdes as result Hresult.
  destruct (g_object_set_metadata result (f_finger_int8 f) (f_username f)
              (f_description f) (g_date_new_julian (to_guint32 (f_julian_date f))))
    as (p' & Hp' & Hdate & _).
  rewrite Hp' in Hdes. injection Hdes as <-. exact Hdate.
Qed.

End Deserialize.

(** C2, as the code has it: a buffer of at most 3 bytes fails the assertion
    [g_assert (length > 3)], so the call aborts and returns no error.  For
    a buffer of 4 bytes or more, the call fails with [InvalidFormat], and
    returns no print, when the first three bytes are not "FP3", and when
    the bytes hold an NBIS print whose payload has a template with x, y and
    theta columns of different lengths or with more than 200 rows. *)
Theorem fp_print_deserialize_rejects :
  forall (fp_minutia : Type) (FP_TYPE_FINGER : Z -> bool) (G_BYTE_ORDER : ByteOrder)
         (g_variant_new_from_data : GVariantType -> list byte -> option GVariant)
         (data_ : list byte),
    let result := fp_print_deserialize fp_minutia FP_TYPE_FINGER G_BYTE_ORDER
                                       g_variant_new_from_data data_ in
    ((length data_ <= 3)%nat -> result = Aborted AssertionFailed) /\
    ((3 < length data_)%nat -> firstn 3 data_ <> FP3_MAGIC ->
     result = Failed InvalidFormat) /\
    ((3 < length data_)%nat ->
     forall (value : GVariant) (f : fp3_fields)
            (templates : list (list Z * list Z * list Z)),
       fp_print_load_variant G_BYTE_ORDER g_variant_new_from_data data_ = Returned value ->
       g_variant_get_fp3 value = Returned f ->
       f_type f = FpPrintType_value FP_PRINT_NBIS ->
       f_print_data f = nbis_payload templates ->
       existsb bad_template templates = true ->
       result = Failed InvalidFormat).
Proof.
  intros fp_minutia valid host load data_ result. subst result.
  unfold fp_print_deserialize. repeat split.
  - intro Hlen. unfold fp_print_load_variant, g_assert.
    destruct (Z.ltb_spec 3 (Z.of_nat (length data_))) as [H|_]; [lia | reflexivity].
  - intros Hlen Hmagic. unfold fp_print_load_variant, g_assert.
    destruct (Z.ltb_spec 3 (Z.of_nat (length data_))) as [_|H]; [|lia].
    cbn [bind]. unfold bytes_eqb.
    destruct (list_eq_dec Byte.byte_eq_dec (firstn 3 data_) FP3_MAGIC) as [E|_];
      [contradiction | reflexivity].
  - intros Hlen value f templates Hload Hget Htype Hpayload Hbad.
    rewrite Hload. cbn [bind]. rewrite Hget. cbn [bind].
    rewrite (deserialize_payload_nbis fp_minutia valid f templates Htype Hpayload).
    rewrite Hbad. reflexivity.
Qed.

(** C4, what the code does: the enroll date of a decoded print is the date
    that [g_date_new_julian] makes of the stored day count read as a
    [guint32].  The stored value [G_MININT32], which the encoder writes
    for a print without date, is read as the day 2147483648: the print gets
    that date and its enroll date is not unset.  A stored count between 1
    and [G_MAXINT32] gives the date of that Julian day, and the enroll date
    is unset for the stored value 0 only. *)
Theorem fp_print_deserialize_date_of_sentinel :
  forall (fp_minutia : Type) (FP_TYPE_FINGER : Z -> bool) (G_BYTE_ORDER : ByteOrder)
         (g_variant_new_from_data : GVariantType -> list byte -> option GVariant)
         (data_ : list byte) (value : GVariant) (f : fp3_fields)
         (p : FpPrint fp_minutia),
    fp_print_load_variant G_BYTE_ORDER g_variant_new_from_data data_ = Returned value ->
    g_variant_get_fp3 value = Returned f ->
    fp_print_deserialize fp_minutia FP_TYPE_FINGER G_BYTE_ORDER
                         g_variant_new_from_data data_ = Returned p ->
    (f_julian_date f = G_MININT32 ->
     enroll_date p = Some (GDateJulian 2147483648)) /\
    (0 < f_julian_date f <= G_MAXINT32 ->
     enroll_date p = Some (GDateJulian (f_julian_date f))) /\
    (G_MININT32 <= f_julian_date f <= G_MAXINT32 ->
     (enroll_date p = None <-> f_julian_date f = 0)).
Proof.
  intros fp_minutia valid host load data_ value f p Hload Hget Hdes.
  rewrite (fp_print_deserialize_enroll_date fp_minutia valid host load
             data_ value f p Hload Hget Hdes).
  unfold g_date_new_julian, g_date_valid_julian, to_guint32, G_MININT32, G_MAXINT32.
  split; [|split].
  - intros ->. reflexivity.
  - intros Hj. rewrite Z.mod_small by lia.
    destruct (Z.ltb_spec 0 (f_julian_date f)); [reflexivity | lia].
  - intro Hrange. split.
    + intro H.
      destruct (Z.ltb_spec 0 (f_julian_date f mod 4294967296)) as [Hpos|Hle];
        [discriminate H|].
      pose proof (Z.mod_pos_bound (f_julian_date f) 4294967296 ltac:(lia)) as Hb.
      assert (Hz : f_julian_date f mod 4294967296 = 0) by lia.
      apply Z.mod_divide in Hz; [|lia]. destruct Hz as [k Hk]. lia.
    + intros ->. reflexivity.
Qed.

(** ** Properties of the minutiae encoder *)

Lemma array_set_length (a : list Z) (i : nat) (v : Z) :
  length (array_set a i v) = length a.
Proof.
  revert i. induction a as [|h a IH]; intros [|i]; simpl; try reflexivity.
  rewrite IH. reflexivity.
Qed.

Lemma array_get_set (a : list Z) (i j : nat) (v : Z) :
  (i < length a)%nat ->
  array_get (array_set a i v) j = if Nat.eqb j i then v else array_get a j.
Proof.
  unfold array_get. revert i j. induction a as [|h a IH]; intros i j Hi; simpl in Hi.
  - lia.
  - destruct i as [|i], j as [|j]; simpl; try reflexivity.
    apply IH. lia.
Qed.

Lemma map_seq_nth {A : Type} (f : nat -> A) (l : list A) (d : A) :
  (forall i, (i < length l)%nat -> f i = nth i l d) ->
  map f (seq 0 (length l)) = l.
Proof.
  revert f. induction l as [|x l IH]; intros f H; simpl; [reflexivity|].
  rewrite (H 0%nat) by (simpl; lia). simpl. f_equal.
  rewrite <- seq_shift, map_map. apply IH.
  intros i Hi. rewrite (H (S i)) by (simpl; lia). reflexivity.
Qed.

Lemma normalize_theta_range (t : Z) :
  -180 < t <= 540 -> -180 < normalize_theta t <= 180.
Proof.
  unfold normalize_theta. intro H. destruct (Z.ltb_spec 180 t); lia.
Qed.

Section Encoder.

Variable fp_minutia : Type.
Variable lfs2nist_minutia_XYT : fp_minutia -> Z -> Z -> Z * Z * Z.
Variable sround_reliability_100 : fp_minutia -> Z.
Variable sort_x_y : minutiae_struct -> minutiae_struct -> Z.
Variable qsort :
  (minutiae_struct -> minutiae_struct -> Z) -> list minutiae_struct -> list minutiae_struct.

(** What the statements ask of [qsort]: it rearranges the array. *)
Hypothesis qsort_permutation :
  forall compar l, Permutation (qsort compar l) l.

Lemma row_triple_minutia_row (bwidth bheight : Z) (m : fp_minutia) :
  row_triple (minutia_row lfs2nist_minutia_XYT sround_reliability_100 bwidth bheight m)
  = encoded_point lfs2nist_minutia_XYT bwidth bheight m.
Proof.
  unfold minutia_row, encoded_point, row_triple.
  destruct (lfs2nist_minutia_XYT m bwidth bheight) as [[x y] t]. reflexivity.
Qed.

(** The second loop writes the rows into the cells from [i] on and leaves
    the other cells and the count as they are. *)
Lemma store_rows_spec (c : list minutiae_struct) :
  forall (i : nat) (xyt : xyt_struct),
    (i + length c <= length (xcol xyt))%nat ->
    (i + length c <= length (ycol xyt))%nat ->
    (i + length c <= length (thetacol xyt))%nat ->
    let xyt' := store_rows c i xyt in
    nrows xyt' = nrows xyt /\
    length (xcol xyt') = length (xcol xyt) /\
    length (ycol xyt') = length (ycol xyt) /\
    length (thetacol xyt') = length (thetacol xyt) /\
    forall j,
      (array_get (xcol xyt') j, array_get (ycol xyt') j, array_get (thetacol xyt') j) =
      if (Nat.leb i j && Nat.ltb j (i + length c))%bool
      then row_triple (nth (j - i) c (mk_minutiae_struct 0 0 0 0))
      else (array_get (xcol xyt) j, array_get (ycol xyt) j, array_get (thetacol xyt) j).
Proof.
  induction c as [|r c IH]; intros i xyt Hx Hy Ht; cbn [store_rows length] in *.
  - repeat split. intro j.
    destruct (Nat.leb_spec i j), (Nat.ltb_spec j (i + 0)); simpl; try reflexivity; lia.
  - specialize (IH (S i)
                   (mk_xyt (nrows xyt) (array_set (xcol xyt) i (col0 r))
                           (array_set (ycol xyt) i (col1 r))
                           (array_set (thetacol xyt) i (col2 r)))).
    cbn [nrows xcol ycol thetacol] in IH. rewrite !array_set_length in IH.
    destruct IH as (Hn & Hlx & Hly & Hlt & Hcells); try lia.
    repeat split; try assumption.
    intro j. rewrite Hcells.
    rewrite !array_get_set by lia.
    destruct (Nat.eqb_spec j i) as [->|N].
    + destruct (Nat.leb_spec (S i) i); [lia|].
      rewrite Nat.leb_refl. cbn [andb].
      destruct (Nat.ltb_spec i (i + S (length c))); [|lia].
      rewrite Nat.sub_diag. reflexivity.
    + destruct (Nat.leb_spec (S i) j), (Nat.ltb_spec j (S i + length c)),
               (Nat.leb_spec i j), (Nat.ltb_spec j (i + S (length c)));
        cbn [andb]; try lia; try reflexivity.
      replace (j - i)%nat with (S (j - S i)) by lia. reflexivity.
Qed.

Lemma g_new0_xyt_struct_cell (j : nat) :
  array_get (xcol g_new0_xyt_struct) j = 0 /\
  array_get (ycol g_new0_xyt_struct) j = 0 /\
  array_get (thetacol g_new0_xyt_struct) j = 0.
Proof. unfold array_get, g_new0_xyt_struct; cbn [xcol ycol thetacol]. rewrite nth_repeat. auto. Qed.

(** [minutiae_to_xyt] on a zero-filled template, for a count that is not
    negative and a list that has the points counted. *)
Lemma minutiae_to_xyt_spec (alloc_ num_ : Z) (ms : list fp_minutia) (bwidth bheight : Z) :
  0 <= num_ ->
  Z.min num_ (Z.of_nat MAX_BOZORTH_MINUTIAE) <= Z.of_nat (length ms) ->
  exists xyt,
    minutiae_to_xyt lfs2nist_minutia_XYT sround_reliability_100 sort_x_y qsort
                    (mk_fp_minutiae alloc_ num_ ms) bwidth bheight g_new0_xyt_struct
    = Returned xyt /\
    nrows xyt = Z.min num_ (Z.of_nat MAX_BOZORTH_MINUTIAE) /\
    Permutation (xyt_rows xyt)
                (map (encoded_point lfs2nist_minutia_XYT bwidth bheight)
                     (firstn (Z.to_nat (Z.min num_ (Z.of_nat MAX_BOZORTH_MINUTIAE))) ms)) /\
    xyt_valid xyt = true.
Proof.
  intros Hnum Hlen. unfold minutiae_to_xyt. cbn [num list_].
  set (nmin := Z.min num_ (Z.of_nat MAX_BOZORTH_MINUTIAE)) in *.
  assert (Hcap : 0 <= nmin <= Z.of_nat MAX_BOZORTH_MINUTIAE) by (subst nmin; lia).
  destruct (Z.ltb_spec nmin 0) as [H|_]; [lia|].
  destruct (Z.ltb_spec (Z.of_nat (length ms)) nmin) as [H|_]; [lia|].
  cbn [orb].
  set (retained := firstn (Z.to_nat nmin) ms).
  set (c := qsort sort_x_y
                  (map (minutia_row lfs2nist_minutia_XYT sround_reliability_100
                                    bwidth bheight) retained)).
  assert (Hperm : Permutation c (map (minutia_row lfs2nist_minutia_XYT
                                        sround_reliability_100 bwidth bheight) retained))
    by apply qsort_permutation.
  assert (Hc : length c = Z.to_nat nmin).
  { rewrite (Permutation_length Hperm), length_map. subst retained.
    rewrite length_firstn. lia. }
  destruct (store_rows_spec c 0 g_new0_xyt_struct) as (Hn & Hlx & Hly & Hlt & Hcells).
  { cbn [g_new0_xyt_struct xcol ycol thetacol]. rewrite repeat_length.
    unfold MAX_BOZORTH_MINUTIAE in *. lia. }
  { cbn [g_new0_xyt_struct xcol ycol thetacol]. rewrite repeat_length.
    unfold MAX_BOZORTH_MINUTIAE in *. lia. }
  { cbn [g_new0_xyt_struct xcol ycol thetacol]. rewrite repeat_length.
    unfold MAX_BOZORTH_MINUTIAE in *. lia. }
  eexists. split; [reflexivity|]. cbn [nrows].
  split; [reflexivity|]. split.
  - unfold xyt_rows. cbn [nrows xcol ycol thetacol].
    apply Permutation_trans with (l' := map row_triple c).
    + rewrite <- Hc.
      replace (length c) with (length (map row_triple c)) by apply length_map.
      rewrite (map_seq_nth _ (map row_triple c) (row_triple (mk_minutiae_struct 0 0 0 0)));
        [apply Permutation_refl|].
      intros i Hi. rewrite length_map in Hi. rewrite Hcells.
      destruct (Nat.ltb_spec i (0 + length c)) as [_|H]; [|lia].
      cbn [Nat.leb andb]. rewrite Nat.sub_0_r, map_nth. reflexivity.
    + apply Permutation_trans
        with (l' := map row_triple
                        (map (minutia_row lfs2nist_minutia_XYT sround_reliability_100
                                          bwidth bheight) retained)).
      * apply Permutation_map. exact Hperm.
      * rewrite map_map. erewrite map_ext; [apply Permutation_refl|].
        intro m. apply row_triple_minutia_row.
  - unfold xyt_valid. cbn [nrows xcol ycol thetacol].
    rewrite Hlx, Hly, Hlt. cbn [g_new0_xyt_struct xcol ycol thetacol].
    rewrite repeat_length, Nat.eqb_refl.
    destruct (Z.leb_spec 0 nmin) as [_|H]; [|lia].
    destruct (Z.leb_spec nmin (Z.of_nat MAX_BOZORTH_MINUTIAE)) as [_|H]; [|lia].
    cbn [andb]. apply forallb_forall. intros j Hj. apply in_seq in Hj.
    pose proof (Hcells j) as Hcell.
    destruct (Nat.ltb_spec j (0 + length c)) as [H|_]; [lia|].
    rewrite andb_false_r in Hcell.
    destruct (g_new0_xyt_struct_cell j) as (Hx0 & Hy0 & Ht0).
    rewrite Hx0, Hy0, Ht0 in Hcell. injection Hcell as -> -> ->. reflexivity.
Qed.

End Encoder.

Lemma to_gint32_small (z : Z) :
  G_MININT32 <= z <= G_MAXINT32 -> to_gint32 z = z.
Proof.
  unfold to_gint32, G_MININT32, G_MAXINT32. intro H.
  rewrite Z.mod_small by lia. lia.
Qed.

Lemma firstn_min_capacity {A : Type} (l : list A) :
  firstn (Z.to_nat (Z.min (Z.of_nat (length l)) (Z.of_nat MAX_BOZORTH_MINUTIAE))) l
  = firstn MAX_BOZORTH_MINUTIAE l.
Proof.
  destruct (Nat.le_gt_cases (length l) MAX_BOZORTH_MINUTIAE) as [H|H].
  - rewrite Z.min_l by lia. rewrite Nat2Z.id.
    rewrite firstn_all, firstn_all2 by exact H. reflexivity.
  - rewrite Z.min_r by lia. rewrite Nat2Z.id. reflexivity.
Qed.

(** The encoder on an NBIS print and an image with minutiae. *)
Lemma fpi_print_add_from_image_spec
      (fp_minutia : Type)
      (lfs2nist_minutia_XYT : fp_minutia -> Z -> Z -> Z * Z * Z)
      (sround_reliability_100 : fp_minutia -> Z)
      (sort_x_y : minutiae_struct -> minutiae_struct -> Z)
      (qsort : (minutiae_struct -> minutiae_struct -> Z) ->
               list minutiae_struct -> list minutiae_struct)
      (print : FpPrint fp_minutia) (img : FpImage fp_minutia)
      (old : list xyt_struct) (ms : list fp_minutia) :
  (forall compar l, Permutation (qsort compar l) l) ->
  type print = FP_PRINT_NBIS ->
  prints print = Some old ->
  fp_image_get_minutiae img = Some ms ->
  ms <> [] ->
  Z.of_nat (length ms) <= G_MAXINT ->
  exists xyt print',
    fpi_print_add_from_image lfs2nist_minutia_XYT sround_reliability_100 sort_x_y qsort
                             print (Some img) = Returned print' /\
    prints print' = Some (old ++ [xyt]) /\
    image print' = Some img /\
    nrows xyt = Z.of_nat (Nat.min (length ms) MAX_BOZORTH_MINUTIAE) /\
    Permutation (xyt_rows xyt)
                (map (encoded_point lfs2nist_minutia_XYT (width img) (height img))
                     (firstn MAX_BOZORTH_MINUTIAE ms)) /\
    xyt_valid xyt = true.
Proof.
  intros Hq Ht Hp Hm Hne Hlen. unfold fpi_print_add_from_image.
  rewrite Ht, Hm.
  change (FpPrintType_eqb FP_PRINT_NBIS FP_PRINT_NBIS) with true. cbn [negb].
  destruct (Nat.eqb_spec (length ms) 0) as [E|_].
  { destruct ms; [contradiction | discriminate E]. }
  rewrite to_gint32_small by (unfold G_MININT32, G_MAXINT32, G_MAXINT in *; lia).
  destruct (minutiae_to_xyt_spec fp_minutia lfs2nist_minutia_XYT sround_reliability_100
              sort_x_y qsort Hq (Z.of_nat (length ms)) (Z.of_nat (length ms)) ms
              (width img) (height img))
    as (xyt & -> & Hn & Hrows & Hvalid); [lia | lia |].
  cbn [bind]. rewrite Hp. cbn [deref bind].
  exists xyt. eexists. split; [reflexivity|].
  rewrite firstn_min_capacity in Hrows.
  repeat split; try assumption.
  rewrite Hn. lia.
Qed.

(** C8: on an NBIS print, [fpi_print_add_from_image] fails with
    [InvalidData] when the image has no minutiae list or an empty one.
    Otherwise (the length of the list being one that the [int] [num] can
    hold) it appends one template to the print: its count is the length of
    the list, capped at 200, and its rows are the encoded forms of the
    first 200 points of the list, of all of them when there are at most
    200, and of no other point; [qsort] fixes their order. *)
Theorem fpi_print_add_from_image_keeps_first_200 :
  forall (fp_minutia : Type)
         (lfs2nist_minutia_XYT : fp_minutia -> Z -> Z -> Z * Z * Z)
         (sround_reliability_100 : fp_minutia -> Z)
         (sort_x_y : minutiae_struct -> minutiae_struct -> Z)
         (qsort : (minutiae_struct -> minutiae_struct -> Z) ->
                  list minutiae_struct -> list minutiae_struct)
         (print : FpPrint fp_minutia) (img : FpImage fp_minutia)
         (old : list xyt_struct),
    (forall compar l, Permutation (qsort compar l) l) ->
    type print = FP_PRINT_NBIS ->
    prints print = Some old ->
    let result := fpi_print_add_from_image lfs2nist_minutia_XYT sround_reliability_100
                                           sort_x_y qsort print (Some img) in
    match fp_image_get_minutiae img with
    | None => result = Failed InvalidData
    | Some ms =>
        (ms = [] -> result = Failed InvalidData) /\
        (ms <> [] -> Z.of_nat (length ms) <= G_MAXINT ->
         exists xyt print',
           result = Returned print' /\
           prints print' = Some (old ++ [xyt]) /\
           nrows xyt = Z.of_nat (Nat.min (length ms) MAX_BOZORTH_MINUTIAE) /\
           Permutation (xyt_rows xyt)
                       (map (encoded_point lfs2nist_minutia_XYT (width img) (height img))
                            (firstn MAX_BOZORTH_MINUTIAE ms)) /\
           ((length ms <= MAX_BOZORTH_MINUTIAE)%nat ->
            Permutation (xyt_rows xyt)
                        (map (encoded_point lfs2nist_minutia_XYT (width img) (height img))
                             ms)))
    end.
Proof.
  intros fp_minutia lfs rel sort qsort print img old Hq Ht Hp result.
  destruct (fp_image_get_minutiae img) as [ms|] eqn:Hm.
  - split.
    + intros ->. subst result. unfold fpi_print_add_from_image.
      rewrite Ht, Hm. reflexivity.
    + intros Hne Hlen.
      destruct (fpi_print_add_from_image_spec fp_minutia lfs rel sort qsort print img old ms
                  Hq Ht Hp Hm Hne Hlen)
        as (xyt & print' & Hres & Hprints & _ & Hn & Hrows & _).
      exists xyt, print'. repeat split; try assumption.
      intro Hle. rewrite firstn_all2 in Hrows by exact Hle. exact Hrows.
  - subst result. unfold fpi_print_add_from_image. rewrite Ht, Hm. reflexivity.
Qed.

(** C9: for every point that the encoder retains, the theta stored is the
    transformed angle itself when that is at most 180 and the angle minus
    360 when it is more; 190 is stored as -170 and 180 as 180.  The thetas
    of the appended template are the angles of the retained points so
    normalised, and each lies in (-180, 180] as soon as NBIS gives angles
    in (-180, 540], the circle [0, 360] among them. *)
Theorem fpi_print_add_from_image_theta :
  forall (fp_minutia : Type)
         (lfs2nist_minutia_XYT : fp_minutia -> Z -> Z -> Z * Z * Z)
         (sround_reliability_100 : fp_minutia -> Z)
         (sort_x_y : minutiae_struct -> minutiae_struct -> Z)
         (qsort : (minutiae_struct -> minutiae_struct -> Z) ->
                  list minutiae_struct -> list minutiae_struct)
         (print : FpPrint fp_minutia) (img : FpImage fp_minutia)
         (old : list xyt_struct) (ms : list fp_minutia),
    (forall compar l, Permutation (qsort compar l) l) ->
    type print = FP_PRINT_NBIS ->
    prints print = Some old ->
    fp_image_get_minutiae img = Some ms ->
    ms <> [] ->
    Z.of_nat (length ms) <= G_MAXINT ->
    let angle := transformed_angle lfs2nist_minutia_XYT (width img) (height img) in
    (forall t, t <= 180 -> normalize_theta t = t) /\
    (forall t, 180 < t -> normalize_theta t = t - 360) /\
    normalize_theta 190 = -170 /\
    normalize_theta 180 = 180 /\
    exists xyt print',
      fpi_print_add_from_image lfs2nist_minutia_XYT sround_reliability_100 sort_x_y qsort
                               print (Some img) = Returned print' /\
      prints print' = Some (old ++ [xyt]) /\
      Permutation (map (array_get (thetacol xyt)) (seq 0 (Z.to_nat (nrows xyt))))
                  (map (fun m => normalize_theta (angle m))
                       (firstn MAX_BOZORTH_MINUTIAE ms)) /\
      ((forall m, In m (firstn MAX_BOZORTH_MINUTIAE ms) -> -180 < angle m <= 540) ->
       forall i, (i < Z.to_nat (nrows xyt))%nat ->
                 -180 < array_get (thetacol xyt) i <= 180).
Proof.
  intros fp_minutia lfs rel sort qsort print img old ms Hq Ht Hp Hm Hne Hlen angle.
  split; [|split; [|split; [|split]]].
  - intros t H. unfold normalize_theta. destruct (Z.ltb_spec 180 t); [lia | reflexivity].
  - intros t H. unfold normalize_theta. destruct (Z.ltb_spec 180 t); [reflexivity | lia].
  - reflexivity.
  - reflexivity.
  - destruct (fpi_print_add_from_image_spec fp_minutia lfs rel sort qsort print img old ms
                Hq Ht Hp Hm Hne Hlen)
      as (xyt & print' & Hres & Hprints & _ & Hn & Hrows & _).
    exists xyt, print'. split; [exact Hres|]. split; [exact Hprints|].
    assert (Hthetas :
              Permutation (map (array_get (thetacol xyt)) (seq 0 (Z.to_nat (nrows xyt))))
                          (map (fun m => normalize_theta (angle m))
                               (firstn MAX_BOZORTH_MINUTIAE ms))).
    { apply (Permutation_map snd) in Hrows.
      unfold xyt_rows in Hrows. rewrite !map_map in Hrows. cbn [snd] in Hrows.
      erewrite (map_ext (fun m => snd (encoded_point lfs (width img) (height img) m)))
        in Hrows; [exact Hrows|].
      intro m. subst angle. unfold encoded_point, transformed_angle.
      destruct (lfs m (width img) (height img)) as [[x y] t]. reflexivity. }
    split; [exact Hthetas|].
    intros Hrange i Hi.
    assert (Hin : In (array_get (thetacol xyt) i)
                     (map (array_get (thetacol xyt)) (seq 0 (Z.to_nat (nrows xyt))))).
    { apply in_map. apply in_seq. lia. }
    apply (Permutation_in _ Hthetas) in Hin.
    apply in_map_iff in Hin. destruct Hin as (m & <- & Hm').
    apply normalize_theta_range. apply Hrange. exact Hm'.
Qed.

(** ** The encoder and the decoder together *)

Section RoundTrip.

Variable fp_minutia : Type.
Variable FP_TYPE_FINGER : Z -> bool.
Variable G_BYTE_ORDER : ByteOrder.
Variable g_variant_store : GVariant -> list byte.
Variable g_variant_new_from_data : GVariantType -> list byte -> option GVariant.

Lemma traverse_serialize_xyt_ok (l : list xyt_struct) :
  forallb nrows_in_capacity l = true ->
  traverse (serialize_xyt G_BYTE_ORDER) l =
  Returned (map (fun xyt =>
                   GV_tuple [serialize_column G_BYTE_ORDER (nrows xyt) (xcol xyt);
                             serialize_column G_BYTE_ORDER (nrows xyt) (ycol xyt);
                             serialize_column G_BYTE_ORDER (nrows xyt) (thetacol xyt)]) l).
Proof.
  induction l as [|xyt l IH]; cbn [forallb traverse map]; intro H; [reflexivity|].
  apply andb_true_iff in H. destruct H as [Hx Hl].
  rewrite serialize_xyt_spec, Hx. cbn [bind]. rewrite (IH Hl). reflexivity.
Qed.

(** The value that the encoder builds, field by field. *)
Lemma fp_print_build_variant_shape (print : FpPrint fp_minutia) (result : GVariant) :
  fp_print_build_variant G_BYTE_ORDER print = Returned result ->
  exists (driver_ device_id_ : string) (payload : GVariant),
    driver print = Some driver_ /\
    device_id print = Some device_id_ /\
    result =
    GV_tuple [GV_int32 (FpPrintType_value (type print));
              GV_string (g_variant_string_stored driver_);
              GV_string (g_variant_string_stored device_id_);
              GV_boolean (device_stored print);
              GV_byte (to_guint8 (finger print));
              g_variant_new_maybe_string (username print);
              g_variant_new_maybe_string (description print);
              GV_int32 (serialize_enroll_date (enroll_date print));
              GV_array (GVT_dict_entry G_VARIANT_TYPE_STRING G_VARIANT_TYPE_VARIANT) [];
              GV_variant payload] /\
    ((type print = FP_PRINT_NBIS /\
      exists l, prints print = Some l /\
                forallb nrows_in_capacity l = true /\
                payload =
                GV_tuple [GV_array XYT_VARIANT_TYPE
                  (map (fun xyt =>
                          GV_tuple [serialize_column G_BYTE_ORDER (nrows xyt) (xcol xyt);
                                    serialize_column G_BYTE_ORDER (nrows xyt) (ycol xyt);
                                    serialize_column G_BYTE_ORDER (nrows xyt) (thetacol xyt)])
                       l)]) \/
     (type print <> FP_PRINT_NBIS /\
      exists data_, data print = Some data_ /\ payload = GV_variant data_)).
Proof.
  unfold fp_print_build_variant. intro H.
  destruct (driver print) as [d|]; cbn [g_variant_new_string deref bind] in H;
    [|discriminate H].
  destruct (device_id print) as [i|]; cbn [g_variant_new_string deref bind] in H;
    [|discriminate H].
  bind_inv H as payload Hpayload.
  injection H as <-.
  exists d, i, payload. repeat split.
  destruct (type print) eqn:Et.
  - right. split; [discriminate|].
    change (FpPrintType_eqb FP_PRINT_UNDEFINED FP_PRINT_NBIS) with false in Hpayload.
    cbv iota in Hpayload.
    destruct (data print) as [v|]; cbn [deref bind] in Hpayload; [|discriminate Hpayload].
    injection Hpayload as <-. exists v. split; reflexivity.
  - right. split; [discriminate|].
    change (FpPrintType_eqb FP_PRINT_RAW FP_PRINT_NBIS) with false in Hpayload.
    cbv iota in Hpayload.
    destruct (data print) as [v|]; cbn [deref bind] in Hpayload; [|discriminate Hpayload].
    injection Hpayload as <-. exists v. split; reflexivity.
  - left. split; [reflexivity|].
    change (FpPrintType_eqb FP_PRINT_NBIS FP_PRINT_NBIS) with true in Hpayload.
    cbv iota in Hpayload.
    destruct (prints print) as [l|]; cbn [deref bind] in Hpayload; [|discriminate Hpayload].
    exists l. split; [reflexivity|].
    destruct (traverse_serialize_xyt G_BYTE_ORDER l) as [(Hall & _) | (_ & Hab)].
    + split; [exact Hall|].
      rewrite (traverse_serialize_xyt_ok l Hall) in Hpayload.
      cbn [bind] in Hpayload. injection Hpayload as <-. reflexivity.
    + rewrite Hab in Hpayload. discriminate Hpayload.
Qed.

(** What the decoder loads from the bytes that the encoder wrote, when
    GLib reads back the value it stored. *)
Lemma fp_print_load_variant_serialized (result value : GVariant) :
  g_variant_new_from_data FP_PRINT_VARIANT_TYPE
    (g_variant_store (host_to_file G_BYTE_ORDER result))
  = Some (host_to_file G_BYTE_ORDER result) ->
  fp_print_load_variant G_BYTE_ORDER g_variant_new_from_data
    (FP3_MAGIC ++ g_variant_store (host_to_file G_BYTE_ORDER result))
  = Returned value ->
  value = match G_BYTE_ORDER with
          | G_BIG_ENDIAN => g_variant_byteswap (g_variant_byteswap result)
          | G_LITTLE_ENDIAN => result
          end.
Proof.
  intros Hback Hload. unfold fp_print_load_variant in Hload.
  bind_inv Hload as asserted Hassert.
  change (firstn 3 (FP3_MAGIC ++ g_variant_store (host_to_file G_BYTE_ORDER result)))
    with FP3_MAGIC in Hload.
  change (skipn 3 (FP3_MAGIC ++ g_variant_store (host_to_file G_BYTE_ORDER result)))
    with (g_variant_store (host_to_file G_BYTE_ORDER result)) in Hload.
  change (bytes_eqb FP3_MAGIC FP3_MAGIC) with true in Hload. cbn [negb] in Hload.
  rewrite Hback in Hload. injection Hload as <-.
  unfold host_to_file, g_variant_get_normal_form. destruct G_BYTE_ORDER; reflexivity.
Qed.

End RoundTrip.

Lemma double_swap_of_sentinel :
  to_gint32 (GUINT32_SWAP_LE_BE (to_guint32
    (to_gint32 (GUINT32_SWAP_LE_BE (to_guint32 G_MININT32))))) = G_MININT32.
Proof. vm_compute. reflexivity. Qed.

(** C1, where the code departs from it: a print without enroll date does
    not come back as it was.  Whatever the byte order of the host, when
    GLib reads back the value it stored, the print decoded from the bytes
    of a print with no enroll date has the enroll date of Julian day
    2147483648 (the sentinel [G_MININT32] read as a [guint32]), not an
    unset one. *)
Theorem fp_print_roundtrip_unset_date :
  forall (fp_minutia : Type) (FP_TYPE_FINGER : Z -> bool) (G_BYTE_ORDER : ByteOrder)
         (g_variant_store : GVariant -> list byte)
         (g_variant_new_from_data : GVariantType -> list byte -> option GVariant)
         (print : FpPrint fp_minutia) (result : GVariant) (bytes : list byte)
         (print' : FpPrint fp_minutia),
    enroll_date print = None ->
    fp_print_build_variant G_BYTE_ORDER print = Returned result ->
    g_variant_new_from_data FP_PRINT_VARIANT_TYPE
      (g_variant_store (host_to_file G_BYTE_ORDER result))
    = Some (host_to_file G_BYTE_ORDER result) ->
    fp_print_serialize G_BYTE_ORDER g_variant_store print = Returned bytes ->
    fp_print_deserialize fp_minutia FP_TYPE_FINGER G_BYTE_ORDER
                         g_variant_new_from_data bytes = Returned print' ->
    enroll_date print' = Some (GDateJulian 2147483648) /\
    enroll_date print' <> enroll_date print.
Proof.
  intros fp_minutia valid host store load print result bytes print'
         Hdate Hbuild Hback Hser Hdes.
  assert (Hgoal : enroll_date print' = Some (GDateJulian 2147483648)).
  2:{ split; [exact Hgoal|]. rewrite Hgoal, Hdate. discriminate. }
  unfold fp_print_serialize in Hser. rewrite Hbuild in Hser. cbn [bind] in Hser.
  injection Hser as <-.
  pose proof Hdes as Hdes'. unfold fp_print_deserialize in Hdes'.
  bind_inv Hdes' as value Hload. bind_inv Hdes' as f Hget.
  rewrite (fp_print_deserialize_enroll_date fp_minutia valid host load _ value f print'
             Hload Hget Hdes).
  apply (fp_print_load_variant_serialized host store load result value Hback) in Hload.
  destruct (fp_print_build_variant_shape fp_minutia host print result Hbuild)
    as (d & i & payload & _ & _ & -> & _).
  rewrite Hdate in Hload. subst value.
  assert (Hjulian : f_julian_date f = G_MININT32).
  { destruct host, (username print), (description print);
      cbn [g_variant_byteswap map option_map g_variant_get_fp3 g_variant_new_maybe_string
           g_variant_get_maybe_string bind serialize_enroll_date] in Hget;
      injection Hget as <-; cbn [f_julian_date];
      solve [reflexivity | apply double_swap_of_sentinel]. }
  rewrite Hjulian. reflexivity.
Qed.

(** *** Values and templates that are read back as they are *)

Lemma g_variant_type_equal_refl : forall t, g_variant_type_equal t t = true.
Proof.
  fix IH 1. intros [ | | | | | e | e | items | k v]; cbn [g_variant_type_equal];
    try reflexivity; try apply IH.
  - induction items as [|a items IHitems]; [reflexivity|].
    rewrite IH. exact IHitems.
  - rewrite !IH. reflexivity.
Qed.

Lemma g_variant_equal_refl : forall v, g_variant_equal v v = true.
Proof.
  fix IH 1. intros [b | y | i | s | c | e [c|] | e l | l | k v]; cbn [g_variant_equal].
  - destruct b; reflexivity.
  - apply Z.eqb_refl.
  - apply Z.eqb_refl.
  - apply String.eqb_refl.
  - apply IH.
  - rewrite g_variant_type_equal_refl, IH. reflexivity.
  - apply g_variant_type_equal_refl.
  - rewrite g_variant_type_equal_refl. cbn [andb].
    induction l as [|a l IHl]; [reflexivity|]. rewrite IH. exact IHl.
  - induction l as [|a l IHl]; [reflexivity|]. rewrite IH. exact IHl.
  - rewrite !IH. reflexivity.
Qed.

Lemma same_storage_refl (a : xyt_struct) : same_storage a a.
Proof. split; [reflexivity|]. intros j _. repeat split. Qed.

Lemma equal_loop_refl (l : list xyt_struct) : equal_loop l l = true.
Proof.
  apply equal_loop_true; [reflexivity|].
  induction l; constructor; [apply same_storage_refl | assumption].
Qed.

Lemma serialize_column_little_endian (n : Z) (column : list Z) :
  serialize_column G_LITTLE_ENDIAN n column =
  g_variant_new_fixed_array (map (array_get column) (seq 0 (Z.to_nat n))).
Proof. reflexivity. Qed.

(** Copying the first [n] cells of a column of 200 cells into a zero-filled
    column gives the column back when its cells from [n] on are zero. *)
Lemma memcpy_written_column (column : list Z) (n : nat) :
  length column = MAX_BOZORTH_MINUTIAE ->
  (n <= MAX_BOZORTH_MINUTIAE)%nat ->
  (forall j, (n <= j < MAX_BOZORTH_MINUTIAE)%nat -> array_get column j = 0) ->
  memcpy (repeat 0 MAX_BOZORTH_MINUTIAE) (map (array_get column) (seq 0 n)) = column.
Proof.
  intros Hlen Hn Hzero. unfold memcpy.
  rewrite length_map, length_seq.
  apply (nth_ext _ _ 0 0).
  - rewrite length_app, length_map, length_seq, length_skipn, repeat_length. lia.
  - intros i Hi.
    rewrite length_app, length_map, length_seq, length_skipn, repeat_length in Hi.
    destruct (Nat.lt_ge_cases i n) as [Hlt|Hge].
    + rewrite app_nth1 by (rewrite length_map, length_seq; exact Hlt).
      rewrite (nth_indep _ 0 (array_get column 0))
        by (rewrite length_map, length_seq; exact Hlt).
      rewrite map_nth, seq_nth by exact Hlt. reflexivity.
    + rewrite app_nth2 by (rewrite length_map, length_seq; exact Hge).
      rewrite length_map, length_seq, nth_skipn, nth_repeat.
      symmetry. apply Hzero. lia.
Qed.

Lemma xyt_valid_spec (xyt : xyt_struct) :
  xyt_valid xyt = true ->
  0 <= nrows xyt <= Z.of_nat MAX_BOZORTH_MINUTIAE /\
  length (xcol xyt) = MAX_BOZORTH_MINUTIAE /\
  length (ycol xyt) = MAX_BOZORTH_MINUTIAE /\
  length (thetacol xyt) = MAX_BOZORTH_MINUTIAE /\
  forall j, (Z.to_nat (nrows xyt) <= j < MAX_BOZORTH_MINUTIAE)%nat ->
            array_get (xcol xyt) j = 0 /\ array_get (ycol xyt) j = 0 /\
            array_get (thetacol xyt) j = 0.
Proof.
  unfold xyt_valid. intro H.
  repeat match goal with
         | H' : _ && _ = true |- _ => apply andb_true_iff in H'; destruct H' as [H' ?]
         end.
  repeat match goal with
         | H' : (_ <=? _) = true |- _ => apply Z.leb_le in H'
         | H' : Nat.eqb _ _ = true |- _ => apply Nat.eqb_eq in H'
         end.
  repeat split; try assumption.
  all: match goal with
       | H' : forallb _ _ = true |- _ =>
           rewrite forallb_forall in H';
           specialize (H' j ltac:(apply in_seq; lia))
       end;
    repeat match goal with
           | H' : _ && _ = true |- _ => apply andb_true_iff in H'; destruct H' as [H' ?]
           end;
    apply Z.eqb_eq; assumption.
Qed.

Lemma decoded_template_written_columns (xyt : xyt_struct) :
  xyt_valid xyt = true ->
  decoded_template (written_columns xyt) = xyt /\
  bad_template (written_columns xyt) = false.
Proof.
  intro Hv. destruct (xyt_valid_spec xyt Hv) as (Hn & Hx & Hy & Ht & Hzero).
  unfold decoded_template, written_columns, bad_template.
  rewrite !length_map, !length_seq. split.
  - cbn [g_new0_xyt_struct xcol ycol thetacol].
    rewrite !memcpy_written_column; try assumption; try lia;
      try (intros j Hj; apply Hzero; exact Hj).
    rewrite Z2Nat.id by lia. destruct xyt; reflexivity.
  - rewrite Nat.eqb_refl. cbn [negb orb].
    apply Nat.ltb_ge. lia.
Qed.

Lemma written_columns_all (l : list xyt_struct) :
  forallb xyt_valid l = true ->
  map decoded_template (map written_columns l) = l /\
  existsb bad_template (map written_columns l) = false.
Proof.
  induction l as [|xyt l IH]; cbn [forallb map existsb]; intro H; [split; reflexivity|].
  apply andb_true_iff in H. destruct H as [Hx Hl].
  destruct (decoded_template_written_columns xyt Hx) as [-> ->].
  destruct (IH Hl) as [-> ->]. split; reflexivity.
Qed.

Lemma to_guint8_small (z : Z) : 0 <= z < 256 -> to_guint8 z = z.
Proof. unfold to_guint8. intro H. apply Z.mod_small. exact H. Qed.

Lemma to_guint32_to_gint32 (z : Z) :
  0 <= z < 4294967296 -> to_guint32 (to_gint32 z) = z.
Proof.
  unfold to_guint32, to_gint32. intro H.
  destruct (Z_lt_le_dec z 2147483648) as [Hlt|Hge].
  - rewrite (Z.mod_small (z + 2147483648)) by lia.
    replace (z + 2147483648 - 2147483648) with z by lia.
    apply Z.mod_small. lia.
  - replace (z + 2147483648) with (z - 2147483648 + 1 * 4294967296) by lia.
    rewrite Z.mod_add by lia. rewrite (Z.mod_small (z - 2147483648)) by lia.
    replace (z - 2147483648 - 2147483648) with (z + (-1) * 4294967296) by lia.
    rewrite Z.mod_add by lia. apply Z.mod_small. lia.
Qed.

(** *** What the decoder returns is well formed *)

Lemma memcpy_zero_column (src : list Z) :
  (length src <= MAX_BOZORTH_MINUTIAE)%nat ->
  length (memcpy (repeat 0 MAX_BOZORTH_MINUTIAE) src) = MAX_BOZORTH_MINUTIAE /\
  forall j, (length src <= j)%nat ->
            array_get (memcpy (repeat 0 MAX_BOZORTH_MINUTIAE) src) j = 0.
Proof.
  intro H. unfold memcpy, array_get. split.
  - rewrite length_app, length_skipn, repeat_length. lia.
  - intros j Hj. rewrite app_nth2 by exact Hj.
    rewrite nth_skipn, nth_repeat. reflexivity.
Qed.

Lemma decoded_template_valid (columns : list Z * list Z * list Z) :
  bad_template columns = false -> xyt_valid (decoded_template columns) = true.
Proof.
  destruct columns as [[xs ys] ts]. unfold bad_template, decoded_template. intro H.
  apply orb_false_iff in H. destruct H as [H Hcap].
  apply orb_false_iff in H. destruct H as [Hy Ht].
  apply negb_false_iff, Nat.eqb_eq in Hy. apply negb_false_iff, Nat.eqb_eq in Ht.
  apply Nat.ltb_ge in Hcap.
  destruct (memcpy_zero_column xs Hcap) as [Hlx Hzx].
  destruct (memcpy_zero_column ys ltac:(lia)) as [Hly Hzy].
  destruct (memcpy_zero_column ts ltac:(lia)) as [Hlt Hzt].
  unfold xyt_valid. cbn [nrows xcol ycol thetacol g_new0_xyt_struct].
  rewrite Hlx, Hly, Hlt, Nat.eqb_refl, Nat2Z.id.
  destruct (Z.leb_spec 0 (Z.of_nat (length xs))) as [_|H]; [|lia].
  destruct (Z.leb_spec (Z.of_nat (length xs)) (Z.of_nat MAX_BOZORTH_MINUTIAE)) as [_|H];
    [|lia].
  cbn [andb]. apply forallb_forall. intros j Hj. apply in_seq in Hj.
  rewrite Hzx, Hzy, Hzt by lia. reflexivity.
Qed.

(** The loop of the decoder appends valid templates only, whatever the
    value it reads them from, and changes nothing else. *)
Lemma deserialize_prints_valid (fp_minutia : Type) (children : list GVariant) :
  forall (result result' : FpPrint fp_minutia) (l : list xyt_struct),
    prints result = Some l ->
    forallb xyt_valid l = true ->
    deserialize_prints children result = Returned result' ->
    set_prints result' None = set_prints result None /\
    exists l', prints result' = Some l' /\ forallb xyt_valid l' = true.
Proof.
  induction children as [|xyt_data children IH]; intros result result' l Hp Hl Hdes;
    cbn [deserialize_prints] in Hdes.
  - apply Returned_inj in Hdes. subst result'. split; [reflexivity|].
    exists l. split; assumption.
  - cbv zeta in Hdes.
    repeat match goal with
           | H : bind _ _ = Returned _ |- _ =>
               apply bind_Returned in H; destruct H as (? & ? & H)
           end.
    match goal with
    | H : (if ?c then _ else _) = Returned _ |- _ =>
        destruct c eqn:Hlens; [discriminate H|]
    end.
    match goal with
    | H : (if ?c then _ else _) = Returned _ |- _ =>
        destruct c eqn:Hcap; [discriminate H|]
    end.
    bind_inv Hdes as arr Harr.
    rewrite Hp in Harr. apply Returned_inj in Harr. subst arr.
    match type of Hdes with
    | deserialize_prints _ (set_prints _ (Some (_ ++ [?t]))) = _ =>
        assert (Hvalid : xyt_valid t = true)
    end.
    { match goal with
      | |- xyt_valid (mk_xyt _ (memcpy _ ?xs) (memcpy _ ?ys) (memcpy _ ?ts)) = true =>
          apply (decoded_template_valid (xs, ys, ts))
      end.
      unfold bad_template. rewrite Hlens, Hcap. reflexivity. }
    eapply IH in Hdes; [| reflexivity |].
    + destruct Hdes as (Hsame & l' & Hl' & Hvl'). split; [|exists l'; split; assumption].
      rewrite Hsame. reflexivity.
    + rewrite forallb_app, Hl. cbn [forallb]. rewrite Hvalid. reflexivity.
Qed.

(** Every print that [fp_print_deserialize] returns is well formed, whatever
    the bytes and whatever GLib loads from them: it has a driver and a
    device id, and it is a raw print with its data and no templates, or an
    NBIS print whose templates are all valid (count within 0..200, zeros
    past the count). *)
Theorem fp_print_deserialize_well_formed :
  forall (fp_minutia : Type) (FP_TYPE_FINGER : Z -> bool) (G_BYTE_ORDER : ByteOrder)
         (g_variant_new_from_data : GVariantType -> list byte -> option GVariant)
         (data_ : list byte) (p : FpPrint fp_minutia),
    fp_print_deserialize fp_minutia FP_TYPE_FINGER G_BYTE_ORDER
                         g_variant_new_from_data data_ = Returned p ->
    is_some (driver p) = true /\
    is_some (device_id p) = true /\
    image p = None /\
    match type p with
    | FP_PRINT_UNDEFINED => False
    | FP_PRINT_RAW => is_some (data p) = true /\ prints p = None
    | FP_PRINT_NBIS =>
        data p = None /\ exists l, prints p = Some l /\ forallb xyt_valid l = true
    end.
Proof.
  intros fp_minutia valid host load data_ p Hdes.
  unfold fp_print_deserialize in Hdes.
  bind_inv Hdes as value Hload. bind_inv Hdes as f Hget. bind_inv Hdes as body Hbody.
  destruct (g_object_set_metadata fp_minutia valid body (f_finger_int8 f) (f_username f)
              (f_description f) (g_date_new_julian (to_guint32 (f_julian_date f))))
    as (p' & Hp' & _ & _ & _ & _ & Ht & Hd & Hi & _ & Him & Hv & Hp).
  rewrite Hp' in Hdes. apply Returned_inj in Hdes. subst p'.
  rewrite Ht, Hd, Hi, Him, Hv, Hp.
  clear Hp' Ht Hd Hi Him Hv Hp.
  unfold deserialize_payload in Hbody.
  destruct (f_type f =? FpPrintType_value FP_PRINT_NBIS).
  - bind_inv Hbody as prints_ Hprints.
    rewrite g_object_new_nbis in Hbody. cbn [bind] in Hbody.
    bind_inv Hbody as children Hchildren.
    match type of Hbody with
    | deserialize_prints _ ?start = _ =>
        destruct (deserialize_prints_valid fp_minutia children start body []
                    eq_refl eq_refl Hbody) as (Hsame & l' & Hl' & Hvalid)
    end.
    destruct body. cbn in Hsame, Hl' |- *. injection Hsame as -> -> -> _ -> _ _ _ _ ->.
    subst. repeat split. exists l'. split; [reflexivity | exact Hvalid].
  - destruct (f_type f =? FpPrintType_value FP_PRINT_RAW); [|discriminate Hbody].
    bind_inv Hbody as fp_data Hfp_data.
    injection Hbody as <-. repeat split.
Qed.

(** * Further properties of the code *)

(** ** Construction, compatibility and the properties of the object *)

(** [fp_print_new] on a device that has a driver name and a device id
    returns a print of undefined type that bears the two strings and has
    nothing else set.  That print is compatible with the device, and
    [fp_print_equal] does not hold it equal to itself, its type being
    undefined.  On a device that lacks either string the assertion of
    [fp_print_constructed] fails. *)
Theorem fp_print_new_outcomes :
  forall (fp_minutia : Type) (FP_TYPE_FINGER : Z -> bool) (device : FpDevice),
    match fp_device_get_driver device, fp_device_get_device_id device with
    | Some driver_, Some device_id_ =>
        exists print : FpPrint fp_minutia,
          fp_print_new fp_minutia FP_TYPE_FINGER device = Returned print /\
          print = mk_FpPrint FP_PRINT_UNDEFINED (Some driver_) (Some device_id_) false
                             None 0 None None None None None /\
          fp_print_compatible print device = true /\
          fp_print_equal print print = Returned false
    | _, _ =>
        fp_print_new fp_minutia FP_TYPE_FINGER device = Aborted AssertionFailed
    end.
Proof.
  intros fp_minutia valid [[d|] [i|]]; cbn [fp_device_get_driver fp_device_get_device_id];
    try reflexivity.
  exists (mk_FpPrint FP_PRINT_UNDEFINED (Some d) (Some i) false None 0 None None None
                     None None).
  split; [reflexivity|]. split; [reflexivity|]. split.
  - unfold fp_print_compatible. cbn [driver device_id fp_device_get_driver fp_device_get_device_id].
    rewrite (proj2 (g_strcmp0_eq (Some d) (Some d)) eq_refl).
    rewrite (proj2 (g_strcmp0_eq (Some i) (Some i)) eq_refl).
    reflexivity.
  - reflexivity.
Qed.

(** [fp_print_compatible] returns [TRUE] exactly when the driver and the
    device id of the print are those of the device, two [NULL]s counting as
    the same string. *)
Theorem fp_print_compatible_iff :
  forall (fp_minutia : Type) (self : FpPrint fp_minutia) (device : FpDevice),
    fp_print_compatible self device = true <->
    driver self = fp_device_get_driver device /\
    device_id self = fp_device_get_device_id device.
Proof.
  intros fp_minutia self device. unfold fp_print_compatible.
  destruct (Z.eqb_spec (g_strcmp0 (driver self) (fp_device_get_driver device)) 0) as [Ed|Nd];
    cbn [negb].
  - destruct (Z.eqb_spec (g_strcmp0 (device_id self) (fp_device_get_device_id device)) 0)
      as [Ei|Ni]; cbn [negb].
    + apply g_strcmp0_eq in Ed, Ei. split; [intros _; split; assumption | reflexivity].
    + split; [discriminate|]. intros [_ Hi]. apply g_strcmp0_eq in Hi. contradiction.
  - split; [discriminate|]. intros [Hd _]. apply g_strcmp0_eq in Hd. contradiction.
Qed.

(** The type of a print is set once.  [fpi_print_set_type], which the
    property ["fp-type"] calls, changes nothing on a print whose type is
    set.  On a print of undefined type it stores the type, gives an NBIS
    print its empty array of templates, leaves the other fields as they
    are, and, the type stored being another than undefined, no later call
    changes the print. *)
Theorem fpi_print_set_type_once :
  forall (fp_minutia : Type) (print : FpPrint fp_minutia) (type_ again : FpPrintType),
    let print' := fpi_print_set_type print type_ in
    fp_print_set_property print (PROP_FPI_TYPE type_) = Returned print' /\
    (type print <> FP_PRINT_UNDEFINED -> print' = print) /\
    (type print = FP_PRINT_UNDEFINED ->
     type print' = type_ /\
     prints print' = (if FpPrintType_eqb type_ FP_PRINT_NBIS then Some [] else prints print) /\
     set_prints (set_type print' (type print)) (prints print) = print /\
     (type_ <> FP_PRINT_UNDEFINED -> fpi_print_set_type print' again = print')).
Proof.
  intros fp_minutia print type_ again print'. subst print'.
  split; [reflexivity|]. split.
  - intro Hset. unfold fpi_print_set_type.
    destruct (FpPrintType_eqb (type print) FP_PRINT_UNDEFINED) eqn:E; [|reflexivity].
    apply FpPrintType_eqb_eq in E. contradiction.
  - intro Hundef. unfold fpi_print_set_type at 1 2 3.
    rewrite Hundef. change (FpPrintType_eqb FP_PRINT_UNDEFINED FP_PRINT_UNDEFINED) with true.
    cbn [negb type set_type].
    destruct print as [t d i s im f u de e v p]. cbn [type] in Hundef. subst t.
    destruct type_; cbn; repeat split; try reflexivity; intro Hdef;
      solve [contradiction | reflexivity].
Qed.

(** What [fp_print_get_property] reads after [fp_print_set_property].
    Storing raw data in a print that has a description is outside GLib's
    contract (the description is handed to [g_variant_unref]) and leaves
    nothing to read.  Every other store returns, and afterwards: under the
    id of the property set, the value stored is read (for the type, when
    the type was undefined; a print whose type is set is left as it is);
    under every other id, what was read before.  No property stores the
    image. *)
Theorem fp_print_get_property_after_set :
  forall (fp_minutia : Type) (self : FpPrint fp_minutia) (prop : Property),
    (forall value, prop = PROP_FPI_DATA value -> description self <> None ->
     fp_print_set_property self prop = Aborted OutOfContract) /\
    ((forall value, prop = PROP_FPI_DATA value -> description self = None) ->
     exists self' : FpPrint fp_minutia,
       fp_print_set_property self prop = Returned self' /\
       ((forall value, prop = PROP_FPI_TYPE value -> type self = FP_PRINT_UNDEFINED) ->
        fp_print_get_property self' (property_id prop) = property_value fp_minutia prop) /\
       (forall value, prop = PROP_FPI_TYPE value -> type self <> FP_PRINT_UNDEFINED ->
        self' = self) /\
       (forall prop_id, prop_id <> property_id prop ->
        fp_print_get_property self' prop_id = fp_print_get_property self prop_id)).
Proof.
  intros fp_minutia self prop. split.
  - intros value -> Hdescription.
    cbn [fp_print_set_property]. unfold g_clear_pointer_description.
    destruct (description self); [reflexivity | contradiction Hdescription; reflexivity].
  - intro Hdata.
    assert (Hreturns : exists self' : FpPrint fp_minutia,
               fp_print_set_property self prop = Returned self' /\
               (forall value, prop = PROP_FPI_DATA value ->
                self' = set_data (set_description self None) value)).
    { destruct prop;
        cbn [fp_print_set_property g_clear_pointer_description bind];
        try (eexists; split; [reflexivity | intros v Hv; discriminate Hv]).
      rewrite (Hdata value eq_refl). cbn [bind].
      eexists; split; [reflexivity|]. intros v Hv. injection Hv as <-. reflexivity. }
    destruct Hreturns as (self' & Hset & Hfp_data). exists self'.
    split; [exact Hset|]. split; [|split].
    + intro Htype. destruct prop;
        cbn [fp_print_set_property g_clear_pointer_description bind] in Hset;
        try (injection Hset as <-; reflexivity).
      * specialize (Htype value eq_refl). injection Hset as <-.
        cbn [property_id property_value fp_print_get_property].
        unfold fpi_print_set_type. rewrite Htype.
        change (FpPrintType_eqb FP_PRINT_UNDEFINED FP_PRINT_UNDEFINED) with true.
        cbn [negb]. destruct value; reflexivity.
      * rewrite (Hfp_data value eq_refl). reflexivity.
    + intros value -> Htype. cbn [fp_print_set_property] in Hset.
      injection Hset as <-. unfold fpi_print_set_type.
      destruct (FpPrintType_eqb (type self) FP_PRINT_UNDEFINED) eqn:E; [|reflexivity].
      apply FpPrintType_eqb_eq in E. contradiction.
    + intros prop_id Hother.
      destruct prop;
        cbn [fp_print_set_property g_clear_pointer_description bind] in Hset;
        try (injection Hset as <-);
        try (rewrite (Hfp_data value eq_refl));
        destruct prop_id; try reflexivity;
        try (exfalso; apply Hother; reflexivity);
        cbn [fp_print_get_property set_data set_description description];
        try (symmetry; f_equal; exact (Hdata value eq_refl));
        cbn [fp_print_get_property]; unfold fpi_print_set_type;
        destruct (FpPrintType_eqb (type self) FP_PRINT_UNDEFINED); cbn [negb];
        try reflexivity; destruct value; reflexivity.
Qed.

(** ** The equality test on all prints *)

Lemma g_variant_type_equal_eq : forall a b, g_variant_type_equal a b = true -> a = b.
Proof.
  fix IH 1. intros [ | | | | | e | e | items | k v] [ | | | | | e' | e' | items' | k' v'];
    cbn [g_variant_type_equal]; intro H; try discriminate H; try reflexivity.
  - f_equal. apply IH. exact H.
  - f_equal. apply IH. exact H.
  - f_equal. revert items' H.
    induction items as [|a items IHitems]; intros [|b items'] H; try discriminate H;
      [reflexivity|].
    apply andb_true_iff in H. destruct H as [Hab H].
    f_equal; [apply IH; exact Hab | apply IHitems; exact H].
  - apply andb_true_iff in H. destruct H as [Hk Hv].
    f_equal; apply IH; assumption.
Qed.

Lemma g_variant_equal_eq : forall a b, g_variant_equal a b = true -> a = b.
Proof.
  fix IH 1.
  intros [b | y | i | s | c | e [c|] | e l | l | k v]
         [b' | y' | i' | s' | c' | e' [c'|] | e' l' | l' | k' v'];
    cbn [g_variant_equal]; intro H; try discriminate H.
  - f_equal. apply Bool.eqb_prop. exact H.
  - f_equal. apply Z.eqb_eq. exact H.
  - f_equal. apply Z.eqb_eq. exact H.
  - f_equal. apply String.eqb_eq. exact H.
  - f_equal. apply IH. exact H.
  - apply andb_true_iff in H. destruct H as [Ht Hc].
    apply g_variant_type_equal_eq in Ht. apply IH in Hc. subst. reflexivity.
  - apply g_variant_type_equal_eq in H. subst. reflexivity.
  - apply andb_true_iff in H. destruct H as [Ht Hl].
    apply g_variant_type_equal_eq in Ht. subst e'. f_equal.
    revert l' Hl. induction l as [|a l IHl]; intros [|a' l'] Hl; try discriminate Hl;
      [reflexivity|].
    apply andb_true_iff in Hl. destruct Hl as [Ha Hl].
    f_equal; [apply IH; exact Ha | apply IHl; exact Hl].
  - f_equal.
    revert l' H. induction l as [|a l IHl]; intros [|a' l'] Hl; try discriminate Hl;
      [reflexivity|].
    apply andb_true_iff in Hl. destruct Hl as [Ha Hl].
    f_equal; [apply IH; exact Ha | apply IHl; exact Hl].
  - apply andb_true_iff in H. destruct H as [Hk Hv].
    f_equal; apply IH; assumption.
Qed.

Lemma g_variant_equal_iff (a b : GVariant) : g_variant_equal a b = true <-> a = b.
Proof.
  split; [apply g_variant_equal_eq | intros ->; apply g_variant_equal_refl].
Qed.

Lemma same_storage_sym (a b : xyt_struct) : same_storage a b -> same_storage b a.
Proof.
  intros [Hn H]. split; [symmetry; exact Hn|].
  intros j Hj. destruct (H j Hj) as (Hx & Hy & Ht). repeat split; symmetry; assumption.
Qed.

Lemma same_storage_trans (a b c : xyt_struct) :
  same_storage a b -> same_storage b c -> same_storage a c.
Proof.
  intros [Hn H] [Hn' H']. split; [congruence|].
  intros j Hj. destruct (H j Hj) as (Hx & Hy & Ht). destruct (H' j Hj) as (Hx' & Hy' & Ht').
  repeat split; congruence.
Qed.

Lemma Forall2_same_storage_sym (la lb : list xyt_struct) :
  Forall2 same_storage la lb -> Forall2 same_storage lb la.
Proof.
  induction 1; constructor; [apply same_storage_sym|]; assumption.
Qed.

Lemma Forall2_same_storage_trans (la lb lc : list xyt_struct) :
  Forall2 same_storage la lb -> Forall2 same_storage lb lc -> Forall2 same_storage la lc.
Proof.
  intro H. revert lc. induction H as [|a b la lb Hab _ IH]; intros lc Hbc;
    inversion Hbc; subst; constructor.
  - eapply same_storage_trans; eassumption.
  - apply IH. assumption.
Qed.

(** When [fp_print_equal] returns [TRUE]. *)
Lemma fp_print_equal_true_iff {fp_minutia : Type} (self other : FpPrint fp_minutia) :
  fp_print_equal self other = Returned true <->
  type self = type other /\ driver self = driver other /\
  device_id self = device_id other /\
  match type self with
  | FP_PRINT_UNDEFINED => False
  | FP_PRINT_RAW => exists value, data self = Some value /\ data other = Some value
  | FP_PRINT_NBIS =>
      exists la lb, prints self = Some la /\ prints other = Some lb /\
                    Forall2 same_storage la lb
  end.
Proof.
  unfold fp_print_equal.
  destruct (type self) eqn:Es, (type other) eqn:Eo;
    try (cbn; split; [discriminate | intros (H & _); try discriminate H; tauto]);
    try (cbn; split; [discriminate | intros (_ & _ & _ & [])]).
  - change (FpPrintType_eqb FP_PRINT_RAW FP_PRINT_UNDEFINED) with false.
    change (FpPrintType_eqb FP_PRINT_RAW FP_PRINT_RAW) with true. cbn [negb].
    destruct (Z.eqb_spec (g_strcmp0 (driver self) (driver other)) 0) as [Ed|Nd]; cbn [negb].
    2:{ split; [discriminate|]. intros (_ & Hd & _). apply g_strcmp0_eq in Hd. contradiction. }
    destruct (Z.eqb_spec (g_strcmp0 (device_id self) (device_id other)) 0) as [Ei|Ni];
      cbn [negb].
    2:{ split; [discriminate|]. intros (_ & _ & Hi & _). apply g_strcmp0_eq in Hi.
        contradiction. }
    apply g_strcmp0_eq in Ed, Ei.
    destruct (data self) as [one|], (data other) as [two|].
    + split.
      * intro H. apply Returned_inj in H. apply g_variant_equal_eq in H. subst two.
        repeat split; try assumption. exists one. split; reflexivity.
      * intros (_ & _ & _ & value & H1 & H2). injection H1 as ->. injection H2 as ->.
        rewrite g_variant_equal_refl. reflexivity.
    + split; [discriminate|]. intros (_ & _ & _ & value & _ & H). discriminate H.
    + split; [discriminate|]. intros (_ & _ & _ & value & H & _). discriminate H.
    + split; [discriminate|]. intros (_ & _ & _ & value & H & _). discriminate H.
  - change (FpPrintType_eqb FP_PRINT_NBIS FP_PRINT_UNDEFINED) with false.
    change (FpPrintType_eqb FP_PRINT_NBIS FP_PRINT_NBIS) with true. cbn [negb].
    destruct (Z.eqb_spec (g_strcmp0 (driver self) (driver other)) 0) as [Ed|Nd]; cbn [negb].
    2:{ split; [discriminate|]. intros (_ & Hd & _). apply g_strcmp0_eq in Hd. contradiction. }
    destruct (Z.eqb_spec (g_strcmp0 (device_id self) (device_id other)) 0) as [Ei|Ni];
      cbn [negb].
    2:{ split; [discriminate|]. intros (_ & _ & Hi & _). apply g_strcmp0_eq in Hi.
        contradiction. }
    apply g_strcmp0_eq in Ed, Ei.
    destruct (prints self) as [la|]; cbn [deref bind].
    2:{ split; [discriminate|]. intros (_ & _ & _ & la & lb & H & _). discriminate H. }
    destruct (prints other) as [lb|]; cbn [deref bind].
    2:{ split; [discriminate|]. intros (_ & _ & _ & la' & lb & _ & H & _). discriminate H. }
    destruct (Nat.eqb_spec (length la) (length lb)) as [El|Nl]; cbn [negb].
    + split.
      * intro H. apply Returned_inj in H. apply equal_loop_true in H; [|exact El].
        repeat split; try assumption. exists la, lb. repeat split. exact H.
      * intros (_ & _ & _ & la' & lb' & H1 & H2 & H). injection H1 as <-. injection H2 as <-.
        f_equal. apply equal_loop_true; assumption.
    + split; [discriminate|].
      intros (_ & _ & _ & la' & lb' & H1 & H2 & H). injection H1 as <-. injection H2 as <-.
      exfalso. apply Nl. eapply Forall2_length. exact H.
Qed.

(** The one way in which [fp_print_equal] has no result: two NBIS prints of
    the same device, one of them without its array of templates. *)
Lemma fp_print_equal_outcome {fp_minutia : Type} (self other : FpPrint fp_minutia) :
  (fp_print_equal self other = Aborted OutOfContract /\
   type self = FP_PRINT_NBIS /\ type other = FP_PRINT_NBIS /\
   driver self = driver other /\ device_id self = device_id other /\
   (prints self = None \/ prints other = None)) \/
  ((exists r, fp_print_equal self other = Returned r) /\
   ~ (type self = FP_PRINT_NBIS /\ type other = FP_PRINT_NBIS /\
      driver self = driver other /\ device_id self = device_id other /\
      (prints self = None \/ prints other = None))).
Proof.
  unfold fp_print_equal.
  destruct (type self) eqn:Es, (type other) eqn:Eo;
    try (right; split; [eexists; reflexivity | intros (H1 & H2 & _); discriminate]).
  - right. change (FpPrintType_eqb FP_PRINT_RAW FP_PRINT_UNDEFINED) with false.
    change (FpPrintType_eqb FP_PRINT_RAW FP_PRINT_RAW) with true. cbn [negb].
    split; [|intros (H1 & _); discriminate].
    destruct (negb (g_strcmp0 (driver self) (driver other) =? 0)); [eexists; reflexivity|].
    destruct (negb (g_strcmp0 (device_id self) (device_id other) =? 0));
      [eexists; reflexivity|].
    destruct (data self), (data other); eexists; reflexivity.
  - change (FpPrintType_eqb FP_PRINT_NBIS FP_PRINT_UNDEFINED) with false.
    change (FpPrintType_eqb FP_PRINT_NBIS FP_PRINT_NBIS) with true. cbn [negb].
    destruct (Z.eqb_spec (g_strcmp0 (driver self) (driver other)) 0) as [Ed|Nd]; cbn [negb].
    2:{ right. split; [eexists; reflexivity|]. intros (_ & _ & Hd & _).
        apply g_strcmp0_eq in Hd. contradiction. }
    destruct (Z.eqb_spec (g_strcmp0 (device_id self) (device_id other)) 0) as [Ei|Ni];
      cbn [negb].
    2:{ right. split; [eexists; reflexivity|]. intros (_ & _ & _ & Hi & _).
        apply g_strcmp0_eq in Hi. contradiction. }
    apply g_strcmp0_eq in Ed, Ei.
    destruct (prints self) as [la|]; cbn [deref bind].
    2:{ left. repeat split; try assumption. left. reflexivity. }
    destruct (prints other) as [lb|]; cbn [deref bind].
    2:{ left. repeat split; try assumption. right. reflexivity. }
    right. split.
    + destruct (negb (Nat.eqb (length la) (length lb))); eexists; reflexivity.
    + intros (_ & _ & _ & _ & [H|H]); discriminate H.
Qed.

Lemma fp_print_equal_sym {fp_minutia : Type} (a b : FpPrint fp_minutia) :
  fp_print_equal a b = fp_print_equal b a.
Proof.
  destruct (fp_print_equal_outcome a b) as [(-> & Ha & Hb & Hd & Hi & Hp) | ((r & Hr) & Hn)];
    destruct (fp_print_equal_outcome b a) as [(-> & Ha' & Hb' & Hd' & Hi' & Hp') | ((r' & Hr') & Hn')];
    try reflexivity.
  - exfalso. apply Hn'. repeat split; try assumption; try (symmetry; assumption). tauto.
  - exfalso. apply Hn. repeat split; try assumption; try (symmetry; assumption). tauto.
  - rewrite Hr, Hr'. f_equal. apply Bool.eq_true_iff_eq. split; intros ->.
    + apply fp_print_equal_true_iff in Hr. destruct Hr as (Ht & Hd & Hi & Hpay).
      apply Returned_inj. rewrite <- Hr'. apply fp_print_equal_true_iff.
      repeat split; try (symmetry; assumption). rewrite <- Ht.
      destruct (type a); [exact Hpay | |].
      * destruct Hpay as (v & H1 & H2). exists v. split; assumption.
      * destruct Hpay as (la & lb & H1 & H2 & H). exists lb, la. repeat split; try assumption.
        apply Forall2_same_storage_sym. exact H.
    + apply fp_print_equal_true_iff in Hr'. destruct Hr' as (Ht & Hd & Hi & Hpay).
      apply Returned_inj. rewrite <- Hr. apply fp_print_equal_true_iff.
      repeat split; try (symmetry; assumption). rewrite <- Ht.
      destruct (type b); [exact Hpay | |].
      * destruct Hpay as (v & H1 & H2). exists v. split; assumption.
      * destruct Hpay as (la & lb & H1 & H2 & H). exists lb, la. repeat split; try assumption.
        apply Forall2_same_storage_sym. exact H.
Qed.

(** For two raw prints, [fp_print_equal] returns, and it returns [TRUE]
    exactly when the drivers are the same, the device ids are the same and
    both prints hold raw data, the same value.  A raw print without data
    is not equal to itself. *)
Theorem fp_print_equal_raw :
  forall (fp_minutia : Type) (self other : FpPrint fp_minutia),
    type self = FP_PRINT_RAW ->
    type other = FP_PRINT_RAW ->
    (fp_print_equal self other = Returned true \/
     fp_print_equal self other = Returned false) /\
    (fp_print_equal self other = Returned true <->
     driver self = driver other /\
     device_id self = device_id other /\
     exists value, data self = Some value /\ data other = Some value) /\
    (data self = None -> fp_print_equal self self = Returned false).
Proof.
  intros fp_minutia self other Hs Ho.
  assert (Hret : forall p q : FpPrint fp_minutia,
             type p = FP_PRINT_RAW ->
             fp_print_equal p q = Returned true \/ fp_print_equal p q = Returned false).
  { intros p q Hp.
    destruct (fp_print_equal_outcome p q) as [(_ & H & _) | ((r & ->) & _)];
      [congruence|].
    destruct r; auto. }
  split; [apply Hret; exact Hs|]. split.
  - rewrite fp_print_equal_true_iff. rewrite Hs, Ho. tauto.
  - intro Hnone. destruct (Hret self self Hs) as [Htrue|Hfalse]; [|exact Hfalse].
    apply fp_print_equal_true_iff in Htrue. rewrite Hs in Htrue.
    destruct Htrue as (_ & _ & _ & value & H & _). congruence.
Qed.

(** [fp_print_equal] is symmetric (in its result and in having one) and
    transitive.  A print is equal to itself exactly when it is a raw print
    with its data or an NBIS print with its array of templates; a print of
    undefined type is equal to none, and prints of different types are not
    equal.  The call never fails an assertion: [g_assert_not_reached] is
    not reached. *)
Theorem fp_print_equal_partial_equivalence :
  forall (fp_minutia : Type) (a b c : FpPrint fp_minutia),
    fp_print_equal a b = fp_print_equal b a /\
    (fp_print_equal a b = Returned true -> fp_print_equal b c = Returned true ->
     fp_print_equal a c = Returned true) /\
    (fp_print_equal a a = Returned true <->
     (type a = FP_PRINT_RAW /\ data a <> None) \/
     (type a = FP_PRINT_NBIS /\ prints a <> None)) /\
    (type a = FP_PRINT_UNDEFINED \/ type b = FP_PRINT_UNDEFINED \/ type a <> type b ->
     fp_print_equal a b = Returned false) /\
    fp_print_equal a b <> Aborted AssertionFailed.
Proof.
  intros fp_minutia a b c. split; [apply fp_print_equal_sym|]. split; [|split; [|split]].
  - rewrite !fp_print_equal_true_iff.
    intros (Ht & Hd & Hi & Hpay) (Ht' & Hd' & Hi' & Hpay').
    repeat split; try congruence.
    rewrite <- Ht in Hpay'. destruct (type a); [exact Hpay | |].
    + destruct Hpay as (v & H1 & H2). destruct Hpay' as (v' & H1' & H2').
      exists v. split; congruence.
    + destruct Hpay as (la & lb & H1 & H2 & H). destruct Hpay' as (lb' & lc & H1' & H2' & H').
      exists la, lc. repeat split; try assumption.
      assert (lb' = lb) by congruence. subst lb'.
      eapply Forall2_same_storage_trans; eassumption.
  - rewrite fp_print_equal_true_iff. split.
    + intros (_ & _ & _ & Hpay). destruct (type a); [contradiction | left | right].
      * destruct Hpay as (v & H & _). split; [reflexivity | congruence].
      * destruct Hpay as (la & _ & H & _). split; [reflexivity | congruence].
    + intros [(Ht & Hv) | (Ht & Hp)]; rewrite Ht; repeat split.
      * destruct (data a) as [v|]; [|contradiction]. exists v. split; reflexivity.
      * destruct (prints a) as [l|]; [|contradiction]. exists l, l. repeat split.
        clear Hp. induction l as [|x l IHl];
          [constructor | constructor; [apply same_storage_refl | exact IHl]].
  - intros H.
    destruct (fp_print_equal_outcome a b) as [(_ & Ha & Hb & _) | ((r & Hr) & _)].
    + destruct H as [H | [H | H]]; congruence.
    + rewrite Hr. destruct r; [|reflexivity].
      apply fp_print_equal_true_iff in Hr. destruct Hr as (Ht & _ & _ & Hpay).
      destruct H as [H | [H | H]]; try contradiction.
      * rewrite H in Hpay. contradiction.
      * rewrite Ht, H in Hpay. contradiction.
  - destruct (fp_print_equal_outcome a b) as [(-> & _) | ((r & ->) & _)]; discriminate.
Qed.

(** [fp_print_equal] compares the data of the prints only: the finger, the
    username, the description and the enroll date that the public setters
    store, the device-stored flag and the image do not change its answer,
    on either side. *)
Theorem fp_print_equal_ignores_metadata :
  forall (fp_minutia : Type) (self other : FpPrint fp_minutia)
         (finger_ : Z) (username_ description_ : option string)
         (enroll_date_ : option GDate) (device_stored_ : bool)
         (image_ : option (FpImage fp_minutia)),
    let self' :=
      set_image
        (fpi_print_set_device_stored
           (fp_print_set_enroll_date
              (fp_print_set_description
                 (fp_print_set_username (fp_print_set_finger self finger_) username_)
                 description_)
              enroll_date_)
           device_stored_)
        image_ in
    fp_print_equal self' other = fp_print_equal self other /\
    fp_print_equal other self' = fp_print_equal other self /\
    fp_print_equal self' self = fp_print_equal self self.
Proof.
  intros fp_minutia self other finger_ username_ description_ enroll_date_
         device_stored_ image_ self'.
  assert (Hsame : same_print_data self self').
  { subst self'. unfold same_print_data. destruct enroll_date_; repeat split. }
  assert (Hrefl : forall p : FpPrint fp_minutia, same_print_data p p)
    by (intro p; repeat split).
  split; [|split].
  - apply same_print_data_equal; [exact Hsame | apply Hrefl].
  - apply same_print_data_equal; [apply Hrefl | exact Hsame].
  - apply same_print_data_equal; [exact Hsame | apply Hrefl].
Qed.

(** ** Adding templates to a print *)

(** [fpi_print_add_print] returns without a change when either print is not
    an NBIS print.  On two NBIS prints it appends the template of [add] to
    those of [print] when [add] holds exactly one, and keeps the templates
    valid when they were; it fails the assertion when [add] holds none or
    several. *)
Theorem fpi_print_add_print_outcomes :
  forall (fp_minutia : Type) (print add : FpPrint fp_minutia),
    let result := fpi_print_add_print print add in
    (type print <> FP_PRINT_NBIS \/ type add <> FP_PRINT_NBIS -> result = Returned print) /\
    (type print = FP_PRINT_NBIS -> type add = FP_PRINT_NBIS ->
     forall l la, prints print = Some l -> prints add = Some la ->
       match la with
       | [xyt] =>
           result = Returned (set_prints print (Some (l ++ [xyt]))) /\
           (templates_valid print = true -> templates_valid add = true ->
            forallb xyt_valid (l ++ [xyt]) = true)
       | _ => result = Aborted AssertionFailed
       end).
Proof.
  intros fp_minutia print add result. subst result. unfold fpi_print_add_print. split.
  - intros [Hp | Ha].
    + destruct (FpPrintType_eqb (type print) FP_PRINT_NBIS) eqn:E; [|reflexivity].
      apply FpPrintType_eqb_eq in E. contradiction.
    + destruct (FpPrintType_eqb (type print) FP_PRINT_NBIS); [|reflexivity]. cbn [negb].
      destruct (FpPrintType_eqb (type add) FP_PRINT_NBIS) eqn:E; [|reflexivity].
      apply FpPrintType_eqb_eq in E. contradiction.
  - intros Hp Ha l la Hl Hla. rewrite Hp, Ha, Hl, Hla.
    change (FpPrintType_eqb FP_PRINT_NBIS FP_PRINT_NBIS) with true.
    cbn [negb deref bind].
    destruct la as [|xyt [|second la]]; try reflexivity.
    split; [reflexivity|].
    unfold templates_valid. rewrite Hl, Hla. intros Hvl Hva.
    rewrite forallb_app, Hvl. exact Hva.
Qed.

Section MatcherGrowth.

Variable bozorth_to_gallery : Z -> xyt_struct -> xyt_struct -> Z.

(** The loop on a gallery with one more template at its end. *)
Lemma bz3_match_loop_app (probe_len : Z) (pstruct : xyt_struct) (threshold : Z)
      (gallery : list xyt_struct) (added : xyt_struct) :
  let score := bozorth_to_gallery probe_len pstruct in
  let r := bz3_match_loop bozorth_to_gallery probe_len pstruct threshold gallery [] in
  let r' := bz3_match_loop bozorth_to_gallery probe_len pstruct threshold
                           (gallery ++ [added]) [] in
  (match_result r = FPI_MATCH_SUCCESS /\ r' = r) \/
  (match_result r = FPI_MATCH_FAIL /\
   r' = mk_bz3_match_return
          (if threshold <=? score added then FPI_MATCH_SUCCESS else FPI_MATCH_FAIL)
          None (match_scores r ++ [score added])).
Proof.
  intros score r r'. subst r r'.
  destruct (first_qualifying score threshold gallery)
    as [Hnone | (before & g & after & -> & Hbefore & Hg)].
  - right.
    rewrite (bz3_match_loop_fail bozorth_to_gallery probe_len pstruct threshold gallery []
               Hnone).
    split; [reflexivity|]. cbn [match_scores app]. fold score.
    destruct (Z.leb_spec threshold (score added)) as [Hle|Hlt].
    + rewrite (bz3_match_loop_success bozorth_to_gallery probe_len pstruct threshold
                 gallery added [] [] Hnone Hle).
      fold score. rewrite map_app. reflexivity.
    + rewrite (bz3_match_loop_fail bozorth_to_gallery probe_len pstruct threshold
                 (gallery ++ [added]) []).
      * fold score. rewrite map_app. reflexivity.
      * intros x Hin. apply in_app_or in Hin. destruct Hin as [Hin | [<- | []]];
          [apply Hnone; exact Hin | exact Hlt].
  - left.
    rewrite (bz3_match_loop_success bozorth_to_gallery probe_len pstruct threshold
               before g after [] Hbefore Hg).
    split; [reflexivity|].
    rewrite <- app_assoc. cbn [app].
    apply (bz3_match_loop_success bozorth_to_gallery probe_len pstruct threshold
             before g (after ++ [added]) [] Hbefore Hg).
Qed.

(** A gallery that matches at a threshold matches at every lower one. *)
Lemma bz3_match_loop_lower (probe_len : Z) (pstruct : xyt_struct) (threshold lower : Z)
      (gallery : list xyt_struct) :
  lower <= threshold ->
  match_result (bz3_match_loop bozorth_to_gallery probe_len pstruct threshold gallery [])
  = FPI_MATCH_SUCCESS ->
  match_result (bz3_match_loop bozorth_to_gallery probe_len pstruct lower gallery [])
  = FPI_MATCH_SUCCESS.
Proof.
  intros Hle Hsuccess.
  set (score := bozorth_to_gallery probe_len pstruct).
  destruct (first_qualifying score threshold gallery)
    as [Hnone | (before & g & after & E & Hbefore & Hg)].
  - rewrite (bz3_match_loop_fail bozorth_to_gallery probe_len pstruct threshold gallery []
               Hnone) in Hsuccess.
    discriminate Hsuccess.
  - destruct (first_qualifying score lower gallery)
      as [Hnone' | (before' & g' & after' & -> & Hbefore' & Hg')].
    + exfalso. assert (Hin : In g gallery).
      { rewrite E. apply in_or_app. right. left. reflexivity. }
      specialize (Hnone' g Hin). lia.
    + rewrite (bz3_match_loop_success bozorth_to_gallery probe_len pstruct lower
                 before' g' after' [] Hbefore' Hg').
      reflexivity.
Qed.

End MatcherGrowth.

(** A match is kept when the gallery grows and when the threshold is
    lowered.  For an NBIS gallery, a print [add] with one template and a
    probe with one: when the probe matches the gallery, it matches the
    gallery that [fpi_print_add_print] extends, with the same scores, and
    it matches the gallery at every lower threshold; when it does not, the
    extended gallery matches exactly when the added template reaches the
    threshold, and that template is scored last. *)
Theorem bz3_match_monotone :
  forall (fp_minutia : Type)
         (bozorth_probe_init : xyt_struct -> Z)
         (bozorth_to_gallery : Z -> xyt_struct -> xyt_struct -> Z)
         (template add print : FpPrint fp_minutia) (bz3_threshold lower : Z)
         (gallery : list xyt_struct) (added probe : xyt_struct),
    type template = FP_PRINT_NBIS -> prints template = Some gallery ->
    type add = FP_PRINT_NBIS -> prints add = Some [added] ->
    type print = FP_PRINT_NBIS -> prints print = Some [probe] ->
    lower <= bz3_threshold ->
    let score := bozorth_to_gallery (bozorth_probe_init probe) probe in
    exists template' r,
      fpi_print_add_print template add = Returned template' /\
      fpi_print_bz3_match bozorth_probe_init bozorth_to_gallery
                          template print bz3_threshold = Returned r /\
      (match_result r = FPI_MATCH_SUCCESS ->
       fpi_print_bz3_match bozorth_probe_init bozorth_to_gallery
                           template' print bz3_threshold = Returned r /\
       exists r',
         fpi_print_bz3_match bozorth_probe_init bozorth_to_gallery
                             template print lower = Returned r' /\
         match_result r' = FPI_MATCH_SUCCESS) /\
      (match_result r = FPI_MATCH_FAIL ->
       fpi_print_bz3_match bozorth_probe_init bozorth_to_gallery
                           template' print bz3_threshold
       = Returned (mk_bz3_match_return
                     (if bz3_threshold <=? score added
                      then FPI_MATCH_SUCCESS else FPI_MATCH_FAIL)
                     None (match_scores r ++ [score added]))).
Proof.
  intros fp_minutia probe_init to_gallery template add print threshold lower gallery
         added probe Ht Hgallery Ha Hadded Hp Hprobe Hle score.
  exists (set_prints template (Some (gallery ++ [added]))).
  assert (Hmatch : forall (t : FpPrint fp_minutia) (l : list xyt_struct) (thr : Z),
             type t = FP_PRINT_NBIS -> prints t = Some l ->
             fpi_print_bz3_match probe_init to_gallery t print thr
             = Returned (bz3_match_loop to_gallery (probe_init probe) probe thr l [])).
  { intros t l thr Htype Hl. unfold fpi_print_bz3_match.
    rewrite Htype, Hp, Hprobe, Hl. reflexivity. }
  eexists. split; [|split; [apply (Hmatch template gallery threshold Ht Hgallery)|]].
  { unfold fpi_print_add_print. rewrite Ht, Ha, Hgallery, Hadded. reflexivity. }
  rewrite (Hmatch (set_prints template (Some (gallery ++ [added]))) (gallery ++ [added])
             threshold Ht eq_refl).
  destruct (bz3_match_loop_app to_gallery (probe_init probe) probe threshold gallery added)
    as [(Hs & Happ) | (Hf & Happ)]; split; intro Hr.
  - split; [rewrite Happ; reflexivity|].
    eexists. split; [apply (Hmatch template gallery lower Ht Hgallery)|].
    apply (bz3_match_loop_lower to_gallery (probe_init probe) probe threshold lower gallery
             Hle Hs).
  - rewrite Hs in Hr. discriminate Hr.
  - rewrite Hf in Hr. discriminate Hr.
  - rewrite Happ. reflexivity.
Qed.

(** [fpi_print_add_from_image] refuses a print that is not an NBIS print and
    a [NULL] image with the error "Cannot add print data from image!",
    whatever the image holds.  Every error it returns is that one or, on an
    NBIS print and an image whose list of minutiae is [NULL] or empty, "No
    minutiae found in image or not yet detected!".  It fails no
    assertion. *)
Theorem fpi_print_add_from_image_errors :
  forall (fp_minutia : Type)
         (lfs2nist_minutia_XYT : fp_minutia -> Z -> Z -> Z * Z * Z)
         (sround_reliability_100 : fp_minutia -> Z)
         (sort_x_y : minutiae_struct -> minutiae_struct -> Z)
         (qsort : (minutiae_struct -> minutiae_struct -> Z) ->
                  list minutiae_struct -> list minutiae_struct)
         (print : FpPrint fp_minutia) (image_ : option (FpImage fp_minutia)),
    let result := fpi_print_add_from_image lfs2nist_minutia_XYT sround_reliability_100
                                           sort_x_y qsort print image_ in
    (type print <> FP_PRINT_NBIS \/ image_ = None ->
     result = Failed InvalidData_no_print) /\
    (forall e, result = Failed e ->
       (e = InvalidData_no_print /\ (type print <> FP_PRINT_NBIS \/ image_ = None)) \/
       (e = InvalidData /\ type print = FP_PRINT_NBIS /\
        exists img, image_ = Some img /\
                    (fp_image_get_minutiae img = None \/
                     fp_image_get_minutiae img = Some []))) /\
    result <> Aborted AssertionFailed.
Proof.
  intros fp_minutia lfs rel sort qsort print image_ result. subst result.
  unfold fpi_print_add_from_image.
  destruct image_ as [img|].
  2:{ split; [reflexivity|]. split; [|discriminate].
      intros e H. injection H as <-. left. split; [reflexivity | right; reflexivity]. }
  destruct (FpPrintType_eqb (type print) FP_PRINT_NBIS) eqn:Et; cbn [negb].
  2:{ assert (Hn : type print <> FP_PRINT_NBIS)
        by (intro H; rewrite H in Et; discriminate Et).
      split; [reflexivity|]. split; [|discriminate].
      intros e H. injection H as <-. left. split; [reflexivity | left; exact Hn]. }
  apply FpPrintType_eqb_eq in Et.
  split; [intros [H | H]; [contradiction | discriminate H]|].
  destruct (fp_image_get_minutiae img) as [ms|] eqn:Hm.
  2:{ split; [|discriminate]. intros e H. injection H as <-. right.
      split; [reflexivity|]. split; [exact Et|]. exists img. split; [reflexivity|].
      left. exact Hm. }
  destruct ms as [|m ms].
  { split; [|discriminate]. intros e H. injection H as <-. right.
    split; [reflexivity|]. split; [exact Et|]. exists img. split; [reflexivity|].
    right. exact Hm. }
  change (Nat.eqb (length (m :: ms)) 0) with false. cbv iota.
  unfold minutiae_to_xyt.
  match goal with
  | |- context [if ?c then Aborted OutOfContract else _] => destruct c
  end; cbn [bind].
  - split; discriminate.
  - destruct (prints print); cbn [deref bind]; split; discriminate.
Qed.

(** On success [fpi_print_add_from_image] changes the templates and the
    image of the print and nothing else: the new template comes after the
    old ones and is a valid one (200 cells a column, zeros past its count),
    and the image given replaces the one kept.  A print with valid
    templates, a print that can be serialised and a validly constructed
    print stay so. *)
Theorem fpi_print_add_from_image_keeps_valid :
  forall (fp_minutia : Type)
         (lfs2nist_minutia_XYT : fp_minutia -> Z -> Z -> Z * Z * Z)
         (sround_reliability_100 : fp_minutia -> Z)
         (sort_x_y : minutiae_struct -> minutiae_struct -> Z)
         (qsort : (minutiae_struct -> minutiae_struct -> Z) ->
                  list minutiae_struct -> list minutiae_struct)
         (print : FpPrint fp_minutia) (img : FpImage fp_minutia)
         (old : list xyt_struct) (ms : list fp_minutia),
    (forall compar l, Permutation (qsort compar l) l) ->
    type print = FP_PRINT_NBIS ->
    prints print = Some old ->
    fp_image_get_minutiae img = Some ms ->
    ms <> [] ->
    Z.of_nat (length ms) <= G_MAXINT ->
    exists xyt,
      let print' := set_image (set_prints print (Some (old ++ [xyt]))) (Some img) in
      fpi_print_add_from_image lfs2nist_minutia_XYT sround_reliability_100 sort_x_y qsort
                               print (Some img) = Returned print' /\
      xyt_valid xyt = true /\
      fp_print_get_image print' = Some img /\
      (templates_valid print = true -> templates_valid print' = true) /\
      (serializable print = true -> serializable print' = true) /\
      (forall FP_TYPE_FINGER,
         valid_print FP_TYPE_FINGER print = true ->
         valid_print FP_TYPE_FINGER print' = true).
Proof.
  intros fp_minutia lfs rel sort qsort print img old ms Hq Ht Hp Hm Hne Hlen.
  unfold fpi_print_add_from_image. rewrite Ht, Hm.
  change (FpPrintType_eqb FP_PRINT_NBIS FP_PRINT_NBIS) with true. cbn [negb].
  destruct (Nat.eqb_spec (length ms) 0) as [E|_].
  { destruct ms; [contradiction | discriminate E]. }
  rewrite to_gint32_small by (unfold G_MININT32, G_MAXINT32, G_MAXINT in *; lia).
  destruct (minutiae_to_xyt_spec fp_minutia lfs rel sort qsort Hq
              (Z.of_nat (length ms)) (Z.of_nat (length ms)) ms (width img) (height img))
    as (xyt & -> & Hn & _ & Hvalid); [lia | lia |].
  cbn [bind]. rewrite Hp. cbn [deref bind].
  exists xyt. cbv zeta. split; [reflexivity|]. split; [exact Hvalid|].
  split; [reflexivity|].
  assert (Hall : forallb xyt_valid old = true -> forallb xyt_valid (old ++ [xyt]) = true).
  { intro Hold. rewrite forallb_app, Hold. cbn [forallb]. rewrite Hvalid. reflexivity. }
  split; [|split].
  - unfold templates_valid. rewrite Hp. cbn [prints set_image set_prints]. exact Hall.
  - unfold serializable. cbn [driver device_id type prints data set_image set_prints].
    rewrite Ht, Hp. intro Hs.
    apply andb_true_iff in Hs. destruct Hs as [-> Hold]. cbn [andb].
    rewrite forallb_app, Hold. cbn [forallb andb]. rewrite andb_true_r.
    destruct (xyt_valid_spec xyt Hvalid) as (Hrange & _).
    unfold nrows_in_capacity.
    apply andb_true_iff. split; apply Z.leb_le; lia.
  - intros valid Hv. unfold valid_print in *.
    cbn [driver device_id finger type prints data set_image set_prints].
    rewrite Ht, Hp in *.
    apply andb_true_iff in Hv. destruct Hv as [-> Hold]. cbn [andb].
    apply Hall. exact Hold.
Qed.

(** A probe made as an image device makes one is matched without error: a
    new print for a device, with the type NBIS set and one image added,
    holds exactly one template and is compatible with the device, and
    [fpi_print_bz3_match] of an NBIS gallery and that probe returns a match
    or no match, never [FPI_MATCH_ERROR].  A second image added to the
    probe makes the matcher refuse it with the error [General]. *)
Theorem probe_from_image_is_matched :
  forall (fp_minutia : Type) (FP_TYPE_FINGER : Z -> bool)
         (lfs2nist_minutia_XYT : fp_minutia -> Z -> Z -> Z * Z * Z)
         (sround_reliability_100 : fp_minutia -> Z)
         (sort_x_y : minutiae_struct -> minutiae_struct -> Z)
         (qsort : (minutiae_struct -> minutiae_struct -> Z) ->
                  list minutiae_struct -> list minutiae_struct)
         (bozorth_probe_init : xyt_struct -> Z)
         (bozorth_to_gallery : Z -> xyt_struct -> xyt_struct -> Z)
         (device : FpDevice) (new template : FpPrint fp_minutia)
         (img : FpImage fp_minutia) (ms : list fp_minutia)
         (gallery : list xyt_struct) (bz3_threshold : Z),
    (forall compar l, Permutation (qsort compar l) l) ->
    fp_print_new fp_minutia FP_TYPE_FINGER device = Returned new ->
    fp_image_get_minutiae img = Some ms ->
    ms <> [] ->
    Z.of_nat (length ms) <= G_MAXINT ->
    type template = FP_PRINT_NBIS ->
    prints template = Some gallery ->
    let add_image := fpi_print_add_from_image lfs2nist_minutia_XYT sround_reliability_100
                                              sort_x_y qsort in
    exists probe xyt r again,
      add_image (fpi_print_set_type new FP_PRINT_NBIS) (Some img) = Returned probe /\
      prints probe = Some [xyt] /\
      fp_print_compatible probe device = true /\
      fpi_print_bz3_match bozorth_probe_init bozorth_to_gallery
                          template probe bz3_threshold = Returned r /\
      match_result r <> FPI_MATCH_ERROR /\
      match_error r = None /\
      add_image probe (Some img) = Returned again /\
      fpi_print_bz3_match bozorth_probe_init bozorth_to_gallery
                          template again bz3_threshold
      = Returned (mk_bz3_match_return FPI_MATCH_ERROR (Some General) []).
Proof.
  intros fp_minutia valid lfs rel sort qsort probe_init to_gallery device new template
         img ms gallery threshold Hq Hnew Hm Hne Hlen Ht Hgallery add_image.
  subst add_image.
  assert (Hfresh : exists d i,
             fp_device_get_driver device = Some d /\
             fp_device_get_device_id device = Some i /\
             new = mk_FpPrint FP_PRINT_UNDEFINED (Some d) (Some i) false None 0
                              None None None None None).
  { destruct device as [[d|] [i|]]; try discriminate Hnew.
    exists d, i. repeat split. apply Returned_inj in Hnew. symmetry. exact Hnew. }
  destruct Hfresh as (d & i & Hd & Hi & ->).
  set (typed := fpi_print_set_type _ FP_PRINT_NBIS).
  destruct (fpi_print_add_from_image_spec fp_minutia lfs rel sort qsort typed img [] ms
              Hq eq_refl eq_refl Hm Hne Hlen)
    as (xyt & probe & Hprobe & Hprints & _).
  cbn [app] in Hprints.
  assert (Hkept : type probe = FP_PRINT_NBIS /\ driver probe = Some d /\
                  device_id probe = Some i).
  { unfold fpi_print_add_from_image in Hprobe.
    change (type typed) with FP_PRINT_NBIS in Hprobe.
    change (FpPrintType_eqb FP_PRINT_NBIS FP_PRINT_NBIS) with true in Hprobe.
    cbn [negb] in Hprobe. rewrite Hm in Hprobe.
    destruct (Nat.eqb (length ms) 0); [discriminate Hprobe|].
    bind_inv Hprobe as made Hmade. bind_inv Hprobe as old Hold.
    apply Returned_inj in Hprobe. subst probe. repeat split. }
  destruct Hkept as (Htype & Hdriver & Hdevice).
  destruct (fpi_print_add_from_image_spec fp_minutia lfs rel sort qsort probe img [xyt] ms
              Hq Htype Hprints Hm Hne Hlen)
    as (xyt' & again & Hagain & Hprints' & _).
  cbn [app] in Hprints'.
  assert (Htype' : type again = FP_PRINT_NBIS).
  { unfold fpi_print_add_from_image in Hagain. rewrite Htype, Hm in Hagain.
    change (FpPrintType_eqb FP_PRINT_NBIS FP_PRINT_NBIS) with true in Hagain.
    cbn [negb] in Hagain.
    destruct (Nat.eqb (length ms) 0); [discriminate Hagain|].
    bind_inv Hagain as made Hmade. bind_inv Hagain as old Hold.
    apply Returned_inj in Hagain. subst again. exact Htype. }
  exists probe, xyt. eexists. exists again.
  split; [exact Hprobe|]. split; [exact Hprints|]. split.
  { unfold fp_print_compatible. rewrite Hdriver, Hdevice, Hd, Hi.
    rewrite (proj2 (g_strcmp0_eq (Some d) (Some d)) eq_refl).
    rewrite (proj2 (g_strcmp0_eq (Some i) (Some i)) eq_refl). reflexivity. }
  split.
  { unfold fpi_print_bz3_match. rewrite Ht, Htype, Hprints, Hgallery. reflexivity. }
  split; [apply bz3_match_loop_error|]. split; [apply bz3_match_loop_error|].
  split; [exact Hagain|].
  unfold fpi_print_bz3_match. rewrite Ht, Htype', Hprints'. reflexivity.
Qed.

(** ** What the encoder reads *)

Lemma same_rows_serialize_xyt (host : ByteOrder) (a b : xyt_struct) :
  same_rows a b -> serialize_xyt host a = serialize_xyt host b.
Proof.
  intros [Hn Hrows]. unfold serialize_xyt, serialize_column. rewrite <- Hn.
  destruct ((nrows a <? 0) || (Z.of_nat MAX_BOZORTH_MINUTIAE <? nrows a)); [reflexivity|].
  unfold xyt_rows in Hrows. rewrite <- Hn in Hrows.
  assert (Hx : map (fun j => GINT32_TO_LE host (array_get (xcol a) j))
                   (seq 0 (Z.to_nat (nrows a)))
               = map (fun j => GINT32_TO_LE host (array_get (xcol b) j))
                     (seq 0 (Z.to_nat (nrows a)))).
  { apply (f_equal (map (fun r : Z * Z * Z => GINT32_TO_LE host (fst (fst r))))) in Hrows.
    rewrite !map_map in Hrows. exact Hrows. }
  assert (Hy : map (fun j => GINT32_TO_LE host (array_get (ycol a) j))
                   (seq 0 (Z.to_nat (nrows a)))
               = map (fun j => GINT32_TO_LE host (array_get (ycol b) j))
                     (seq 0 (Z.to_nat (nrows a)))).
  { apply (f_equal (map (fun r : Z * Z * Z => GINT32_TO_LE host (snd (fst r))))) in Hrows.
    rewrite !map_map in Hrows. exact Hrows. }
  assert (Ht : map (fun j => GINT32_TO_LE host (array_get (thetacol a) j))
                   (seq 0 (Z.to_nat (nrows a)))
               = map (fun j => GINT32_TO_LE host (array_get (thetacol b) j))
                     (seq 0 (Z.to_nat (nrows a)))).
  { apply (f_equal (map (fun r : Z * Z * Z => GINT32_TO_LE host (snd r)))) in Hrows.
    rewrite !map_map in Hrows. exact Hrows. }
  rewrite Hx, Hy, Ht. reflexivity.
Qed.

Lemma same_rows_traverse (host : ByteOrder) (la lb : list xyt_struct) :
  Forall2 same_rows la lb ->
  traverse (serialize_xyt host) la = traverse (serialize_xyt host) lb.
Proof.
  induction 1 as [|a b la lb Hab _ IH]; cbn [traverse]; [reflexivity|].
  rewrite (same_rows_serialize_xyt host a b Hab), IH. reflexivity.
Qed.

Lemma same_serialized_fields_build {fp_minutia : Type} (host : ByteOrder)
      (p q : FpPrint fp_minutia) :
  same_serialized_fields p q ->
  fp_print_build_variant host p = fp_print_build_variant host q.
Proof.
  intros (Ht & Hd & Hi & Hs & Hf & Hu & Hde & He & Hpay).
  unfold fp_print_build_variant.
  rewrite <- Ht, <- Hd, <- Hi, <- Hs, <- Hf, <- Hu, <- Hde, <- He.
  destruct (driver p) as [d|]; cbn [g_variant_new_string deref bind]; [|reflexivity].
  destruct (device_id p) as [i|]; cbn [g_variant_new_string deref bind]; [|reflexivity].
  destruct (type p).
  - change (FpPrintType_eqb FP_PRINT_UNDEFINED FP_PRINT_NBIS) with false. cbv iota.
    rewrite Hpay. reflexivity.
  - change (FpPrintType_eqb FP_PRINT_RAW FP_PRINT_NBIS) with false. cbv iota.
    rewrite Hpay. reflexivity.
  - change (FpPrintType_eqb FP_PRINT_NBIS FP_PRINT_NBIS) with true. cbv iota.
    destruct (prints p) as [lp|], (prints q) as [lq|]; try contradiction; [|reflexivity].
    cbn [deref bind]. rewrite (same_rows_traverse host lp lq Hpay). reflexivity.
Qed.

(** Two prints that agree on what [fp_print_serialize] reads have the same
    bytes, or make the call leave GLib's contract alike: the image, the
    bits of the finger above its low byte, an enroll date that is not valid
    (stored as no date), the cells past the count of a template and the
    payload of the other type are not written. *)
Theorem fp_print_serialize_reads :
  forall (fp_minutia : Type) (G_BYTE_ORDER : ByteOrder)
         (g_variant_store : GVariant -> list byte) (p q : FpPrint fp_minutia),
    same_serialized_fields p q ->
    fp_print_serialize G_BYTE_ORDER g_variant_store p
    = fp_print_serialize G_BYTE_ORDER g_variant_store q.
Proof.
  intros fp_minutia host store p q Hsame. unfold fp_print_serialize.
  rewrite (same_serialized_fields_build host p q Hsame). reflexivity.
Qed.

(** ** The byte swap *)

Lemma testbit_byte_mask (s k : Z) :
  0 <= s -> Z.testbit (Z.shiftl 255 s) k = (s <=? k) && (k <? s + 8).
Proof.
  intro Hs. destruct (Z_lt_le_dec k 0) as [Hneg|Hpos].
  - rewrite Z.testbit_neg_r by exact Hneg.
    destruct (Z.leb_spec s k); [lia | reflexivity].
  - rewrite Z.shiftl_spec by exact Hpos.
    change 255 with (Z.ones 8). rewrite Z.testbit_ones by lia.
    destruct (Z.leb_spec 0 (k - s)), (Z.ltb_spec (k - s) 8), (Z.leb_spec s k),
      (Z.ltb_spec k (s + 8)); try reflexivity; lia.
Qed.

(** Bit [n] of the swapped word is the bit of the same rank in the mirrored
    byte. *)
Lemma testbit_GUINT32_SWAP_LE_BE (u n : Z) :
  0 <= n ->
  Z.testbit (GUINT32_SWAP_LE_BE u) n =
  if n <? 8 then Z.testbit u (n + 24)
  else if n <? 16 then Z.testbit u (n + 8)
  else if n <? 24 then Z.testbit u (n - 8)
  else if n <? 32 then Z.testbit u (n - 24)
  else false.
Proof.
  intro Hn. unfold GUINT32_SWAP_LE_BE.
  change 255 with (Z.shiftl 255 0). change 65280 with (Z.shiftl 255 8).
  change 16711680 with (Z.shiftl 255 16). change 4278190080 with (Z.shiftl 255 24).
  rewrite !Z.lor_spec, !Z.shiftl_spec, !Z.shiftr_spec, !Z.land_spec by exact Hn.
  rewrite !testbit_byte_mask by lia.
  destruct (Z.ltb_spec n 8), (Z.ltb_spec n 16), (Z.ltb_spec n 24), (Z.ltb_spec n 32);
    try lia;
    repeat match goal with
           | |- context [?a <=? ?b] => destruct (Z.leb_spec a b); try lia
           | |- context [?a <? ?b] => destruct (Z.ltb_spec a b); try lia
           end;
    rewrite ?andb_false_r, ?andb_true_r, ?orb_false_r, ?orb_false_l; reflexivity.
Qed.

Lemma testbit_above_32 (u n : Z) :
  0 <= u < 4294967296 -> 32 <= n -> Z.testbit u n = false.
Proof.
  intros Hu Hn. destruct (Z.eq_dec u 0) as [->|Hnz]; [apply Z.bits_0|].
  apply Z.bits_above_log2; [lia|].
  assert (H : Z.log2 u < 32) by (apply Z.log2_lt_pow2; [lia | change (2 ^ 32) with 4294967296; lia]).
  lia.
Qed.

Lemma GUINT32_SWAP_LE_BE_range (u : Z) : 0 <= GUINT32_SWAP_LE_BE u < 4294967296.
Proof.
  assert (Hnonneg : 0 <= GUINT32_SWAP_LE_BE u).
  { unfold GUINT32_SWAP_LE_BE.
    repeat (apply Z.lor_nonneg; split);
      try apply Z.shiftl_nonneg; try apply Z.shiftr_nonneg;
      apply Z.land_nonneg; right; lia. }
  split; [exact Hnonneg|].
  destruct (Z_lt_le_dec (GUINT32_SWAP_LE_BE u) 4294967296) as [Hlt|Hge]; [exact Hlt|].
  exfalso.
  assert (Hpos : 0 < GUINT32_SWAP_LE_BE u) by lia.
  pose proof (Z.bit_log2 _ Hpos) as Hbit.
  assert (Hlog : 32 <= Z.log2 (GUINT32_SWAP_LE_BE u)).
  { apply Z.log2_le_pow2; [exact Hpos | change (2 ^ 32) with 4294967296; exact Hge]. }
  rewrite testbit_GUINT32_SWAP_LE_BE in Hbit by lia.
  destruct (Z.ltb_spec (Z.log2 (GUINT32_SWAP_LE_BE u)) 8); [lia|].
  destruct (Z.ltb_spec (Z.log2 (GUINT32_SWAP_LE_BE u)) 16); [lia|].
  destruct (Z.ltb_spec (Z.log2 (GUINT32_SWAP_LE_BE u)) 24); [lia|].
  destruct (Z.ltb_spec (Z.log2 (GUINT32_SWAP_LE_BE u)) 32); [lia|].
  discriminate Hbit.
Qed.

Lemma GUINT32_SWAP_LE_BE_involutive (u : Z) :
  0 <= u < 4294967296 -> GUINT32_SWAP_LE_BE (GUINT32_SWAP_LE_BE u) = u.
Proof.
  intro Hu. apply Z.bits_inj'. intros n Hn.
  rewrite testbit_GUINT32_SWAP_LE_BE by exact Hn.
  destruct (Z.ltb_spec n 8); [|destruct (Z.ltb_spec n 16);
    [|destruct (Z.ltb_spec n 24); [|destruct (Z.ltb_spec n 32)]]].
  - rewrite testbit_GUINT32_SWAP_LE_BE by lia.
    destruct (Z.ltb_spec (n + 24) 8); [lia|]. destruct (Z.ltb_spec (n + 24) 16); [lia|].
    destruct (Z.ltb_spec (n + 24) 24); [lia|]. destruct (Z.ltb_spec (n + 24) 32); [|lia].
    f_equal. lia.
  - rewrite testbit_GUINT32_SWAP_LE_BE by lia.
    destruct (Z.ltb_spec (n + 8) 8); [lia|]. destruct (Z.ltb_spec (n + 8) 16); [lia|].
    destruct (Z.ltb_spec (n + 8) 24); [|lia].
    f_equal. lia.
  - rewrite testbit_GUINT32_SWAP_LE_BE by lia.
    destruct (Z.ltb_spec (n - 8) 8); [lia|]. destruct (Z.ltb_spec (n - 8) 16); [|lia].
    f_equal. lia.
  - rewrite testbit_GUINT32_SWAP_LE_BE by lia.
    destruct (Z.ltb_spec (n - 24) 8); [|lia].
    f_equal. lia.
  - symmetry. apply testbit_above_32; [exact Hu | lia].
Qed.

Lemma to_guint32_range (z : Z) : 0 <= to_guint32 z < 4294967296.
Proof. unfold to_guint32. apply Z.mod_pos_bound. lia. Qed.

Lemma to_gint32_range (z : Z) : is_gint32 (to_gint32 z) = true.
Proof.
  unfold is_gint32, to_gint32, G_MININT32, G_MAXINT32.
  pose proof (Z.mod_pos_bound (z + 2147483648) 4294967296 ltac:(lia)) as H.
  apply andb_true_iff. split; [apply Z.leb_le | apply Z.leb_le]; lia.
Qed.

Lemma to_gint32_to_guint32 (z : Z) :
  is_gint32 z = true -> to_gint32 (to_guint32 z) = z.
Proof.
  unfold is_gint32, to_gint32, to_guint32, G_MININT32, G_MAXINT32. intro H.
  apply andb_true_iff in H. destruct H as [Hlo Hhi].
  apply Z.leb_le in Hlo, Hhi.
  destruct (Z_lt_le_dec z 0) as [Hneg|Hpos].
  - replace z with (z + 4294967296 + (-1) * 4294967296) at 1 by lia.
    rewrite Z.mod_add by lia. rewrite (Z.mod_small (z + 4294967296)) by lia.
    replace (z + 4294967296 + 2147483648) with (z + 2147483648 + 1 * 4294967296) by lia.
    rewrite Z.mod_add by lia. rewrite Z.mod_small by lia. lia.
  - rewrite (Z.mod_small z) by lia. rewrite Z.mod_small by lia. lia.
Qed.

(** [GINT32_TO_LE] on a big-endian host undoes itself on a [gint32], and
    gives a [gint32]. *)
Lemma GINT32_TO_LE_involutive (z : Z) :
  is_gint32 z = true ->
  GINT32_TO_LE G_BIG_ENDIAN (GINT32_TO_LE G_BIG_ENDIAN z) = z.
Proof.
  intro H. unfold GINT32_TO_LE.
  rewrite to_guint32_to_gint32 by apply GUINT32_SWAP_LE_BE_range.
  rewrite GUINT32_SWAP_LE_BE_involutive by apply to_guint32_range.
  apply to_gint32_to_guint32. exact H.
Qed.

Lemma GINT32_TO_LE_range (host : ByteOrder) (z : Z) :
  is_gint32 z = true -> is_gint32 (GINT32_TO_LE host z) = true.
Proof.
  intro H. destruct host; [exact H | apply to_gint32_range].
Qed.

Lemma g_variant_byteswap_involutive :
  forall value, g_variant_int32_in_range value = true ->
                g_variant_byteswap (g_variant_byteswap value) = value.
Proof.
  fix IH 1. intros [b | y | i | s | c | e [c|] | e l | l | k v];
    cbn [g_variant_int32_in_range g_variant_byteswap option_map]; intro H;
    try reflexivity.
  - f_equal. apply (GINT32_TO_LE_involutive i H).
  - f_equal. apply IH. exact H.
  - f_equal. f_equal. apply IH. exact H.
  - f_equal. induction l as [|a l IHl]; [reflexivity|].
    cbn [forallb] in H. apply andb_true_iff in H. destruct H as [Ha Hl].
    cbn [map]. f_equal; [apply IH; exact Ha | apply IHl; exact Hl].
  - f_equal. induction l as [|a l IHl]; [reflexivity|].
    cbn [forallb] in H. apply andb_true_iff in H. destruct H as [Ha Hl].
    cbn [map]. f_equal; [apply IH; exact Ha | apply IHl; exact Hl].
  - apply andb_true_iff in H. destruct H as [Hk Hv].
    f_equal; apply IH; assumption.
Qed.

(** ** The encoder and the decoder together, on either host *)

Lemma fp_print_load_variant_stored (host : ByteOrder)
      (store : GVariant -> list byte)
      (load : GVariantType -> list byte -> option GVariant) (value : GVariant) :
  load FP_PRINT_VARIANT_TYPE (store value) = Some value ->
  store value <> [] ->
  fp_print_load_variant host load (FP3_MAGIC ++ store value) =
  Returned (match host with
            | G_BIG_ENDIAN => g_variant_byteswap value
            | G_LITTLE_ENDIAN => value
            end).
Proof.
  intros Hback Hnonempty. unfold fp_print_load_variant, g_assert.
  destruct (Z.ltb_spec 3 (Z.of_nat (length (FP3_MAGIC ++ store value)))) as [_|Hshort].
  2:{ rewrite length_app in Hshort. destruct (store value); [contradiction|].
      cbn [length FP3_MAGIC] in Hshort. lia. }
  cbn [bind].
  change (firstn 3 (FP3_MAGIC ++ store value)) with FP3_MAGIC.
  change (skipn 3 (FP3_MAGIC ++ store value)) with (store value).
  change (bytes_eqb FP3_MAGIC FP3_MAGIC) with true. cbn [negb].
  rewrite Hback. destruct host; reflexivity.
Qed.

(** A string that is valid UTF-8 is stored as it is. *)
Lemma g_variant_string_stored_utf8 (s : string) :
  g_utf8_validate s = true -> g_variant_string_stored s = s.
Proof. unfold g_variant_string_stored. intros ->. reflexivity. Qed.

Lemma maybe_string_stored_utf8 (s : option string) :
  maybe_utf8 s = true -> option_map g_variant_string_stored s = s.
Proof.
  destruct s as [s|]; cbn [maybe_utf8 option_map]; intro H; [|reflexivity].
  rewrite (g_variant_string_stored_utf8 s H). reflexivity.
Qed.

(** The print that the decoder returns when the value it takes apart is the
    one that the encoder builds, on a little-endian host, for a valid
    print: that print without its image, with the strings as the container
    stores them, with the date of the stored day count, and with the payload
    of its type only. *)
Lemma fp_print_decode_built_stored (fp_minutia : Type) (valid : Z -> bool)
      (host : ByteOrder)
      (load : GVariantType -> list byte -> option GVariant) (data_ : list byte)
      (print : FpPrint fp_minutia) (result : GVariant) :
  valid_print valid print = true ->
  fp_print_build_variant G_LITTLE_ENDIAN print = Returned result ->
  fp_print_load_variant host load data_ = Returned result ->
  fp_print_deserialize fp_minutia valid host load data_ =
  Returned (mk_FpPrint (type print)
                       (option_map g_variant_string_stored (driver print))
                       (option_map g_variant_string_stored (device_id print))
                       (device_stored print)
                       None (finger print)
                       (option_map g_variant_string_stored (username print))
                       (option_map g_variant_string_stored (description print))
                       (g_date_new_julian
                          (to_guint32 (serialize_enroll_date (enroll_date print))))
                       (match type print with
                        | FP_PRINT_NBIS => None
                        | _ => data print
                        end)
                       (match type print with
                        | FP_PRINT_NBIS => prints print
                        | _ => None
                        end)).
Proof.
  intros Hvalid Hbuild Hload.
  destruct (fp_print_build_variant_shape fp_minutia G_LITTLE_ENDIAN print result Hbuild)
    as (d & i & payload & Hd & Hi & Hresult & Hpayload).
  unfold valid_print in Hvalid.
  repeat match goal with
         | H' : _ && _ = true |- _ => apply andb_true_iff in H'; destruct H' as [H' ?]
         end.
  assert (Hfinger : 0 <= finger print < 256).
  { split; [apply Z.leb_le | apply Z.ltb_lt]; assumption. }
  assert (Hfvalid : valid (finger print) = true) by assumption.
  assert (Hkind : match type print with
                  | FP_PRINT_UNDEFINED => false
                  | FP_PRINT_RAW => is_some (data print)
                  | FP_PRINT_NBIS => match prints print with
                                     | Some l => forallb xyt_valid l
                                     | None => false
                                     end
                  end = true) by assumption.
  set (f := mk_fp3_fields (FpPrintType_value (type print))
                          (g_variant_string_stored d) (g_variant_string_stored i)
                          (device_stored print) (to_guint8 (finger print))
                          (option_map g_variant_string_stored (username print))
                          (option_map g_variant_string_stored (description print))
                          (serialize_enroll_date (enroll_date print)) payload).
  assert (Hget : g_variant_get_fp3 result = Returned f).
  { rewrite Hresult. subst f.
    destruct (username print), (description print); reflexivity. }
  unfold fp_print_deserialize. rewrite Hload. cbn [bind]. rewrite Hget. cbn [bind].
  assert (Hbody : deserialize_payload fp_minutia valid f =
                  Returned (mk_FpPrint (type print)
                              (option_map g_variant_string_stored (driver print))
                              (option_map g_variant_string_stored (device_id print))
                              (device_stored print) None 0 None None None
                              (match type print with
                               | FP_PRINT_NBIS => None
                               | _ => data print
                               end)
                              (match type print with
                               | FP_PRINT_NBIS => prints print
                               | _ => None
                               end))).
  { destruct Hpayload as [(Ht & l & Hl & _ & Hp) | (Ht & v & Hv & Hp)].
    - rewrite Ht, Hl in Hkind.
      destruct (written_columns_all l Hkind) as [Hdecoded Hgood].
      assert (Hnbis : f_print_data f = nbis_payload (map written_columns l)).
      { subst f. cbn [f_print_data]. rewrite Hp. unfold nbis_payload.
        rewrite map_map. reflexivity. }
      assert (Hft : f_type f = FpPrintType_value FP_PRINT_NBIS)
        by (subst f; cbn [f_type]; rewrite Ht; reflexivity).
      rewrite (deserialize_payload_nbis fp_minutia valid f _ Hft Hnbis).
      rewrite Hgood, Hdecoded. subst f. cbn [f_driver f_device_id f_device_stored].
      rewrite Ht, Hd, Hi, Hl. reflexivity.
    - destruct (type print) eqn:Et; [discriminate Hkind | | contradiction].
      unfold deserialize_payload. subst f. cbn [f_type f_print_data f_driver
        f_device_id f_device_stored].
      change (FpPrintType_value FP_PRINT_RAW =? FpPrintType_value FP_PRINT_NBIS) with false.
      change (FpPrintType_value FP_PRINT_RAW =? FpPrintType_value FP_PRINT_RAW) with true.
      cbv iota. rewrite Hp.
      cbn [g_variant_get_child_value g_variant_children bind deref nth_error].
      rewrite Hd, Hi, Hv. reflexivity. }
  rewrite Hbody. cbn [bind]. subst f.
  cbn [f_finger_int8 f_username f_description f_julian_date].
  rewrite to_guint8_small by exact Hfinger.
  cbn [g_object_set object_set_property fp_print_set_property
       g_clear_pointer_description bind].
  rewrite Hfvalid. reflexivity.
Qed.

(** With strings that are valid UTF-8 the print comes back with the strings
    it had. *)
Lemma fp_print_decode_built (fp_minutia : Type) (valid : Z -> bool) (host : ByteOrder)
      (load : GVariantType -> list byte -> option GVariant) (data_ : list byte)
      (print : FpPrint fp_minutia) (result : GVariant) :
  valid_print valid print = true ->
  print_utf8 print = true ->
  fp_print_build_variant G_LITTLE_ENDIAN print = Returned result ->
  fp_print_load_variant host load data_ = Returned result ->
  fp_print_deserialize fp_minutia valid host load data_ =
  Returned (mk_FpPrint (type print) (driver print) (device_id print) (device_stored print)
                       None (finger print) (username print) (description print)
                       (g_date_new_julian
                          (to_guint32 (serialize_enroll_date (enroll_date print))))
                       (match type print with
                        | FP_PRINT_NBIS => None
                        | _ => data print
                        end)
                       (match type print with
                        | FP_PRINT_NBIS => prints print
                        | _ => None
                        end)).
Proof.
  intros Hvalid Hutf8 Hbuild Hload.
  rewrite (fp_print_decode_built_stored fp_minutia valid host load data_ print result
             Hvalid Hbuild Hload).
  unfold print_utf8 in Hutf8.
  repeat match goal with
         | H' : _ && _ = true |- _ => apply andb_true_iff in H'; destruct H' as [H' ?]
         end.
  rewrite !maybe_string_stored_utf8 by assumption. reflexivity.
Qed.

(** A valid print and the print decoded from its value are equal. *)
Lemma fp_print_equal_decoded {fp_minutia : Type} (valid : Z -> bool)
      (print : FpPrint fp_minutia) (date : option GDate) :
  valid_print valid print = true ->
  fp_print_equal
    (mk_FpPrint (type print) (driver print) (device_id print) (device_stored print)
                None (finger print) (username print) (description print) date
                (match type print with
                 | FP_PRINT_NBIS => None
                 | _ => data print
                 end)
                (match type print with
                 | FP_PRINT_NBIS => prints print
                 | _ => None
                 end))
    print = Returned true.
Proof.
  intro Hvalid. apply fp_print_equal_true_iff.
  cbn [type driver device_id data prints].
  repeat split.
  unfold valid_print in Hvalid.
  repeat match goal with
         | H' : _ && _ = true |- _ => apply andb_true_iff in H'; destruct H' as [H' ?]
         end.
  destruct (type print); [discriminate | |].
  - destruct (data print) as [v|]; [|discriminate]. exists v. split; reflexivity.
  - destruct (prints print) as [l|]; [|discriminate]. exists l, l. repeat split.
    clear. induction l as [|x l IHl];
      [constructor | constructor; [apply same_storage_refl | exact IHl]].
Qed.

(** On a little-endian host, a validly constructed print whose strings are
    valid UTF-8 comes back from its bytes equal to itself for
    [fp_print_equal], with the finger, the username, the description and
    the device-stored flag it had; its enroll date is the date of the
    stored day count, which is the date it had when that was a valid date.
    Of GLib the statement asks that it reads back the value it stored for
    this print, and that the bytes of that value are not empty (they hold
    the terminators of the two strings at least). *)
Theorem fp_print_roundtrip_little_endian :
  forall (fp_minutia : Type) (FP_TYPE_FINGER : Z -> bool)
         (g_variant_store : GVariant -> list byte)
         (g_variant_new_from_data : GVariantType -> list byte -> option GVariant)
         (print : FpPrint fp_minutia) (result : GVariant),
    valid_print FP_TYPE_FINGER print = true ->
    print_utf8 print = true ->
    fp_print_build_variant G_LITTLE_ENDIAN print = Returned result ->
    g_variant_new_from_data FP_PRINT_VARIANT_TYPE (g_variant_store result) = Some result ->
    g_variant_store result <> [] ->
    exists bytes print',
      fp_print_serialize G_LITTLE_ENDIAN g_variant_store print = Returned bytes /\
      fp_print_deserialize fp_minutia FP_TYPE_FINGER G_LITTLE_ENDIAN
                           g_variant_new_from_data bytes = Returned print' /\
      fp_print_equal print' print = Returned true /\
      finger print' = finger print /\
      username print' = username print /\
      description print' = description print /\
      device_stored print' = device_stored print /\
      enroll_date print' =
        g_date_new_julian (to_guint32 (serialize_enroll_date (enroll_date print))) /\
      (forall j, enroll_date print = Some (GDateJulian j) -> 0 < j < 4294967296 ->
                 enroll_date print' = enroll_date print).
Proof.
  intros fp_minutia valid store load print result Hvalid Hutf8 Hbuild Hback Hnonempty.
  pose proof (fp_print_load_variant_stored G_LITTLE_ENDIAN store load result
                Hback Hnonempty) as Hload.
  pose proof (fp_print_decode_built fp_minutia valid G_LITTLE_ENDIAN load _ print result
                Hvalid Hutf8 Hbuild Hload) as Hdes.
  exists (FP3_MAGIC ++ store result). eexists.
  split; [unfold fp_print_serialize; rewrite Hbuild; reflexivity|].
  split; [exact Hdes|].
  split; [apply (fp_print_equal_decoded valid print _ Hvalid)|].
  cbn [finger username description device_stored enroll_date].
  repeat split.
  intros j Hj Hrange. rewrite Hj.
  cbn [serialize_enroll_date g_date_valid g_date_get_julian].
  rewrite to_guint32_to_gint32 by lia.
  unfold g_date_new_julian, g_date_valid_julian.
  destruct (Z.ltb_spec 0 j); [reflexivity | lia].
Qed.

(** The strings that the container stores as they are are the valid UTF-8
    ones. *)
Lemma g_variant_string_stored_fixed (s : string) :
  g_variant_string_stored s = s <-> g_utf8_validate s = true.
Proof.
  split; [|apply g_variant_string_stored_utf8].
  unfold g_variant_string_stored.
  destruct (g_utf8_validate s) eqn:E; [reflexivity|].
  intro H. subst s. vm_compute in E. discriminate E.
Qed.

(** What becomes of a string that is not valid UTF-8.  On a little-endian
    host, a validly constructed print comes back from its bytes with each
    of its strings as the container stores it: the string itself when it
    is valid UTF-8, the text "[Invalid UTF-8]" otherwise.  So a username or
    a description that is not valid UTF-8 is lost, and the print that
    comes back is equal to the original for [fp_print_equal] exactly when
    its driver and its device id are valid UTF-8.  Of GLib the statement
    asks that it reads back the value it stored. *)
Theorem fp_print_roundtrip_invalid_utf8 :
  forall (fp_minutia : Type) (FP_TYPE_FINGER : Z -> bool)
         (g_variant_store : GVariant -> list byte)
         (g_variant_new_from_data : GVariantType -> list byte -> option GVariant)
         (print : FpPrint fp_minutia) (result : GVariant),
    valid_print FP_TYPE_FINGER print = true ->
    fp_print_build_variant G_LITTLE_ENDIAN print = Returned result ->
    g_variant_new_from_data FP_PRINT_VARIANT_TYPE (g_variant_store result) = Some result ->
    g_variant_store result <> [] ->
    exists bytes print',
      fp_print_serialize G_LITTLE_ENDIAN g_variant_store print = Returned bytes /\
      fp_print_deserialize fp_minutia FP_TYPE_FINGER G_LITTLE_ENDIAN
                           g_variant_new_from_data bytes = Returned print' /\
      fp_print_get_driver print'
      = option_map g_variant_string_stored (fp_print_get_driver print) /\
      fp_print_get_device_id print'
      = option_map g_variant_string_stored (fp_print_get_device_id print) /\
      fp_print_get_username print'
      = option_map g_variant_string_stored (fp_print_get_username print) /\
      fp_print_get_description print'
      = option_map g_variant_string_stored (fp_print_get_description print) /\
      (forall s, fp_print_get_username print = Some s -> g_utf8_validate s = false ->
                 fp_print_get_username print' = Some "[Invalid UTF-8]"%string) /\
      (forall s, fp_print_get_description print = Some s -> g_utf8_validate s = false ->
                 fp_print_get_description print' = Some "[Invalid UTF-8]"%string) /\
      (fp_print_equal print' print = Returned true <->
       maybe_utf8 (driver print) = true /\ maybe_utf8 (device_id print) = true).
Proof.
  intros fp_minutia valid store load print result Hvalid Hbuild Hback Hnonempty.
  pose proof (fp_print_load_variant_stored G_LITTLE_ENDIAN store load result
                Hback Hnonempty) as Hload.
  pose proof (fp_print_decode_built_stored fp_minutia valid G_LITTLE_ENDIAN load _ print
                result Hvalid Hbuild Hload) as Hdes.
  exists (FP3_MAGIC ++ store result). eexists.
  split; [unfold fp_print_serialize; rewrite Hbuild; reflexivity|].
  split; [exact Hdes|].
  unfold fp_print_get_driver, fp_print_get_device_id, fp_print_get_username,
    fp_print_get_description.
  cbn [driver device_id username description].
  do 4 (split; [reflexivity|]).
  split; [|split].
  - intros s -> Hs. cbn [option_map]. unfold g_variant_string_stored.
    rewrite Hs. reflexivity.
  - intros s -> Hs. cbn [option_map]. unfold g_variant_string_stored.
    rewrite Hs. reflexivity.
  - rewrite fp_print_equal_true_iff. cbn [type driver device_id data prints].
    assert (Hstored : forall s : option string,
               option_map g_variant_string_stored s = s <-> maybe_utf8 s = true).
    { intros [s|]; cbn [option_map maybe_utf8]; [|split; reflexivity].
      rewrite <- g_variant_string_stored_fixed.
      split; [intro H; injection H as H; exact H | intros ->; reflexivity]. }
    assert (Hpayload : match type print with
                       | FP_PRINT_UNDEFINED => False
                       | FP_PRINT_RAW =>
                           exists value, data print = Some value /\ data print = Some value
                       | FP_PRINT_NBIS =>
                           exists la lb, prints print = Some la /\ prints print = Some lb /\
                                         Forall2 same_storage la lb
                       end).
    { unfold valid_print in Hvalid.
      repeat match goal with
             | H' : _ && _ = true |- _ => apply andb_true_iff in H'; destruct H' as [H' ?]
             end.
      destruct (type print); [discriminate | |].
      - destruct (data print) as [v|]; [|discriminate]. exists v. split; reflexivity.
      - destruct (prints print) as [l|]; [|discriminate]. exists l, l. repeat split.
        clear. induction l as [|x l IHl];
          [constructor | constructor; [apply same_storage_refl | exact IHl]]. }
    rewrite <- !Hstored. split.
    + intros (_ & Hd & Hi & _). split; assumption.
    + intros [Hd Hi]. split; [reflexivity|]. split; [exact Hd|]. split; [exact Hi|].
      destruct (type print); exact Hpayload.
Qed.

(** *** The byte order of the host *)

Lemma array_get_map_GINT32_TO_LE (host : ByteOrder) (column : list Z) (j : nat) :
  array_get (map (GINT32_TO_LE host) column) j = GINT32_TO_LE host (array_get column j).
Proof.
  unfold array_get.
  replace 0 with (GINT32_TO_LE host 0) at 1 by (destruct host; reflexivity).
  apply map_nth.
Qed.

Lemma serialize_column_big_endian (n : Z) (column : list Z) :
  serialize_column G_BIG_ENDIAN n column
  = serialize_column G_LITTLE_ENDIAN n (map (GINT32_TO_LE G_BIG_ENDIAN) column).
Proof.
  unfold serialize_column. f_equal. apply map_ext. intro j.
  cbn [GINT32_TO_LE]. rewrite array_get_map_GINT32_TO_LE. reflexivity.
Qed.

Lemma serialize_xyt_big_endian (xyt : xyt_struct) :
  serialize_xyt G_BIG_ENDIAN xyt = serialize_xyt G_LITTLE_ENDIAN (byteswapped_template xyt).
Proof.
  unfold serialize_xyt, byteswapped_template. cbn [nrows xcol ycol thetacol].
  rewrite !serialize_column_big_endian. reflexivity.
Qed.

Lemma traverse_ext {A B : Type} (f g : A -> outcome B) (l : list A) :
  (forall a, f a = g a) -> traverse f l = traverse g l.
Proof.
  intro H. induction l as [|a l IH]; cbn [traverse]; [reflexivity|].
  rewrite H, IH. reflexivity.
Qed.

Lemma traverse_map {A B C : Type} (f : B -> outcome C) (g : A -> B) (l : list A) :
  traverse f (map g l) = traverse (fun a => f (g a)) l.
Proof.
  induction l as [|a l IH]; cbn [traverse map]; [reflexivity|].
  rewrite IH. reflexivity.
Qed.

(** On a big-endian host the encoder builds the value that a little-endian
    host builds for the print with every cell byte-reversed. *)
Lemma fp_print_build_variant_big_endian {fp_minutia : Type} (print : FpPrint fp_minutia) :
  fp_print_build_variant G_BIG_ENDIAN print
  = fp_print_build_variant G_LITTLE_ENDIAN (byteswapped_print print).
Proof.
  unfold fp_print_build_variant, byteswapped_print.
  cbn [type driver device_id device_stored finger username description enroll_date
       data prints set_prints].
  destruct (driver print); cbn [g_variant_new_string deref bind]; [|reflexivity].
  destruct (device_id print); cbn [g_variant_new_string deref bind]; [|reflexivity].
  destruct (FpPrintType_eqb (type print) FP_PRINT_NBIS); [|reflexivity].
  destruct (prints print) as [l|]; cbn [option_map deref bind]; [|reflexivity].
  rewrite traverse_map.
  rewrite (traverse_ext _ _ l serialize_xyt_big_endian). reflexivity.
Qed.

Lemma byteswapped_template_valid (xyt : xyt_struct) :
  xyt_valid xyt = true -> xyt_valid (byteswapped_template xyt) = true.
Proof.
  intro Hv. destruct (xyt_valid_spec xyt Hv) as (Hn & Hx & Hy & Ht & Hzero).
  unfold xyt_valid, byteswapped_template. cbn [nrows xcol ycol thetacol].
  rewrite !length_map, Hx, Hy, Ht, Nat.eqb_refl.
  destruct (Z.leb_spec 0 (nrows xyt)) as [_|H]; [|lia].
  destruct (Z.leb_spec (nrows xyt) (Z.of_nat MAX_BOZORTH_MINUTIAE)) as [_|H]; [|lia].
  cbn [andb]. apply forallb_forall. intros j Hj. apply in_seq in Hj.
  rewrite !array_get_map_GINT32_TO_LE.
  destruct (Hzero j ltac:(lia)) as (-> & -> & ->). reflexivity.
Qed.

Lemma byteswapped_print_valid {fp_minutia : Type} (valid : Z -> bool)
      (print : FpPrint fp_minutia) :
  valid_print valid print = true -> valid_print valid (byteswapped_print print) = true.
Proof.
  unfold valid_print, byteswapped_print.
  cbn [type driver device_id finger data prints set_prints].
  intro H. apply andb_true_iff in H. destruct H as [-> Hkind]. cbn [andb].
  destruct (type print); try exact Hkind.
  destruct (prints print) as [l|]; [|discriminate Hkind]. cbn [option_map].
  rewrite forallb_forall in *. intros x Hin. apply in_map_iff in Hin.
  destruct Hin as (xyt & <- & Hin). apply byteswapped_template_valid. apply Hkind. exact Hin.
Qed.

Lemma forallb_map_GINT32_TO_LE (column : list Z) :
  forallb is_gint32 (map (GINT32_TO_LE G_BIG_ENDIAN) column) = true.
Proof.
  apply forallb_forall. intros x Hin. apply in_map_iff in Hin.
  destruct Hin as (z & <- & _). apply to_gint32_range.
Qed.

Lemma byteswapped_print_gint32 {fp_minutia : Type} (print : FpPrint fp_minutia) :
  match data print with
  | Some value => g_variant_int32_in_range value
  | None => true
  end = true ->
  print_gint32 (byteswapped_print print) = true.
Proof.
  unfold print_gint32, byteswapped_print. cbn [data prints set_prints]. intros ->.
  cbn [andb]. destruct (prints print) as [l|]; [|reflexivity]. cbn [option_map].
  apply forallb_forall. intros x Hin. apply in_map_iff in Hin.
  destruct Hin as (xyt & <- & _). unfold xyt_cells_gint32, byteswapped_template.
  cbn [xcol ycol thetacol]. rewrite !forallb_map_GINT32_TO_LE. reflexivity.
Qed.

Lemma serialize_enroll_date_range (d : option GDate) :
  is_gint32 (serialize_enroll_date d) = true.
Proof.
  destruct d as [[|j]|]; cbn [serialize_enroll_date g_date_valid g_date_get_julian];
    try reflexivity.
  apply to_gint32_range.
Qed.

Lemma serialize_column_range (n : Z) (column : list Z) :
  forallb is_gint32 column = true ->
  g_variant_int32_in_range (serialize_column G_LITTLE_ENDIAN n column) = true.
Proof.
  intro H. unfold serialize_column, g_variant_new_fixed_array.
  cbn [g_variant_int32_in_range]. rewrite map_map.
  apply forallb_forall. intros v Hin. apply in_map_iff in Hin.
  destruct Hin as (j & <- & _). cbn [g_variant_int32_in_range GINT32_TO_LE].
  unfold array_get. destruct (nth_in_or_default j column 0) as [Hin | ->]; [|reflexivity].
  rewrite forallb_forall in H. apply H. exact Hin.
Qed.

(** The value built for a print of [gint32] cells and data holds [gint32]
    numbers only. *)
Lemma fp_print_build_variant_range {fp_minutia : Type} (print : FpPrint fp_minutia)
      (result : GVariant) :
  print_gint32 print = true ->
  fp_print_build_variant G_LITTLE_ENDIAN print = Returned result ->
  g_variant_int32_in_range result = true.
Proof.
  intros Hrange Hbuild.
  destruct (fp_print_build_variant_shape fp_minutia G_LITTLE_ENDIAN print result Hbuild)
    as (d & i & payload & _ & _ & -> & Hpayload).
  unfold print_gint32 in Hrange. apply andb_true_iff in Hrange.
  destruct Hrange as [Hdata Hcells].
  cbn [g_variant_int32_in_range forallb].
  rewrite serialize_enroll_date_range.
  assert (Htype : is_gint32 (FpPrintType_value (type print)) = true)
    by (destruct (type print); reflexivity).
  rewrite Htype.
  assert (Hu : g_variant_int32_in_range (g_variant_new_maybe_string (username print)) = true)
    by (destruct (username print); reflexivity).
  assert (Hde : g_variant_int32_in_range (g_variant_new_maybe_string (description print))
                = true)
    by (destruct (description print); reflexivity).
  rewrite Hu, Hde. cbn [andb]. rewrite andb_true_r.
  destruct Hpayload as [(_ & l & Hl & _ & ->) | (_ & v & Hv & ->)].
  - rewrite Hl in Hcells. cbn [g_variant_int32_in_range forallb]. rewrite andb_true_r.
    apply forallb_forall. intros x Hin. apply in_map_iff in Hin.
    destruct Hin as (xyt & <- & Hin). rewrite forallb_forall in Hcells.
    specialize (Hcells xyt Hin). unfold xyt_cells_gint32 in Hcells.
    apply andb_true_iff in Hcells. destruct Hcells as [Hcells Ht].
    apply andb_true_iff in Hcells. destruct Hcells as [Hx Hy].
    cbn [g_variant_int32_in_range forallb].
    rewrite !serialize_column_range by assumption. reflexivity.
  - rewrite Hv in Hdata. cbn [g_variant_int32_in_range]. exact Hdata.
Qed.

(** On a big-endian host a valid print whose strings are valid UTF-8 comes
    back from its own bytes with its type, and a raw print comes back equal
    to itself; the templates of an NBIS print come back with the bytes of
    every cell reversed, the
    encoder having swapped them twice ([GINT32_TO_LE], then
    [g_variant_byteswap]) and the decoder once.  The print decoded is equal
    to the original exactly when the print with byte-reversed cells is, and
    has the finger, the username, the description and the device-stored
    flag of the original.  Of GLib the statement asks that it reads back
    the value it stored. *)
Theorem fp_print_roundtrip_big_endian :
  forall (fp_minutia : Type) (FP_TYPE_FINGER : Z -> bool)
         (g_variant_store : GVariant -> list byte)
         (g_variant_new_from_data : GVariantType -> list byte -> option GVariant)
         (print : FpPrint fp_minutia) (result : GVariant),
    valid_print FP_TYPE_FINGER print = true ->
    print_utf8 print = true ->
    print_gint32 print = true ->
    fp_print_build_variant G_BIG_ENDIAN print = Returned result ->
    g_variant_new_from_data FP_PRINT_VARIANT_TYPE (g_variant_store (g_variant_byteswap result))
    = Some (g_variant_byteswap result) ->
    g_variant_store (g_variant_byteswap result) <> [] ->
    exists bytes print',
      fp_print_serialize G_BIG_ENDIAN g_variant_store print = Returned bytes /\
      fp_print_deserialize fp_minutia FP_TYPE_FINGER G_BIG_ENDIAN
                           g_variant_new_from_data bytes = Returned print' /\
      type print' = type print /\
      prints print' = match type print with
                      | FP_PRINT_NBIS => option_map (map byteswapped_template) (prints print)
                      | _ => None
                      end /\
      fp_print_equal print' print = fp_print_equal (byteswapped_print print) print /\
      (type print = FP_PRINT_RAW -> fp_print_equal print' print = Returned true) /\
      fp_print_get_finger print' = fp_print_get_finger print /\
      fp_print_get_username print' = fp_print_get_username print /\
      fp_print_get_description print' = fp_print_get_description print /\
      fp_print_get_device_stored print' = fp_print_get_device_stored print.
Proof.
  intros fp_minutia valid store load print result Hvalid Hutf8 Hrange Hbuild Hback Hnonempty.
  assert (Hdata : match data print with
                  | Some value => g_variant_int32_in_range value
                  | None => true
                  end = true).
  { unfold print_gint32 in Hrange. apply andb_true_iff in Hrange. apply Hrange. }
  rewrite fp_print_build_variant_big_endian in Hbuild.
  pose proof (fp_print_build_variant_range (byteswapped_print print) result
                (byteswapped_print_gint32 print Hdata) Hbuild) as Hresult.
  pose proof (fp_print_load_variant_stored G_BIG_ENDIAN store load
                (g_variant_byteswap result) Hback Hnonempty) as Hload.
  rewrite (g_variant_byteswap_involutive result Hresult) in Hload.
  pose proof (fp_print_decode_built fp_minutia valid G_BIG_ENDIAN load _
                (byteswapped_print print) result
                (byteswapped_print_valid valid print Hvalid) Hutf8 Hbuild Hload) as Hdes.
  exists (FP3_MAGIC ++ store (g_variant_byteswap result)). eexists.
  split.
  { unfold fp_print_serialize. rewrite fp_print_build_variant_big_endian, Hbuild.
    reflexivity. }
  split; [exact Hdes|].
  unfold byteswapped_print.
  cbn [type driver device_id device_stored finger username description enroll_date
       data prints set_prints].
  split; [reflexivity|]. split; [reflexivity|]. split; [|split; [|repeat split]].
  - unfold fp_print_equal.
    cbn [type driver device_id device_stored finger username description enroll_date
         data prints set_prints].
    destruct (type print); reflexivity.
  - intro Hraw. apply fp_print_equal_true_iff. cbn [type driver device_id data prints].
    repeat split. rewrite Hraw.
    unfold valid_print in Hvalid. rewrite Hraw in Hvalid.
    apply andb_true_iff in Hvalid. destruct Hvalid as [_ Hsome].
    destruct (data print) as [v|]; [|discriminate Hsome]. exists v. split; reflexivity.
Qed.

(** The bytes that a little-endian host writes for a valid print whose
    strings are valid UTF-8 are read on a big-endian host as a print equal
    to the original, with its finger,
    username, description, device-stored flag and templates.  Of GLib the
    statement asks that the big-endian host loads, from the bytes of a
    value stored on the little-endian one, that value with its numbers
    byte-reversed, which is what [g_variant_byteswap] is there to undo. *)
Theorem fp_print_little_endian_bytes_on_big_endian :
  forall (fp_minutia : Type) (FP_TYPE_FINGER : Z -> bool)
         (g_variant_store : GVariant -> list byte)
         (g_variant_new_from_data : GVariantType -> list byte -> option GVariant)
         (print : FpPrint fp_minutia) (result : GVariant),
    valid_print FP_TYPE_FINGER print = true ->
    print_utf8 print = true ->
    print_gint32 print = true ->
    fp_print_build_variant G_LITTLE_ENDIAN print = Returned result ->
    g_variant_new_from_data FP_PRINT_VARIANT_TYPE (g_variant_store result)
    = Some (g_variant_byteswap result) ->
    g_variant_store result <> [] ->
    exists bytes print',
      fp_print_serialize G_LITTLE_ENDIAN g_variant_store print = Returned bytes /\
      fp_print_deserialize fp_minutia FP_TYPE_FINGER G_BIG_ENDIAN
                           g_variant_new_from_data bytes = Returned print' /\
      fp_print_equal print' print = Returned true /\
      fp_print_get_finger print' = fp_print_get_finger print /\
      fp_print_get_username print' = fp_print_get_username print /\
      fp_print_get_description print' = fp_print_get_description print /\
      fp_print_get_device_stored print' = fp_print_get_device_stored print /\
      (forall l, type print = FP_PRINT_NBIS -> prints print = Some l ->
                 prints print' = Some l).
Proof.
  intros fp_minutia valid store load print result Hvalid Hutf8 Hrange Hbuild Hback Hnonempty.
  pose proof (fp_print_build_variant_range print result Hrange Hbuild) as Hresult.
  assert (Hload : fp_print_load_variant G_BIG_ENDIAN load (FP3_MAGIC ++ store result)
                  = Returned result).
  { unfold fp_print_load_variant, g_assert.
    destruct (Z.ltb_spec 3 (Z.of_nat (length (FP3_MAGIC ++ store result)))) as [_|Hshort].
    2:{ rewrite length_app in Hshort. destruct (store result); [contradiction|].
        cbn [length FP3_MAGIC] in Hshort. lia. }
    cbn [bind].
    change (firstn 3 (FP3_MAGIC ++ store result)) with FP3_MAGIC.
    change (skipn 3 (FP3_MAGIC ++ store result)) with (store result).
    change (bytes_eqb FP3_MAGIC FP3_MAGIC) with true. cbn [negb].
    rewrite Hback, (g_variant_byteswap_involutive result Hresult). reflexivity. }
  pose proof (fp_print_decode_built fp_minutia valid G_BIG_ENDIAN load _ print result
                Hvalid Hutf8 Hbuild Hload) as Hdes.
  exists (FP3_MAGIC ++ store result). eexists.
  split; [unfold fp_print_serialize; rewrite Hbuild; reflexivity|].
  split; [exact Hdes|].
  split; [apply (fp_print_equal_decoded valid print _ Hvalid)|].
  repeat split.
  intros l Ht Hl. cbn [prints]. rewrite Ht. exact Hl.
Qed.

(** On a little-endian host, a valid print whose strings are valid UTF-8
    and that is stored and read back stands for the original: [fpi_print_bz3_match] gives the same result
    and the same scores with the decoded print as gallery and as probe,
    [fp_print_equal] gives the same answer against any print, the decoded
    print is compatible with the same devices, and it has no image. *)
Theorem fp_print_roundtrip_preserves_match :
  forall (fp_minutia : Type) (FP_TYPE_FINGER : Z -> bool)
         (g_variant_store : GVariant -> list byte)
         (g_variant_new_from_data : GVariantType -> list byte -> option GVariant)
         (bozorth_probe_init : xyt_struct -> Z)
         (bozorth_to_gallery : Z -> xyt_struct -> xyt_struct -> Z)
         (print other : FpPrint fp_minutia) (result : GVariant)
         (bz3_threshold : Z) (device : FpDevice),
    valid_print FP_TYPE_FINGER print = true ->
    print_utf8 print = true ->
    fp_print_build_variant G_LITTLE_ENDIAN print = Returned result ->
    g_variant_new_from_data FP_PRINT_VARIANT_TYPE (g_variant_store result) = Some result ->
    g_variant_store result <> [] ->
    exists bytes print',
      fp_print_serialize G_LITTLE_ENDIAN g_variant_store print = Returned bytes /\
      fp_print_deserialize fp_minutia FP_TYPE_FINGER G_LITTLE_ENDIAN
                           g_variant_new_from_data bytes = Returned print' /\
      fpi_print_bz3_match bozorth_probe_init bozorth_to_gallery print' other bz3_threshold
      = fpi_print_bz3_match bozorth_probe_init bozorth_to_gallery print other bz3_threshold /\
      fpi_print_bz3_match bozorth_probe_init bozorth_to_gallery other print' bz3_threshold
      = fpi_print_bz3_match bozorth_probe_init bozorth_to_gallery other print bz3_threshold /\
      fp_print_equal print' other = fp_print_equal print other /\
      fp_print_compatible print' device = fp_print_compatible print device /\
      fp_print_get_image print' = None.
Proof.
  intros fp_minutia valid store load probe_init to_gallery print other result threshold
         device Hvalid Hutf8 Hbuild Hback Hnonempty.
  pose proof (fp_print_load_variant_stored G_LITTLE_ENDIAN store load result
                Hback Hnonempty) as Hload.
  pose proof (fp_print_decode_built fp_minutia valid G_LITTLE_ENDIAN load _ print result
                Hvalid Hutf8 Hbuild Hload) as Hdes.
  exists (FP3_MAGIC ++ store result). eexists.
  split; [unfold fp_print_serialize; rewrite Hbuild; reflexivity|].
  split; [exact Hdes|].
  unfold fpi_print_bz3_match, fp_print_equal, fp_print_compatible, fp_print_get_image.
  cbn [type driver device_id data prints image].
  repeat split; destruct (type print); try reflexivity.
  - change (FpPrintType_eqb FP_PRINT_UNDEFINED FP_PRINT_NBIS) with false.
    cbn [negb]. rewrite !orb_true_r. reflexivity.
  - change (FpPrintType_eqb FP_PRINT_RAW FP_PRINT_NBIS) with false.
    cbn [negb]. rewrite !orb_true_r. reflexivity.
Qed.

(** A print in the form that the decoder returns (valid, with strings
    that are valid UTF-8, without image, with the payload of its type only
    and with an enroll date) comes back
    from its bytes as the same record, field by field, on a little-endian
    host. *)
Theorem fp_print_roundtrip_exact :
  forall (fp_minutia : Type) (FP_TYPE_FINGER : Z -> bool)
         (g_variant_store : GVariant -> list byte)
         (g_variant_new_from_data : GVariantType -> list byte -> option GVariant)
         (print : FpPrint fp_minutia) (result : GVariant) (julian_days : Z),
    valid_print FP_TYPE_FINGER print = true ->
    print_utf8 print = true ->
    fp_print_get_image print = None ->
    (type print = FP_PRINT_NBIS -> data print = None) ->
    (type print = FP_PRINT_RAW -> prints print = None) ->
    fp_print_get_enroll_date print = Some (GDateJulian julian_days) ->
    0 < julian_days < 4294967296 ->
    fp_print_build_variant G_LITTLE_ENDIAN print = Returned result ->
    g_variant_new_from_data FP_PRINT_VARIANT_TYPE (g_variant_store result) = Some result ->
    g_variant_store result <> [] ->
    exists bytes,
      fp_print_serialize G_LITTLE_ENDIAN g_variant_store print = Returned bytes /\
      fp_print_deserialize fp_minutia FP_TYPE_FINGER G_LITTLE_ENDIAN
                           g_variant_new_from_data bytes = Returned print.
Proof.
  intros fp_minutia valid store load print result j Hvalid Hutf8 Himage Hnbis Hraw Hdate Hj
         Hbuild Hback Hnonempty.
  pose proof (fp_print_load_variant_stored G_LITTLE_ENDIAN store load result
                Hback Hnonempty) as Hload.
  pose proof (fp_print_decode_built fp_minutia valid G_LITTLE_ENDIAN load _ print result
                Hvalid Hutf8 Hbuild Hload) as Hdes.
  exists (FP3_MAGIC ++ store result).
  split; [unfold fp_print_serialize; rewrite Hbuild; reflexivity|].
  rewrite Hdes. f_equal.
  unfold fp_print_get_image, fp_print_get_enroll_date in *.
  assert (Hd : g_date_new_julian (to_guint32 (serialize_enroll_date (enroll_date print)))
               = enroll_date print).
  { rewrite Hdate. cbn [serialize_enroll_date g_date_valid g_date_get_julian].
    rewrite to_guint32_to_gint32 by lia.
    unfold g_date_new_julian, g_date_valid_julian.
    destruct (Z.ltb_spec 0 j); [reflexivity | lia]. }
  rewrite Hd.
  unfold valid_print in Hvalid. apply andb_true_iff in Hvalid. destruct Hvalid as [_ Hkind].
  destruct print as [t d i s im f u de e v p].
  cbn [type driver device_id device_stored image finger username description enroll_date
       data prints] in *.
  subst im. destruct t; [discriminate Hkind | |].
  - rewrite (Hraw eq_refl). reflexivity.
  - rewrite (Hnbis eq_refl). reflexivity.
Qed.

(** ** What the decoder refuses *)

Lemma no_other_failure_bind {A B : Type} (m : outcome A) (k : A -> outcome B) :
  no_other_failure m -> (forall a, no_other_failure (k a)) -> no_other_failure (bind m k).
Proof.
  destruct m as [a|e|c]; cbn [bind no_other_failure]; intros Hm Hk;
    [apply Hk | exact Hm | exact Hm].
Qed.

Lemma no_other_failure_deref {A : Type} (p : option A) : no_other_failure (deref p).
Proof. destruct p; cbn; auto. Qed.

Lemma no_other_failure_children (value : GVariant) :
  no_other_failure (g_variant_children value).
Proof. destruct value as [ | | | | | e [c|] | | | ]; cbn; auto. Qed.

Lemma no_other_failure_child_value (value : GVariant) (index_ : nat) :
  no_other_failure (g_variant_get_child_value value index_).
Proof.
  unfold g_variant_get_child_value. apply no_other_failure_bind.
  - apply no_other_failure_children.
  - intro l. apply no_other_failure_deref.
Qed.

Lemma no_other_failure_fixed_array (value : GVariant) :
  no_other_failure (g_variant_get_fixed_array value).
Proof.
  destruct value as [ | | | | | | e l | | ]; cbn [g_variant_get_fixed_array];
    try reflexivity.
  destruct e; try reflexivity.
  induction l as [|a l IH]; cbn [traverse]; [exact I|].
  apply no_other_failure_bind; [destruct a; cbn; auto|].
  intro b. apply no_other_failure_bind; [exact IH|]. intro bs. exact I.
Qed.

Lemma no_other_failure_deserialize_prints {fp_minutia : Type} (children : list GVariant) :
  forall result : FpPrint fp_minutia, no_other_failure (deserialize_prints children result).
Proof.
  induction children as [|xyt_data children IH]; intro result;
    cbn [deserialize_prints]; [exact I|].
  cbv zeta.
  repeat (apply no_other_failure_bind;
          [first [apply no_other_failure_child_value | apply no_other_failure_fixed_array]|];
          intro).
  match goal with |- no_other_failure (if ?c then _ else _) => destruct c end;
    [reflexivity|].
  match goal with |- no_other_failure (if ?c then _ else _) => destruct c end;
    [reflexivity|].
  apply no_other_failure_bind; [apply no_other_failure_deref|].
  intro l. apply IH.
Qed.

Lemma no_other_failure_get_fp3 (value : GVariant) :
  no_other_failure (g_variant_get_fp3 value).
Proof.
  unfold g_variant_get_fp3, g_variant_get_maybe_string.
  repeat (cbn [bind];
          match goal with
          | |- no_other_failure (match ?x with _ => _ end) => destruct x
          | |- no_other_failure (bind (match ?x with _ => _ end) _) => destruct x
          end); cbn; auto.
Qed.

Lemma no_other_failure_payload (fp_minutia : Type) (valid : Z -> bool) (f : fp3_fields) :
  no_other_failure (deserialize_payload fp_minutia valid f).
Proof.
  unfold deserialize_payload.
  destruct (f_type f =? FpPrintType_value FP_PRINT_NBIS).
  - apply no_other_failure_bind; [apply no_other_failure_child_value|]. intro prints_.
    rewrite g_object_new_nbis. cbn [bind].
    apply no_other_failure_bind; [apply no_other_failure_children|]. intro children.
    apply no_other_failure_deserialize_prints.
  - destruct (f_type f =? FpPrintType_value FP_PRINT_RAW); [|reflexivity].
    apply no_other_failure_bind; [apply no_other_failure_child_value|]. intro fp_data.
    exact I.
Qed.

(** On a buffer of more than 3 bytes [fp_print_deserialize] fails no
    assertion, and the only error it returns is [InvalidFormat].  It
    returns that error when GLib loads no value from the bytes after the
    magic, and when the type stored is neither raw nor NBIS. *)
Theorem fp_print_deserialize_failures :
  forall (fp_minutia : Type) (FP_TYPE_FINGER : Z -> bool) (G_BYTE_ORDER : ByteOrder)
         (g_variant_new_from_data : GVariantType -> list byte -> option GVariant)
         (data_ : list byte),
    let result := fp_print_deserialize fp_minutia FP_TYPE_FINGER G_BYTE_ORDER
                                       g_variant_new_from_data data_ in
    ((3 < length data_)%nat ->
     (forall e, result = Failed e -> e = InvalidFormat) /\
     result <> Aborted AssertionFailed) /\
    ((3 < length data_)%nat -> firstn 3 data_ = FP3_MAGIC ->
     g_variant_new_from_data FP_PRINT_VARIANT_TYPE (skipn 3 data_) = None ->
     result = Failed InvalidFormat) /\
    (forall (value : GVariant) (f : fp3_fields),
       fp_print_load_variant G_BYTE_ORDER g_variant_new_from_data data_ = Returned value ->
       g_variant_get_fp3 value = Returned f ->
       f_type f <> FpPrintType_value FP_PRINT_NBIS ->
       f_type f <> FpPrintType_value FP_PRINT_RAW ->
       result = Failed InvalidFormat).
Proof.
  intros fp_minutia valid host load data_ result. subst result. split; [|split].
  - intro Hlen.
    assert (H : no_other_failure (fp_print_deserialize fp_minutia valid host load data_)).
    { unfold fp_print_deserialize. apply no_other_failure_bind.
      - unfold fp_print_load_variant, g_assert.
        destruct (Z.ltb_spec 3 (Z.of_nat (length data_))) as [_|Hshort]; [|lia].
        cbn [bind]. destruct (negb (bytes_eqb (firstn 3 data_) FP3_MAGIC)); [reflexivity|].
        destruct (load FP_PRINT_VARIANT_TYPE (skipn 3 data_)); [exact I | reflexivity].
      - intro value. apply no_other_failure_bind; [apply no_other_failure_get_fp3|].
        intro f. apply no_other_failure_bind; [apply no_other_failure_payload|].
        intro body.
        destruct (g_object_set_metadata fp_minutia valid body (f_finger_int8 f)
                    (f_username f) (f_description f)
                    (g_date_new_julian (to_guint32 (f_julian_date f))))
          as (p & -> & _).
        exact I. }
    destruct (fp_print_deserialize fp_minutia valid host load data_) as [p|e|c];
      cbn [no_other_failure] in H; split.
    + intros e He. discriminate He.
    + discriminate.
    + intros e' He. injection He as <-. exact H.
    + discriminate.
    + intros e He. discriminate He.
    + rewrite H. discriminate.
  - intros Hlen Hmagic Hnull. unfold fp_print_deserialize, fp_print_load_variant, g_assert.
    destruct (Z.ltb_spec 3 (Z.of_nat (length data_))) as [_|Hshort]; [|lia].
    cbn [bind]. rewrite Hmagic. change (bytes_eqb FP3_MAGIC FP3_MAGIC) with true.
    cbn [negb]. rewrite Hnull. reflexivity.
  - intros value f Hload Hget Hnbis Hraw. unfold fp_print_deserialize.
    rewrite Hload. cbn [bind]. rewrite Hget. cbn [bind]. unfold deserialize_payload.
    destruct (Z.eqb_spec (f_type f) (FpPrintType_value FP_PRINT_NBIS)); [contradiction|].
    destruct (Z.eqb_spec (f_type f) (FpPrintType_value FP_PRINT_RAW)); [contradiction|].
    reflexivity.
Qed.

(** The fields that the decoder reads from the bytes of the encoder, on
    either host: the numbers of the container come back, the big-endian
    host having swapped them twice. *)
Lemma g_variant_get_fp3_stored {fp_minutia : Type} (host : ByteOrder)
      (store : GVariant -> list byte)
      (load : GVariantType -> list byte -> option GVariant)
      (print : FpPrint fp_minutia) (result : GVariant) :
  fp_print_build_variant host print = Returned result ->
  load FP_PRINT_VARIANT_TYPE (store (host_to_file host result))
  = Some (host_to_file host result) ->
  store (host_to_file host result) <> [] ->
  exists (value : GVariant) (driver_ device_id_ : string) (payload : GVariant),
    fp_print_load_variant host load (FP3_MAGIC ++ store (host_to_file host result))
    = Returned value /\
    driver print = Some driver_ /\ device_id print = Some device_id_ /\
    g_variant_get_fp3 value =
    Returned (mk_fp3_fields (FpPrintType_value (type print))
                            (g_variant_string_stored driver_)
                            (g_variant_string_stored device_id_)
                            (device_stored print) (to_guint8 (finger print))
                            (option_map g_variant_string_stored (username print))
                            (option_map g_variant_string_stored (description print))
                            (serialize_enroll_date (enroll_date print)) payload).
Proof.
  intros Hbuild Hback Hnonempty.
  destruct (fp_print_build_variant_shape fp_minutia host print result Hbuild)
    as (d & i & payload & Hd & Hi & Hresult & _).
  rewrite (fp_print_load_variant_stored host store load _ Hback Hnonempty).
  eexists. exists d, i.
  exists (match host with
          | G_BIG_ENDIAN => g_variant_byteswap (g_variant_byteswap payload)
          | G_LITTLE_ENDIAN => payload
          end).
  split; [reflexivity|]. split; [exact Hd|]. split; [exact Hi|].
  rewrite Hresult. unfold host_to_file. destruct host.
  - destruct (username print), (description print); reflexivity.
  - assert (Htype : GINT32_TO_LE G_BIG_ENDIAN
                      (GINT32_TO_LE G_BIG_ENDIAN (FpPrintType_value (type print)))
                    = FpPrintType_value (type print)).
    { apply GINT32_TO_LE_involutive. destruct (type print); reflexivity. }
    pose proof (GINT32_TO_LE_involutive _ (serialize_enroll_date_range (enroll_date print)))
      as Hdate.
    cbn [GINT32_TO_LE] in Htype, Hdate.
    destruct (username print), (description print);
      cbn [g_variant_byteswap map option_map g_variant_new_maybe_string g_variant_get_fp3
           g_variant_get_maybe_string bind];
      rewrite Htype, Hdate; reflexivity.
Qed.

(** A print of undefined type that holds raw data is written by
    [fp_print_serialize] and refused by [fp_print_deserialize]: the bytes
    written carry the type 0, which the decoder answers with
    [InvalidFormat], on a host of either byte order. *)
Theorem fp_print_undefined_not_read_back :
  forall (fp_minutia : Type) (FP_TYPE_FINGER : Z -> bool) (G_BYTE_ORDER : ByteOrder)
         (g_variant_store : GVariant -> list byte)
         (g_variant_new_from_data : GVariantType -> list byte -> option GVariant)
         (print : FpPrint fp_minutia) (result : GVariant),
    type print = FP_PRINT_UNDEFINED ->
    fp_print_build_variant G_BYTE_ORDER print = Returned result ->
    g_variant_new_from_data FP_PRINT_VARIANT_TYPE
      (g_variant_store (host_to_file G_BYTE_ORDER result))
    = Some (host_to_file G_BYTE_ORDER result) ->
    g_variant_store (host_to_file G_BYTE_ORDER result) <> [] ->
    exists bytes,
      fp_print_serialize G_BYTE_ORDER g_variant_store print = Returned bytes /\
      fp_print_deserialize fp_minutia FP_TYPE_FINGER G_BYTE_ORDER
                           g_variant_new_from_data bytes = Failed InvalidFormat.
Proof.
  intros fp_minutia valid host store load print result Htype Hbuild Hback Hnonempty.
  exists (FP3_MAGIC ++ store (host_to_file host result)). split.
  { unfold fp_print_serialize. rewrite Hbuild. reflexivity. }
  destruct (g_variant_get_fp3_stored host store load print result Hbuild Hback Hnonempty)
    as (value & d & i & payload & Hload & _ & _ & Hget).
  unfold fp_print_deserialize. rewrite Hload. cbn [bind]. rewrite Hget. cbn [bind].
  unfold deserialize_payload. cbn [f_type]. rewrite Htype. reflexivity.
Qed.

(** ** The fields of a decoded print *)

(** The fields of a decoded print are those of the container: the type,
    the driver, the device id, the device-stored flag, the username, the
    description, and the date of the stored day count.  The finger is the
    stored byte when it is a value of the enumeration and stays
    [FP_FINGER_UNKNOWN] (0) otherwise, as [g_object_set] refuses it.  The
    print has no image. *)
Theorem fp_print_deserialize_fields :
  forall (fp_minutia : Type) (FP_TYPE_FINGER : Z -> bool) (G_BYTE_ORDER : ByteOrder)
         (g_variant_new_from_data : GVariantType -> list byte -> option GVariant)
         (data_ : list byte) (value : GVariant) (f : fp3_fields) (p : FpPrint fp_minutia),
    fp_print_load_variant G_BYTE_ORDER g_variant_new_from_data data_ = Returned value ->
    g_variant_get_fp3 value = Returned f ->
    fp_print_deserialize fp_minutia FP_TYPE_FINGER G_BYTE_ORDER
                         g_variant_new_from_data data_ = Returned p ->
    FpPrintType_value (type p) = f_type f /\
    fp_print_get_driver p = Some (f_driver f) /\
    fp_print_get_device_id p = Some (f_device_id f) /\
    fp_print_get_device_stored p = f_device_stored f /\
    fp_print_get_finger p
    = (if FP_TYPE_FINGER (f_finger_int8 f) then f_finger_int8 f else 0) /\
    fp_print_get_username p = f_username f /\
    fp_print_get_description p = f_description f /\
    fp_print_get_enroll_date p = g_date_new_julian (to_guint32 (f_julian_date f)) /\
    fp_print_get_image p = None.
Proof.
  intros fp_minutia valid host load data_ value f p Hload Hget Hdes.
  unfold fp_print_deserialize in Hdes.
  rewrite Hload in Hdes. cbn [bind] in Hdes. rewrite Hget in Hdes. cbn [bind] in Hdes.
  bind_inv Hdes as body Hbody.
  unfold fp_print_get_driver, fp_print_get_device_id, fp_print_get_device_stored,
    fp_print_get_finger, fp_print_get_username, fp_print_get_description,
    fp_print_get_enroll_date, fp_print_get_image.
  destruct (g_object_set_metadata fp_minutia valid body (f_finger_int8 f) (f_username f)
              (f_description f) (g_date_new_julian (to_guint32 (f_julian_date f))))
    as (p' & Hp' & Hdate & Hu & Hde & Hfinger & Ht & Hd & Hi & Hs & Him & _ & _).
  rewrite Hp' in Hdes. apply Returned_inj in Hdes. subst p'.
  rewrite Hdate, Hu, Hde, Hfinger, Ht, Hd, Hi, Hs, Him.
  clear Hp' Hdate Hu Hde Hfinger Ht Hd Hi Hs Him.
  unfold deserialize_payload in Hbody.
  destruct (Z.eqb_spec (f_type f) (FpPrintType_value FP_PRINT_NBIS)) as [Et|_].
  - bind_inv Hbody as prints_ Hprints.
    rewrite g_object_new_nbis in Hbody. cbn [bind] in Hbody.
    bind_inv Hbody as children Hchildren.
    match type of Hbody with
    | deserialize_prints _ ?start = _ =>
        destruct (deserialize_prints_valid fp_minutia children start body []
                    eq_refl eq_refl Hbody) as (Hsame & _)
    end.
    destruct body. cbn in Hsame |- *. injection Hsame as -> -> -> -> -> -> -> -> ->.
    rewrite Et. repeat split.
  - destruct (Z.eqb_spec (f_type f) (FpPrintType_value FP_PRINT_RAW)) as [Et|_];
      [|discriminate Hbody].
    bind_inv Hbody as fp_data Hfp_data.
    injection Hbody as <-. rewrite Et. repeat split.
Qed.

(** ** The decoder on a container of the expected type *)

Lemma g_variant_get_type_byteswap :
  forall value, g_variant_get_type (g_variant_byteswap value) = g_variant_get_type value.
Proof.
  fix IH 1. intros [b | y | i | s | c | e c | e l | l | k v];
    cbn [g_variant_byteswap g_variant_get_type]; try reflexivity.
  - f_equal. rewrite map_map. induction l as [|a l IHl]; [reflexivity|].
    cbn [map]. rewrite IH, IHl. reflexivity.
  - rewrite !IH. reflexivity.
Qed.

Lemma g_variant_well_formed_byteswap :
  forall value, g_variant_well_formed (g_variant_byteswap value) = g_variant_well_formed value.
Proof.
  fix IH 1. intros [b | y | i | s | c | e [c|] | e l | l | k v];
    cbn [g_variant_byteswap g_variant_well_formed option_map]; try reflexivity.
  - apply IH.
  - rewrite g_variant_get_type_byteswap, IH. reflexivity.
  - induction l as [|a l IHl]; [reflexivity|].
    cbn [map forallb]. rewrite g_variant_get_type_byteswap, IH, IHl. reflexivity.
  - induction l as [|a l IHl]; [reflexivity|].
    cbn [map forallb]. rewrite IH, IHl. reflexivity.
  - rewrite !IH. reflexivity.
Qed.

Lemma g_variant_well_typed_byteswap (value : GVariant) (t : GVariantType) :
  g_variant_well_typed (g_variant_byteswap value) t = g_variant_well_typed value t.
Proof.
  unfold g_variant_well_typed.
  rewrite g_variant_get_type_byteswap, g_variant_well_formed_byteswap. reflexivity.
Qed.

Lemma g_variant_well_typed_spec (value : GVariant) (t : GVariantType) :
  g_variant_well_typed value t = true ->
  g_variant_get_type value = t /\ g_variant_well_formed value = true.
Proof.
  unfold g_variant_well_typed. intro H. apply andb_true_iff in H.
  destruct H as [Ht Hw]. split; [apply g_variant_type_equal_eq; exact Ht | exact Hw].
Qed.

(** An array of 32-bit integers is the array of its numbers. *)
Lemma int32_array_shape (value : GVariant) :
  g_variant_well_typed value (GVT_array G_VARIANT_TYPE_INT32) = true ->
  exists column, value = g_variant_new_fixed_array column.
Proof.
  intro H. apply g_variant_well_typed_spec in H. destruct H as [Ht Hw].
  destruct value as [ | | | | | | e l | | ]; try discriminate Ht.
  cbn [g_variant_get_type] in Ht. injection Ht as ->.
  cbn [g_variant_well_formed] in Hw.
  induction l as [|a l IHl].
  - exists []. reflexivity.
  - cbn [forallb] in Hw. apply andb_true_iff in Hw. destruct Hw as [Ha Hl].
    apply andb_true_iff in Ha. destruct Ha as [Ha _].
    destruct (IHl Hl) as (column & Hcolumn).
    unfold g_variant_new_fixed_array in Hcolumn. injection Hcolumn as ->.
    destruct a; try discriminate Ha.
    exists (i :: column). reflexivity.
Qed.

Lemma xyt_variant_shape (value : GVariant) :
  g_variant_well_typed value XYT_VARIANT_TYPE = true ->
  exists columns, value = xyt_variant columns.
Proof.
  intro H. apply g_variant_well_typed_spec in H. destruct H as [Ht Hw].
  destruct value as [ | | | | | | | l | ]; try discriminate Ht.
  cbn [g_variant_get_type] in Ht. unfold XYT_VARIANT_TYPE in Ht. injection Ht as Ht.
  destruct l as [|x [|y [|t [|]]]]; try discriminate Ht.
  cbn [map] in Ht. injection Ht as Hx Hy Htheta.
  cbn [g_variant_well_formed forallb] in Hw.
  apply andb_true_iff in Hw. destruct Hw as [Hwx Hw].
  apply andb_true_iff in Hw. destruct Hw as [Hwy Hw].
  apply andb_true_iff in Hw. destruct Hw as [Hwt _].
  destruct (int32_array_shape x) as (xs & ->).
  { unfold g_variant_well_typed. rewrite Hx, Hwx. reflexivity. }
  destruct (int32_array_shape y) as (ys & ->).
  { unfold g_variant_well_typed. rewrite Hy, Hwy. reflexivity. }
  destruct (int32_array_shape t) as (ts & ->).
  { unfold g_variant_well_typed. rewrite Htheta, Hwt. reflexivity. }
  exists (xs, ys, ts). reflexivity.
Qed.

(** A payload of type ["(a(aiaiai))"] is the payload of some templates. *)
Lemma nbis_payload_shape (value : GVariant) :
  g_variant_well_typed value NBIS_VARIANT_TYPE = true ->
  exists templates, value = nbis_payload templates.
Proof.
  intro H. apply g_variant_well_typed_spec in H. destruct H as [Ht Hw].
  destruct value as [ | | | | | | | l | ]; try discriminate Ht.
  cbn [g_variant_get_type] in Ht. unfold NBIS_VARIANT_TYPE in Ht. injection Ht as Ht.
  destruct l as [|a [|]]; try discriminate Ht.
  cbn [map] in Ht. injection Ht as Ha.
  destruct a as [ | | | | | | e l | | ]; try discriminate Ha.
  cbn [g_variant_get_type] in Ha. injection Ha as ->.
  cbn [g_variant_well_formed forallb] in Hw. rewrite andb_true_r in Hw.
  assert (Hl : exists templates, l = map xyt_variant templates).
  { induction l as [|c l IHl].
    - exists []. reflexivity.
    - cbn [forallb] in Hw. apply andb_true_iff in Hw. destruct Hw as [Hc Hl].
      destruct (IHl Hl) as (templates & ->).
      destruct (xyt_variant_shape c Hc) as (columns & ->).
      exists (columns :: templates). reflexivity. }
  destruct Hl as (templates & ->). exists templates. reflexivity.
Qed.

(** A value of the type of the container has the ten fields that
    [g_variant_get] reads. *)
Lemma g_variant_get_fp3_of_type (value : GVariant) :
  g_variant_well_typed value FP_PRINT_VARIANT_TYPE = true ->
  exists f, g_variant_get_fp3 value = Returned f.
Proof.
  intro H. apply g_variant_well_typed_spec in H. destruct H as [Ht Hw].
  destruct value as [ | | | | | | | l | ]; try discriminate Ht.
  cbn [g_variant_get_type] in Ht. unfold FP_PRINT_VARIANT_TYPE in Ht. injection Ht as Ht.
  do 10 (destruct l as [|? l]; [discriminate Ht|]; cbn [map] in Ht;
         injection Ht as ? Ht).
  destruct l; [|discriminate Ht]. clear Ht.
  cbn [g_variant_well_formed forallb] in Hw.
  repeat match goal with
         | H : _ && _ = true |- _ => apply andb_true_iff in H; destruct H as [? H]
         end.
  repeat match goal with
         | H : g_variant_get_type ?v = _ |- _ =>
             destruct v; try discriminate H; cbn [g_variant_get_type] in H;
             try (injection H as H); subst
         end.
  repeat match goal with
         | H : g_variant_well_formed (GV_maybe _ ?c) = true |- _ =>
             destruct c as [[]|]; cbn [g_variant_well_formed g_variant_get_type
                                       g_variant_type_equal andb] in H;
             try discriminate H; clear H
         end.
  all: eexists; reflexivity.
Qed.

(** On a buffer of more than 3 bytes from which GLib loads a value of the
    type of the container, [fp_print_deserialize] returns a print or the
    error [InvalidFormat] as soon as the payload has the type that the
    encoder writes: ["(a(aiaiai))"] for an NBIS print, a variant for a raw
    one.  The decoder does not test that type: on a payload that is no
    container (a number, a string) the call [g_variant_get_child_value] is
    outside GLib's contract, and no error is returned. *)
Theorem fp_print_deserialize_safe :
  forall (fp_minutia : Type) (FP_TYPE_FINGER : Z -> bool) (G_BYTE_ORDER : ByteOrder)
         (g_variant_new_from_data : GVariantType -> list byte -> option GVariant)
         (data_ : list byte),
    let result := fp_print_deserialize fp_minutia FP_TYPE_FINGER G_BYTE_ORDER
                                       g_variant_new_from_data data_ in
    ((3 < length data_)%nat ->
     (forall raw_value,
        g_variant_new_from_data FP_PRINT_VARIANT_TYPE (skipn 3 data_) = Some raw_value ->
        g_variant_well_typed raw_value FP_PRINT_VARIANT_TYPE = true) ->
     (forall value f,
        fp_print_load_variant G_BYTE_ORDER g_variant_new_from_data data_ = Returned value ->
        g_variant_get_fp3 value = Returned f ->
        (f_type f = FpPrintType_value FP_PRINT_NBIS ->
         g_variant_well_typed (f_print_data f) NBIS_VARIANT_TYPE = true) /\
        (f_type f = FpPrintType_value FP_PRINT_RAW ->
         g_variant_well_typed (f_print_data f) G_VARIANT_TYPE_VARIANT = true)) ->
     (exists p, result = Returned p) \/ result = Failed InvalidFormat) /\
    (forall value f,
       fp_print_load_variant G_BYTE_ORDER g_variant_new_from_data data_ = Returned value ->
       g_variant_get_fp3 value = Returned f ->
       f_type f = FpPrintType_value FP_PRINT_NBIS \/
       f_type f = FpPrintType_value FP_PRINT_RAW ->
       g_variant_children (f_print_data f) = Aborted OutOfContract ->
       result = Aborted OutOfContract).
Proof.
  intros fp_minutia valid host load data_ result. subst result. split.
  - intros Hlen Hraw Hpayload. unfold fp_print_deserialize.
    destruct (fp_print_load_variant host load data_) as [value|e|c] eqn:Hload.
    + assert (Htyped : g_variant_well_typed value FP_PRINT_VARIANT_TYPE = true).
      { unfold fp_print_load_variant, g_assert in Hload.
        destruct (3 <? Z.of_nat (length data_)); [|discriminate Hload].
        cbn [bind] in Hload.
        destruct (negb (bytes_eqb (firstn 3 data_) FP3_MAGIC)); [discriminate Hload|].
        destruct (load FP_PRINT_VARIANT_TYPE (skipn 3 data_)) as [raw_value|] eqn:Hr;
          [|discriminate Hload].
        apply Returned_inj in Hload. subst value.
        specialize (Hraw raw_value eq_refl).
        destruct host; [exact Hraw | rewrite g_variant_well_typed_byteswap; exact Hraw]. }
      destruct (g_variant_get_fp3_of_type value Htyped) as (f & Hget).
      destruct (Hpayload value f eq_refl Hget) as [Hnbis Hrawdata].
      cbn [bind]. rewrite Hget. cbn [bind].
      destruct (Z.eqb_spec (f_type f) (FpPrintType_value FP_PRINT_NBIS)) as [Et|Nt].
      * destruct (nbis_payload_shape _ (Hnbis Et)) as (templates & Hshape).
        rewrite (deserialize_payload_nbis fp_minutia valid f templates Et Hshape).
        destruct (existsb bad_template templates); cbn [bind];
          [right; reflexivity | left].
        match goal with
        | |- context [g_object_set valid ?body _] =>
            destruct (g_object_set_metadata fp_minutia valid body (f_finger_int8 f)
                        (f_username f) (f_description f)
                        (g_date_new_julian (to_guint32 (f_julian_date f))))
              as (p & -> & _)
        end.
        exists p. reflexivity.
      * unfold deserialize_payload.
        destruct (Z.eqb_spec (f_type f) (FpPrintType_value FP_PRINT_NBIS)) as [|_];
          [contradiction|].
        destruct (Z.eqb_spec (f_type f) (FpPrintType_value FP_PRINT_RAW)) as [Er|_];
          [|right; reflexivity].
        specialize (Hrawdata Er). apply g_variant_well_typed_spec in Hrawdata.
        destruct Hrawdata as [Hv _].
        destruct (f_print_data f); try discriminate Hv.
        left.
        cbn [g_variant_get_child_value g_variant_children bind deref nth_error].
        rewrite g_object_new_raw. cbn [bind].
        match goal with
        | |- context [g_object_set valid ?body _] =>
            destruct (g_object_set_metadata fp_minutia valid body (f_finger_int8 f)
                        (f_username f) (f_description f)
                        (g_date_new_julian (to_guint32 (f_julian_date f))))
              as (p & -> & _)
        end.
        exists p. reflexivity.
    + right. cbn [bind]. f_equal.
      unfold fp_print_load_variant, g_assert in Hload.
      destruct (3 <? Z.of_nat (length data_)); [|discriminate Hload].
      cbn [bind] in Hload.
      destruct (negb (bytes_eqb (firstn 3 data_) FP3_MAGIC));
        [injection Hload as <-; reflexivity|].
      destruct (load FP_PRINT_VARIANT_TYPE (skipn 3 data_));
        [discriminate Hload | injection Hload as <-; reflexivity].
    + exfalso. unfold fp_print_load_variant, g_assert in Hload.
      destruct (Z.ltb_spec 3 (Z.of_nat (length data_))) as [_|Hshort]; [|lia].
      cbn [bind] in Hload.
      destruct (negb (bytes_eqb (firstn 3 data_) FP3_MAGIC)); [discriminate Hload|].
      destruct (load FP_PRINT_VARIANT_TYPE (skipn 3 data_)); discriminate Hload.
  - intros value f Hload Hget Htype Hchildren. unfold fp_print_deserialize.
    rewrite Hload. cbn [bind]. rewrite Hget. cbn [bind].
    unfold deserialize_payload, g_variant_get_child_value. rewrite Hchildren.
    destruct Htype as [-> | ->]; reflexivity.
Qed.

(** ** The encoder of minutiae on any template *)

(** [minutiae_to_xyt] writes the count [min (num, 200)] and the first that
    many rows of the template, a rearrangement of the encoded forms of the
    first points of the list, and leaves every cell from the count on as it
    was.  A negative count and a list shorter than the count are outside
    what C defines. *)
Theorem minutiae_to_xyt_outcomes :
  forall (fp_minutia : Type)
         (lfs2nist_minutia_XYT : fp_minutia -> Z -> Z -> Z * Z * Z)
         (sround_reliability_100 : fp_minutia -> Z)
         (sort_x_y : minutiae_struct -> minutiae_struct -> Z)
         (qsort : (minutiae_struct -> minutiae_struct -> Z) ->
                  list minutiae_struct -> list minutiae_struct)
         (minutiae_ : fp_minutiae fp_minutia) (bwidth bheight : Z) (xyt : xyt_struct),
    (forall compar l, Permutation (qsort compar l) l) ->
    length (xcol xyt) = MAX_BOZORTH_MINUTIAE ->
    length (ycol xyt) = MAX_BOZORTH_MINUTIAE ->
    length (thetacol xyt) = MAX_BOZORTH_MINUTIAE ->
    let nmin := Z.min (num minutiae_) (Z.of_nat MAX_BOZORTH_MINUTIAE) in
    let result := minutiae_to_xyt lfs2nist_minutia_XYT sround_reliability_100 sort_x_y qsort
                                  minutiae_ bwidth bheight xyt in
    (nmin < 0 \/ Z.of_nat (length (list_ minutiae_)) < nmin ->
     result = Aborted OutOfContract) /\
    (0 <= nmin <= Z.of_nat (length (list_ minutiae_)) ->
     exists xyt',
       result = Returned xyt' /\
       nrows xyt' = nmin /\
       Permutation (xyt_rows xyt')
                   (map (encoded_point lfs2nist_minutia_XYT bwidth bheight)
                        (firstn (Z.to_nat nmin) (list_ minutiae_))) /\
       length (xcol xyt') = MAX_BOZORTH_MINUTIAE /\
       length (ycol xyt') = MAX_BOZORTH_MINUTIAE /\
       length (thetacol xyt') = MAX_BOZORTH_MINUTIAE /\
       forall j, (Z.to_nat nmin <= j)%nat ->
                 array_get (xcol xyt') j = array_get (xcol xyt) j /\
                 array_get (ycol xyt') j = array_get (ycol xyt) j /\
                 array_get (thetacol xyt') j = array_get (thetacol xyt) j).
Proof.
  intros fp_minutia lfs rel sort qsort minutiae_ bwidth bheight xyt Hq Hx Hy Ht nmin result.
  subst result. unfold minutiae_to_xyt. fold nmin. split.
  - intros [Hneg | Hshort].
    + destruct (Z.ltb_spec nmin 0) as [_|H]; [reflexivity | lia].
    + destruct (Z.ltb_spec (Z.of_nat (length (list_ minutiae_))) nmin) as [_|H]; [|lia].
      rewrite orb_true_r. reflexivity.
  - intros [Hlo Hhi].
    assert (Hcap : nmin <= Z.of_nat MAX_BOZORTH_MINUTIAE) by (subst nmin; lia).
    destruct (Z.ltb_spec nmin 0) as [H|_]; [lia|].
    destruct (Z.ltb_spec (Z.of_nat (length (list_ minutiae_))) nmin) as [H|_]; [lia|].
    cbn [orb].
    set (retained := firstn (Z.to_nat nmin) (list_ minutiae_)).
    set (c := qsort sort (map (minutia_row lfs rel bwidth bheight) retained)).
    assert (Hperm : Permutation c (map (minutia_row lfs rel bwidth bheight) retained))
      by apply Hq.
    assert (Hc : length c = Z.to_nat nmin).
    { rewrite (Permutation_length Hperm), length_map. subst retained.
      rewrite length_firstn. lia. }
    destruct (store_rows_spec c 0 xyt) as (Hn & Hlx & Hly & Hlt & Hcells);
      try (rewrite ?Hx, ?Hy, ?Ht; unfold MAX_BOZORTH_MINUTIAE in *; lia).
    eexists. split; [reflexivity|]. cbn [nrows xcol ycol thetacol].
    split; [reflexivity|]. split; [|split; [|split; [|split]]].
    + unfold xyt_rows. cbn [nrows xcol ycol thetacol].
      apply Permutation_trans with (l' := map row_triple c).
      * rewrite <- Hc.
        replace (length c) with (length (map row_triple c)) by apply length_map.
        rewrite (map_seq_nth _ (map row_triple c) (row_triple (mk_minutiae_struct 0 0 0 0)));
          [apply Permutation_refl|].
        intros i Hi. rewrite length_map in Hi. rewrite Hcells.
        destruct (Nat.ltb_spec i (0 + length c)) as [_|H]; [|lia].
        cbn [Nat.leb andb]. rewrite Nat.sub_0_r, map_nth. reflexivity.
      * apply Permutation_trans
          with (l' := map row_triple (map (minutia_row lfs rel bwidth bheight) retained)).
        -- apply Permutation_map. exact Hperm.
        -- rewrite map_map. erewrite map_ext; [apply Permutation_refl|].
           intro m. apply row_triple_minutia_row.
    + rewrite Hlx. exact Hx.
    + rewrite Hly. exact Hy.
    + rewrite Hlt. exact Ht.
    + intros j Hj. pose proof (Hcells j) as Hcell.
      destruct (Nat.ltb_spec j (0 + length c)) as [H|_]; [lia|].
      rewrite andb_false_r in Hcell. injection Hcell as -> -> ->. repeat split.
Qed.

(** * The statements on the sample instance *)

Lemma In_firstn {A : Type} (n : nat) (l : list A) (x : A) :
  In x (firstn n l) -> In x l.
Proof.
  intro H. rewrite <- (firstn_skipn n l). apply in_or_app. left. exact H.
Qed.

Lemma sample_insert_permutation (compar : minutiae_struct -> minutiae_struct -> Z)
      (x : minutiae_struct) (l : list minutiae_struct) :
  Permutation (Sample.insert compar x l) (x :: l).
Proof.
  induction l as [|y l IH]; cbn [Sample.insert]; [apply Permutation_refl|].
  destruct (compar x y <=? 0); [apply Permutation_refl|].
  apply Permutation_trans with (l' := y :: x :: l);
    [apply perm_skip; exact IH | apply perm_swap].
Qed.

Lemma sample_qsort_permutation (compar : minutiae_struct -> minutiae_struct -> Z)
      (l : list minutiae_struct) :
  Permutation (Sample.qsort compar l) l.
Proof.
  unfold Sample.qsort. induction l as [|x l IH]; cbn [fold_right]; [constructor|].
  apply Permutation_trans with (l' := x :: fold_right (Sample.insert compar) [] l);
    [apply sample_insert_permutation | apply perm_skip; exact IH].
Qed.

(** The matcher on the sample gallery, with the threshold 2: the second
    template is the first to reach it. *)
Lemma bz3_match_first_qualifying_witness :
  exists r,
    fpi_print_bz3_match Sample.probe_init Sample.to_gallery
                        Sample.gallery_print Sample.probe_print 2 = Returned r /\
    match_error r = None /\
    match_result r = FPI_MATCH_SUCCESS.
Proof.
  destruct (bz3_match_first_qualifying Sample.minutia Sample.probe_init Sample.to_gallery
              Sample.gallery_print Sample.probe_print 2 _ _
              eq_refl eq_refl eq_refl eq_refl)
    as (r & Hr & Herr & Hsuccess & _).
  exists r. split; [exact Hr|]. split; [exact Herr|].
  apply Hsuccess.
  exists (Sample.template [1; 2; 3] [4; 4; 4] [0; 0; 0]). split.
  - right. left. reflexivity.
  - vm_compute. discriminate.
Defined.

(** The equality test on the sample NBIS print and its copy with another
    value past the count of a template: the two are not equal. *)
Lemma fp_print_equal_nbis_witness :
  fp_print_equal Sample.nbis_print Sample.nbis_print = Returned true /\
  fp_print_equal Sample.nbis_print Sample.nbis_print_padding = Returned false.
Proof.
  split.
  - destruct (fp_print_equal_nbis Sample.minutia Sample.nbis_print Sample.nbis_print _ _
                eq_refl eq_refl eq_refl eq_refl) as (_ & Hiff & _).
    apply Hiff. repeat split.
    repeat constructor; apply same_storage_refl.
  - destruct (fp_print_equal_nbis Sample.minutia Sample.nbis_print Sample.nbis_print_padding
                _ _ eq_refl eq_refl eq_refl eq_refl) as ([Htrue | Hfalse] & Hiff & _);
      [|exact Hfalse].
    exfalso. apply Hiff in Htrue. destruct Htrue as (_ & _ & Hall).
    inversion Hall as [|a b la lb _ Hrest]; subst.
    inversion Hrest as [|a' b' la' lb' Hsame _]; subst.
    destruct Hsame as (_ & Hcells).
    destruct (Hcells 1%nat ltac:(unfold MAX_BOZORTH_MINUTIAE; lia)) as (Hx & _).
    vm_compute in Hx. discriminate Hx.
Defined.

(** The encoder on the sample image of 201 minutiae: 200 rows are kept. *)
Lemma fpi_print_add_from_image_keeps_first_200_witness :
  exists xyt print',
    fpi_print_add_from_image Sample.lfs2nist Sample.reliability Sample.sort_x_y
                             Sample.qsort Sample.empty_nbis_print
                             (Some Sample.image_201) = Returned print' /\
    prints print' = Some [xyt] /\
    nrows xyt = 200 /\
    Permutation (xyt_rows xyt)
                (map (encoded_point Sample.lfs2nist 256 360)
                     (firstn 200 Sample.minutiae_201)).
Proof.
  pose proof (fpi_print_add_from_image_keeps_first_200
                Sample.minutia Sample.lfs2nist Sample.reliability Sample.sort_x_y
                Sample.qsort Sample.empty_nbis_print Sample.image_201 []
                sample_qsort_permutation eq_refl eq_refl) as H.
  cbv zeta in H.
  change (fp_image_get_minutiae Sample.image_201) with (Some Sample.minutiae_201) in H.
  cbv beta iota in H. destruct H as [_ H].
  destruct H as (xyt & print' & Hres & Hprints & Hn & Hrows & _).
  - intro E. apply (f_equal (@length _)) in E. vm_compute in E. discriminate E.
  - vm_compute. discriminate.
  - exists xyt, print'. repeat split; assumption.
Defined.

(** The encoder on the same image: the thetas stored lie in (-180, 180]. *)
Lemma fpi_print_add_from_image_theta_witness :
  exists xyt print',
    fpi_print_add_from_image Sample.lfs2nist Sample.reliability Sample.sort_x_y
                             Sample.qsort Sample.empty_nbis_print
                             (Some Sample.image_201) = Returned print' /\
    prints print' = Some [xyt] /\
    forall i, (i < Z.to_nat (nrows xyt))%nat ->
              -180 < array_get (thetacol xyt) i <= 180.
Proof.
  destruct (fpi_print_add_from_image_theta
              Sample.minutia Sample.lfs2nist Sample.reliability Sample.sort_x_y
              Sample.qsort Sample.empty_nbis_print Sample.image_201 []
              Sample.minutiae_201
              sample_qsort_permutation eq_refl eq_refl eq_refl)
    as (_ & _ & _ & _ & xyt & print' & Hres & Hprints & _ & Hrange).
  - intro E. apply (f_equal (@length _)) in E. vm_compute in E. discriminate E.
  - vm_compute. discriminate.
  - exists xyt, print'. split; [exact Hres|]. split; [exact Hprints|].
    apply Hrange. intros m Hin.
    assert (Hall : forallb (fun m => (-180 <? transformed_angle Sample.lfs2nist 256 360 m)
                                     && (transformed_angle Sample.lfs2nist 256 360 m <=? 540))
                           (firstn MAX_BOZORTH_MINUTIAE Sample.minutiae_201) = true)
      by (vm_compute; reflexivity).
    rewrite forallb_forall in Hall. specialize (Hall m Hin).
    apply andb_true_iff in Hall. destruct Hall as [H1 H2].
    apply Z.ltb_lt in H1. apply Z.leb_le in H2.
    change (width Sample.image_201) with 256. change (height Sample.image_201) with 360.
    split; assumption.
Defined.

(** C2, as stated, fails on a buffer of 3 bytes, the magic itself: the
    call aborts on its assertion and no [InvalidFormat] is returned. *)
Lemma fp_print_deserialize_short_buffer_aborts :
  (length FP3_MAGIC < 4)%nat /\
  fp_print_deserialize Sample.minutia Sample.finger_valid G_LITTLE_ENDIAN
                       TagCodec.load FP3_MAGIC = Aborted AssertionFailed /\
  fp_print_deserialize Sample.minutia Sample.finger_valid G_LITTLE_ENDIAN
                       TagCodec.load [] = Aborted AssertionFailed.
Proof. split; [vm_compute; lia | split; reflexivity]. Qed.

(** The decoder on the bytes of an NBIS print whose template has columns of
    lengths 2, 1 and 2. *)
Lemma fp_print_deserialize_rejects_witness :
  (3 < length Sample.mismatched_bytes)%nat /\
  existsb bad_template Sample.mismatched_templates = true /\
  fp_print_deserialize Sample.minutia Sample.finger_valid G_LITTLE_ENDIAN
                       TagCodec.load Sample.mismatched_bytes = Failed InvalidFormat.
Proof.
  assert (Hlen : (3 < length Sample.mismatched_bytes)%nat) by (vm_compute; lia).
  split; [exact Hlen|]. split; [reflexivity|].
  destruct (fp_print_deserialize_rejects Sample.minutia Sample.finger_valid
              G_LITTLE_ENDIAN TagCodec.load Sample.mismatched_bytes) as (_ & _ & H).
  apply (H Hlen Sample.mismatched_variant
           (mk_fp3_fields 2 "uru4000" "0" false 7 None None 738000
                          (nbis_payload Sample.mismatched_templates))
           Sample.mismatched_templates).
  - vm_compute. reflexivity.
  - reflexivity.
  - reflexivity.
  - reflexivity.
  - reflexivity.
Defined.



(** The decoder on the bytes of the sample raw print, which has no enroll
    date: the decoded print has one. *)
Lemma fp_print_deserialize_date_of_sentinel_witness :
  exists p,
    fp_print_deserialize Sample.minutia Sample.finger_valid G_LITTLE_ENDIAN
                         TagCodec.load Sample.raw_print_bytes = Returned p /\
    enroll_date Sample.raw_print = None /\
    enroll_date p = Some (GDateJulian 2147483648).
Proof.
  eexists. split; [vm_compute; reflexivity|]. split; [reflexivity|].
  eapply (fp_print_deserialize_date_of_sentinel Sample.minutia Sample.finger_valid
            G_LITTLE_ENDIAN TagCodec.load Sample.raw_print_bytes).
  - vm_compute. reflexivity.
  - vm_compute. reflexivity.
  - vm_compute. reflexivity.
  - reflexivity.
Defined.

(** The round trip of the sample raw print. *)
Lemma fp_print_roundtrip_unset_date_witness :
  exists bytes print',
    fp_print_serialize G_LITTLE_ENDIAN TagCodec.store Sample.raw_print = Returned bytes /\
    fp_print_deserialize Sample.minutia Sample.finger_valid G_LITTLE_ENDIAN
                         TagCodec.load bytes = Returned print' /\
    enroll_date Sample.raw_print = None /\
    enroll_date print' = Some (GDateJulian 2147483648).
Proof.
  eexists. eexists. split; [vm_compute; reflexivity|].
  split; [vm_compute; reflexivity|]. split; [reflexivity|].
  eapply (fp_print_roundtrip_unset_date Sample.minutia Sample.finger_valid
            G_LITTLE_ENDIAN TagCodec.store TagCodec.load Sample.raw_print).
  - reflexivity.
  - vm_compute. reflexivity.
  - vm_compute. reflexivity.
  - vm_compute. reflexivity.
  - vm_compute. reflexivity.
Defined.

(** The round trip of the sample NBIS print, which has an enroll date. *)
Lemma fp_print_roundtrip_little_endian_witness :
  exists bytes print',
    fp_print_serialize G_LITTLE_ENDIAN TagCodec.store Sample.nbis_print = Returned bytes /\
    fp_print_deserialize Sample.minutia Sample.finger_valid G_LITTLE_ENDIAN
                         TagCodec.load bytes = Returned print' /\
    fp_print_equal print' Sample.nbis_print = Returned true /\
    enroll_date print' = Some (GDateJulian 738000).
Proof.
  destruct (fp_print_roundtrip_little_endian Sample.minutia Sample.finger_valid
              TagCodec.store TagCodec.load Sample.nbis_print
              (GV_tuple [GV_int32 2; GV_string "uru4000"; GV_string "0";
                         GV_boolean false; GV_byte 7;
                         GV_maybe G_VARIANT_TYPE_STRING None;
                         GV_maybe G_VARIANT_TYPE_STRING (Some (GV_string "index"));
                         GV_int32 738000;
                         GV_array (GVT_dict_entry G_VARIANT_TYPE_STRING
                                                  G_VARIANT_TYPE_VARIANT) [];
                         GV_variant (nbis_payload [([1; 2], [3; 4], [5; -6]);
                                                   ([9], [8], [180])])]))
    as (bytes & print' & Hser & Hdes & Hequal & _ & _ & _ & _ & _ & Hdate).
  - vm_compute. reflexivity.
  - vm_compute. reflexivity.
  - vm_compute. reflexivity.
  - vm_compute. reflexivity.
  - vm_compute. discriminate.
  - exists bytes, print'. repeat split; try assumption.
    rewrite (Hdate 738000 eq_refl ltac:(lia)). reflexivity.
Defined.

(** On a big-endian host the cells of an NBIS print do not come back: the
    encoder swaps the bytes of a cell twice ([GINT32_TO_LE], then
    [g_variant_byteswap] on the whole value) and the decoder once, so the
    decoded print holds the cells with their bytes reversed and the
    equality test tells it from the original. *)
Lemma fp_print_roundtrip_big_endian_nbis :
  exists bytes print',
    fp_print_serialize G_BIG_ENDIAN TagCodec.store Sample.nbis_print = Returned bytes /\
    fp_print_deserialize Sample.minutia Sample.finger_valid G_BIG_ENDIAN
                         TagCodec.load bytes = Returned print' /\
    option_map (map xyt_rows) (prints print')
    = Some [[(16777216, 50331648, 83886080); (33554432, 67108864, -83886081)];
            [(150994944, 134217728, -1275068416)]] /\
    fp_print_equal print' Sample.nbis_print = Returned false.
Proof.
  eexists. eexists. split; [vm_compute; reflexivity|].
  split; [vm_compute; reflexivity|]. split; vm_compute; reflexivity.
Qed.

(** The decoder on the bytes of the sample NBIS print: the print returned
    is an NBIS print with valid templates. *)
Lemma fp_print_deserialize_well_formed_witness :
  exists p l,
    fp_print_deserialize Sample.minutia Sample.finger_valid G_LITTLE_ENDIAN
                         TagCodec.load Sample.nbis_print_bytes = Returned p /\
    type p = FP_PRINT_NBIS /\
    prints p = Some l /\
    forallb xyt_valid l = true.
Proof.
  eexists.
  assert (Hdes : fp_print_deserialize Sample.minutia Sample.finger_valid G_LITTLE_ENDIAN
                   TagCodec.load Sample.nbis_print_bytes = Returned ?[p])
    by (vm_compute; reflexivity).
  pose proof (fp_print_deserialize_well_formed _ _ _ _ _ _ Hdes) as (_ & _ & _ & H).
  cbn [type] in H. destruct H as (_ & l & Hl & Hvalid).
  exists l. repeat split; assumption.
Defined.

(** The equality test on the sample raw print. *)
Lemma fp_print_equal_raw_witness :
  fp_print_equal Sample.raw_print Sample.raw_print = Returned true /\
  fp_print_equal (set_data Sample.raw_print None) (set_data Sample.raw_print None)
  = Returned false.
Proof.
  split.
  - destruct (fp_print_equal_raw Sample.minutia Sample.raw_print Sample.raw_print
                eq_refl eq_refl) as (_ & Hiff & _).
    apply Hiff. repeat split. eexists. split; reflexivity.
  - destruct (fp_print_equal_raw Sample.minutia (set_data Sample.raw_print None)
                (set_data Sample.raw_print None) eq_refl eq_refl) as (_ & _ & Hnone).
    apply Hnone. reflexivity.
Defined.

(** The matcher on the sample gallery with the probe's template added to
    it: the match at the threshold 2 stays, and holds at the threshold 1. *)
Lemma bz3_match_monotone_witness :
  exists template' r,
    fpi_print_add_print Sample.gallery_print Sample.probe_print = Returned template' /\
    fpi_print_bz3_match Sample.probe_init Sample.to_gallery
                        Sample.gallery_print Sample.probe_print 2 = Returned r /\
    match_result r = FPI_MATCH_SUCCESS /\
    fpi_print_bz3_match Sample.probe_init Sample.to_gallery
                        template' Sample.probe_print 2 = Returned r.
Proof.
  destruct (bz3_match_monotone Sample.minutia Sample.probe_init Sample.to_gallery
              Sample.gallery_print Sample.probe_print Sample.probe_print 2 1 _ _ _
              eq_refl eq_refl eq_refl eq_refl eq_refl eq_refl ltac:(lia))
    as (template' & r & Hadd & Hmatch & Hsuccess & _).
  assert (Hr : match_result r = FPI_MATCH_SUCCESS).
  { vm_compute in Hmatch. injection Hmatch as <-. reflexivity. }
  exists template', r. split; [exact Hadd|]. split; [exact Hmatch|].
  split; [exact Hr|]. apply Hsuccess. exact Hr.
Defined.

(** The encoder on the sample image: the print stays valid and keeps the
    image. *)
Lemma fpi_print_add_from_image_keeps_valid_witness :
  exists print',
    fpi_print_add_from_image Sample.lfs2nist Sample.reliability Sample.sort_x_y
                             Sample.qsort Sample.empty_nbis_print
                             (Some Sample.image_201) = Returned print' /\
    fp_print_get_image print' = Some Sample.image_201 /\
    valid_print Sample.finger_valid print' = true.
Proof.
  destruct (fpi_print_add_from_image_keeps_valid
              Sample.minutia Sample.lfs2nist Sample.reliability Sample.sort_x_y
              Sample.qsort Sample.empty_nbis_print Sample.image_201 []
              Sample.minutiae_201 sample_qsort_permutation eq_refl eq_refl eq_refl)
    as (xyt & Hres & _ & Himage & _ & _ & Hvalid).
  - intro E. apply (f_equal (@length _)) in E. vm_compute in E. discriminate E.
  - vm_compute. discriminate.
  - eexists. split; [exact Hres|]. split; [exact Himage|].
    apply Hvalid. reflexivity.
Defined.

(** Two prints that [fp_print_equal] tells apart and that have the same
    bytes: the sample NBIS print and its copy with a value past the count
    of a template. *)
Lemma fp_print_serialize_reads_witness :
  fp_print_equal Sample.nbis_print Sample.nbis_print_padding = Returned false /\
  fp_print_serialize G_LITTLE_ENDIAN TagCodec.store Sample.nbis_print
  = fp_print_serialize G_LITTLE_ENDIAN TagCodec.store Sample.nbis_print_padding.
Proof.
  split; [vm_compute; reflexivity|].
  apply (fp_print_serialize_reads Sample.minutia G_LITTLE_ENDIAN TagCodec.store
           Sample.nbis_print Sample.nbis_print_padding).
  unfold same_serialized_fields. repeat split.
  cbn [type prints Sample.nbis_print Sample.nbis_print_padding].
  repeat constructor.
Defined.

(** The round trip of the sample NBIS print on a big-endian host: the cells
    come back with their bytes reversed, and the print decoded is not equal
    to the original. *)
Lemma fp_print_roundtrip_big_endian_witness :
  exists bytes print',
    fp_print_serialize G_BIG_ENDIAN TagCodec.store Sample.nbis_print = Returned bytes /\
    fp_print_deserialize Sample.minutia Sample.finger_valid G_BIG_ENDIAN
                         TagCodec.load bytes = Returned print' /\
    prints print' = option_map (map byteswapped_template) (prints Sample.nbis_print) /\
    fp_print_equal print' Sample.nbis_print = Returned false.
Proof.
  destruct (fp_print_roundtrip_big_endian Sample.minutia Sample.finger_valid
              TagCodec.store TagCodec.load Sample.nbis_print
              Sample.nbis_print_value_big_endian)
    as (bytes & print' & Hser & Hdes & _ & Hprints & Hequal & _).
  - vm_compute. reflexivity.
  - vm_compute. reflexivity.
  - vm_compute. reflexivity.
  - vm_compute. reflexivity.
  - vm_compute. reflexivity.
  - vm_compute. discriminate.
  - exists bytes, print'. split; [exact Hser|]. split; [exact Hdes|]. split.
    + exact Hprints.
    + rewrite Hequal. vm_compute. reflexivity.
Defined.

(** The bytes of the sample NBIS print, written on a little-endian host and
    read on a big-endian one. *)
Lemma fp_print_little_endian_bytes_on_big_endian_witness :
  exists print',
    fp_print_deserialize Sample.minutia Sample.finger_valid G_BIG_ENDIAN
                         TagCodec.load_foreign Sample.nbis_print_bytes = Returned print' /\
    fp_print_equal print' Sample.nbis_print = Returned true /\
    prints print' = prints Sample.nbis_print.
Proof.
  destruct (fp_print_little_endian_bytes_on_big_endian Sample.minutia Sample.finger_valid
              TagCodec.store TagCodec.load_foreign Sample.nbis_print
              Sample.nbis_print_value)
    as (bytes & print' & Hser & Hdes & Hequal & _ & _ & _ & _ & Hprints).
  - vm_compute. reflexivity.
  - vm_compute. reflexivity.
  - vm_compute. reflexivity.
  - vm_compute. reflexivity.
  - vm_compute. reflexivity.
  - vm_compute. discriminate.
  - exists print'.
    assert (Hbytes : bytes = Sample.nbis_print_bytes).
    { vm_compute in Hser. injection Hser as <-. reflexivity. }
    subst bytes. split; [exact Hdes|]. split; [exact Hequal|].
    apply (Hprints _ eq_refl eq_refl).
Defined.

(** The sample gallery, stored and read back, matches the sample probe as
    the original does. *)
Lemma fp_print_roundtrip_preserves_match_witness :
  exists bytes print' r,
    fp_print_serialize G_LITTLE_ENDIAN TagCodec.store Sample.gallery_print
    = Returned bytes /\
    fp_print_deserialize Sample.minutia Sample.finger_valid G_LITTLE_ENDIAN
                         TagCodec.load bytes = Returned print' /\
    fpi_print_bz3_match Sample.probe_init Sample.to_gallery
                        print' Sample.probe_print 2 = Returned r /\
    match_result r = FPI_MATCH_SUCCESS /\
    fp_print_compatible print' Sample.device = true.
Proof.
  destruct (fp_print_roundtrip_preserves_match Sample.minutia Sample.finger_valid
              TagCodec.store TagCodec.load Sample.probe_init Sample.to_gallery
              Sample.gallery_print Sample.probe_print Sample.gallery_print_value
              2 Sample.device)
    as (bytes & print' & Hser & Hdes & Hmatch & _ & _ & Hcompatible & _).
  - vm_compute. reflexivity.
  - vm_compute. reflexivity.
  - vm_compute. reflexivity.
  - vm_compute. reflexivity.
  - vm_compute. discriminate.
  - exists bytes, print'. eexists. split; [exact Hser|]. split; [exact Hdes|].
    split; [rewrite Hmatch; vm_compute; reflexivity|].
    split; [reflexivity|]. rewrite Hcompatible. vm_compute. reflexivity.
Defined.

(** The sample print of undefined type is written and then refused. *)
Lemma fp_print_undefined_not_read_back_witness :
  exists bytes,
    fp_print_serialize G_LITTLE_ENDIAN TagCodec.store Sample.undefined_print
    = Returned bytes /\
    fp_print_deserialize Sample.minutia Sample.finger_valid G_LITTLE_ENDIAN
                         TagCodec.load bytes = Failed InvalidFormat.
Proof.
  apply (fp_print_undefined_not_read_back Sample.minutia Sample.finger_valid
           G_LITTLE_ENDIAN TagCodec.store TagCodec.load Sample.undefined_print
           Sample.undefined_print_value).
  - reflexivity.
  - vm_compute. reflexivity.
  - vm_compute. reflexivity.
  - vm_compute. discriminate.
Defined.

(** The fields of the print decoded from the bytes of the sample NBIS
    print. *)
Lemma fp_print_deserialize_fields_witness :
  exists p,
    fp_print_deserialize Sample.minutia Sample.finger_valid G_LITTLE_ENDIAN
                         TagCodec.load Sample.nbis_print_bytes = Returned p /\
    type p = FP_PRINT_NBIS /\
    fp_print_get_driver p = Some "uru4000"%string /\
    fp_print_get_finger p = 7 /\
    fp_print_get_description p = Some "index"%string /\
    fp_print_get_enroll_date p = Some (GDateJulian 738000).
Proof.
  eexists.
  assert (Hdes : fp_print_deserialize Sample.minutia Sample.finger_valid G_LITTLE_ENDIAN
                   TagCodec.load Sample.nbis_print_bytes = Returned ?[p])
    by (vm_compute; reflexivity).
  split; [exact Hdes|].
  destruct (fp_print_deserialize_fields Sample.minutia Sample.finger_valid G_LITTLE_ENDIAN
              TagCodec.load Sample.nbis_print_bytes Sample.nbis_print_value
              (mk_fp3_fields 2 "uru4000" "0" false 7 None (Some "index"%string) 738000
                             (nbis_payload [([1; 2], [3; 4], [5; -6]); ([9], [8], [180])]))
              _ ltac:(vm_compute; reflexivity) ltac:(vm_compute; reflexivity) Hdes)
    as (_ & Hdriver & _ & _ & Hfinger & _ & Hdescription & Hdate & _).
  split; [reflexivity|]. split; [exact Hdriver|]. split; [exact Hfinger|].
  split; [exact Hdescription | exact Hdate].
Defined.

(** The sample NBIS print comes back from its bytes as it is. *)
Lemma fp_print_roundtrip_exact_witness :
  exists bytes,
    fp_print_serialize G_LITTLE_ENDIAN TagCodec.store Sample.nbis_print = Returned bytes /\
    fp_print_deserialize Sample.minutia Sample.finger_valid G_LITTLE_ENDIAN
                         TagCodec.load bytes = Returned Sample.nbis_print.
Proof.
  apply (fp_print_roundtrip_exact Sample.minutia Sample.finger_valid
           TagCodec.store TagCodec.load Sample.nbis_print Sample.nbis_print_value 738000).
  - vm_compute. reflexivity.
  - vm_compute. reflexivity.
  - reflexivity.
  - reflexivity.
  - intro H. discriminate H.
  - reflexivity.
  - lia.
  - vm_compute. reflexivity.
  - vm_compute. reflexivity.
  - vm_compute. discriminate.
Defined.

(** The decoder on the bytes of the sample NBIS print, whose payload has
    the type that the encoder writes, and on the bytes of a container
    marked NBIS whose payload is a number: a print in the first case, no
    result and no error in the second. *)
Lemma fp_print_deserialize_safe_witness :
  (exists p, fp_print_deserialize Sample.minutia Sample.finger_valid G_LITTLE_ENDIAN
                                  TagCodec.load Sample.nbis_print_bytes = Returned p) /\
  fp_print_deserialize Sample.minutia Sample.finger_valid G_LITTLE_ENDIAN
                       TagCodec.load Sample.number_payload_bytes = Aborted OutOfContract.
Proof.
  split.
  - destruct (fp_print_deserialize_safe Sample.minutia Sample.finger_valid G_LITTLE_ENDIAN
                TagCodec.load Sample.nbis_print_bytes) as [Hsafe _].
    destruct Hsafe as [Hp | Hfailed].
    + vm_compute. lia.
    + intros raw_value H. vm_compute in H. injection H as <-. vm_compute. reflexivity.
    + intros value f Hload Hget. vm_compute in Hload. injection Hload as <-.
      vm_compute in Hget. injection Hget as <-.
      split; intro H; [vm_compute; reflexivity | vm_compute in H; discriminate H].
    + exact Hp.
    + vm_compute in Hfailed. discriminate Hfailed.
  - destruct (fp_print_deserialize_safe Sample.minutia Sample.finger_valid G_LITTLE_ENDIAN
                TagCodec.load Sample.number_payload_bytes) as [_ Hunsafe].
    apply (Hunsafe Sample.number_payload_variant
             (mk_fp3_fields 2 "uru4000" "0" false 7 None None 738000 (GV_int32 7))).
    + vm_compute. reflexivity.
    + reflexivity.
    + left. reflexivity.
    + reflexivity.
Defined.

(** [minutiae_to_xyt] on the 201 sample minutiae, and with a count of -1. *)
Lemma minutiae_to_xyt_outcomes_witness :
  (exists xyt',
     minutiae_to_xyt Sample.lfs2nist Sample.reliability Sample.sort_x_y Sample.qsort
                     (mk_fp_minutiae 201 201 Sample.minutiae_201) 256 360
                     g_new0_xyt_struct = Returned xyt' /\
     nrows xyt' = 200) /\
  minutiae_to_xyt Sample.lfs2nist Sample.reliability Sample.sort_x_y Sample.qsort
                  (mk_fp_minutiae 0 (-1) []) 256 360 g_new0_xyt_struct
  = Aborted OutOfContract.
Proof.
  split.
  - destruct (minutiae_to_xyt_outcomes Sample.minutia Sample.lfs2nist Sample.reliability
                Sample.sort_x_y Sample.qsort
                (mk_fp_minutiae 201 201 Sample.minutiae_201) 256 360 g_new0_xyt_struct
                sample_qsort_permutation eq_refl eq_refl eq_refl) as [_ Hok].
    destruct Hok as (xyt' & Hres & Hn & _).
    + vm_compute. split; discriminate.
    + exists xyt'. split; [exact Hres | exact Hn].
  - destruct (minutiae_to_xyt_outcomes Sample.minutia Sample.lfs2nist Sample.reliability
                Sample.sort_x_y Sample.qsort
                (mk_fp_minutiae 0 (-1) []) 256 360 g_new0_xyt_struct
                sample_qsort_permutation eq_refl eq_refl eq_refl) as [Hbad _].
    apply Hbad. left. vm_compute. reflexivity.
Defined.

(** A print made for the sample device from the sample image is matched
    against the sample gallery without error. *)
Lemma probe_from_image_is_matched_witness :
  exists new probe r,
    fp_print_new Sample.minutia Sample.finger_valid Sample.device = Returned new /\
    fpi_print_add_from_image Sample.lfs2nist Sample.reliability Sample.sort_x_y
                             Sample.qsort (fpi_print_set_type new FP_PRINT_NBIS)
                             (Some Sample.image_201) = Returned probe /\
    fpi_print_bz3_match Sample.probe_init Sample.to_gallery
                        Sample.gallery_print probe 2 = Returned r /\
    match_result r <> FPI_MATCH_ERROR.
Proof.
  eexists.
  assert (Hnew : fp_print_new Sample.minutia Sample.finger_valid Sample.device
                 = Returned ?[new]) by reflexivity.
  destruct (probe_from_image_is_matched Sample.minutia Sample.finger_valid
              Sample.lfs2nist Sample.reliability Sample.sort_x_y Sample.qsort
              Sample.probe_init Sample.to_gallery Sample.device _ Sample.gallery_print
              Sample.image_201 Sample.minutiae_201
              [Sample.template [9; 9; 9] [0; 0; 0] [0; 0; 0];
               Sample.template [1; 2; 3] [4; 4; 4] [0; 0; 0];
               Sample.template [1; 9; 9] [0; 0; 0] [0; 0; 0]] 2
              sample_qsort_permutation Hnew eq_refl)
    as (probe & xyt & r & again & Hprobe & _ & _ & Hmatch & Hresult & _).
  - intro E. apply (f_equal (@length _)) in E. vm_compute in E. discriminate E.
  - vm_compute. discriminate.
  - reflexivity.
  - reflexivity.
  - exists probe, r. split; [exact Hnew|]. split; [exact Hprobe|].
    split; [exact Hmatch | exact Hresult].
Defined.

(** Raw data stored in the sample NBIS print, which has a description, and
    in the sample raw print, which has none. *)
Lemma set_fp_data_unrefs_description_witness :
  fp_print_set_property Sample.nbis_print (PROP_FPI_DATA (Some (GV_int32 7)))
  = Aborted OutOfContract /\
  g_object_set Sample.finger_valid Sample.nbis_print [PROP_FPI_DATA (Some (GV_int32 7))]
  = Aborted OutOfContract /\
  fp_print_set_property Sample.raw_print (PROP_FPI_DATA (Some (GV_int32 7)))
  = Returned (set_data Sample.raw_print (Some (GV_int32 7))).
Proof.
  destruct (set_fp_data_unrefs_description Sample.minutia Sample.finger_valid
              Sample.nbis_print (Some (GV_int32 7))) as (Hset & Hunref & _).
  destruct (set_fp_data_unrefs_description Sample.minutia Sample.finger_valid
              Sample.raw_print (Some (GV_int32 7))) as (_ & _ & Hstore).
  split; [apply Hunref; discriminate|].
  split; [rewrite Hset; apply Hunref; discriminate|].
  destruct (Hstore eq_refl) as (self' & Hself' & _).
  rewrite Hself'. vm_compute in Hself'. injection Hself' as <-. reflexivity.
Defined.

(** A description stored in the sample NBIS print is read back and its
    username is still unset; raw data stored in it returns nothing. *)
Lemma fp_print_get_property_after_set_witness :
  (exists self',
     fp_print_set_property Sample.nbis_print (PROP_DESCRIPTION (Some "thumb"%string))
     = Returned self' /\
     fp_print_get_property self' PropId.PROP_DESCRIPTION
     = G_VALUE_string Sample.minutia (Some "thumb"%string) /\
     fp_print_get_property self' PropId.PROP_USERNAME
     = G_VALUE_string Sample.minutia None) /\
  fp_print_set_property Sample.nbis_print (PROP_FPI_DATA None) = Aborted OutOfContract.
Proof.
  split.
  - destruct (fp_print_get_property_after_set Sample.minutia Sample.nbis_print
                (PROP_DESCRIPTION (Some "thumb"%string))) as (_ & Hreturns).
    destruct Hreturns as (self' & Hset & Hread & _ & Hothers).
    + intros value H. discriminate H.
    + exists self'. split; [exact Hset|]. split.
      * apply Hread. intros value H. discriminate H.
      * rewrite (Hothers PropId.PROP_USERNAME); [reflexivity | discriminate].
  - destruct (fp_print_get_property_after_set Sample.minutia Sample.nbis_print
                (PROP_FPI_DATA None)) as (Haborts & _).
    apply (Haborts None eq_refl). discriminate.
Defined.

(** The sample print with a username in ISO 8859-1 comes back with the
    text that the container stores in its place, and equal to the
    original. *)
Lemma fp_print_roundtrip_invalid_utf8_witness :
  exists bytes print',
    fp_print_serialize G_LITTLE_ENDIAN TagCodec.store Sample.latin1_print
    = Returned bytes /\
    fp_print_deserialize Sample.minutia Sample.finger_valid G_LITTLE_ENDIAN
                         TagCodec.load bytes = Returned print' /\
    fp_print_get_username Sample.latin1_print = Some Sample.latin1_username /\
    fp_print_get_username print' = Some "[Invalid UTF-8]"%string /\
    fp_print_equal print' Sample.latin1_print = Returned true.
Proof.
  destruct (fp_print_roundtrip_invalid_utf8 Sample.minutia Sample.finger_valid
              TagCodec.store TagCodec.load Sample.latin1_print
              Sample.latin1_print_value)
    as (bytes & print' & Hser & Hdes & _ & _ & _ & _ & Husername & _ & Hequal).
  - vm_compute. reflexivity.
  - vm_compute. reflexivity.
  - vm_compute. reflexivity.
  - vm_compute. discriminate.
  - exists bytes, print'. split; [exact Hser|]. split; [exact Hdes|].
    split; [reflexivity|]. split.
    + apply (Husername Sample.latin1_username); [reflexivity | vm_compute; reflexivity].
    + apply Hequal. split; vm_compute; reflexivity.
Defined.
